(** * MatchLife backend: likes, matches, chat, moderation and search

    A shallow embedding of [main.py] and [schemas.py].  Request handlers
    become functions on an explicit database state; a raised exception is
    the [Raise] branch of [Result].  The MongoDB collections [user] and
    [message] are a finite map from [ObjectId] to documents and a list of
    message documents. *)

From Stdlib Require Import ZArith String Ascii List Bool Lia.
From stdpp Require Import base option list gmap strings.

Local Open Scope Z_scope.

(** ** Python values the handlers work with *)

Module Py.

(** Exceptions that leave a handler.  [HTTPException] is what the code
    raises itself; [ValueError] and [OverflowError] come out of
    [datetime.date] and are not caught anywhere;
    [RequestValidationError] is raised for a request body that the
    handler's pydantic model refuses, before the handler is called. *)
Inductive Exception :=
| HTTPException (status_code : Z) (detail : string)
| ValueError
| OverflowError
| RequestValidationError.

Inductive Result (A : Type) :=
| Return (a : A)
| Raise (e : Exception).
Global Arguments Return {A} a.
Global Arguments Raise {A} e.

Global Instance Result_ret : MRet Result := λ A a, Return a.
Global Instance Result_bind : MBind Result := λ A B k r,
  match r with
  | Return a => k a
  | Raise e => Raise e
  end.

(** [sep.join(l)] *)
Fixpoint join (sep : string) (l : list string) : string :=
  match l with
  | [] => ""
  | [s] => s
  | s :: rest => s +:+ sep +:+ join sep rest
  end.

(** [sorted(l)] on strings: a stable sort that only asks [y < x].
    A [str] is held as its UTF-8 bytes, whose order is the order of the
    code points that Python compares. *)
Fixpoint insort (x : string) (l : list string) : list string :=
  match l with
  | [] => [x]
  | y :: rest => if String.ltb y x then y :: insort x rest else x :: y :: rest
  end.

Definition sorted (l : list string) : list string := foldr insort [] l.

(** [x in l] for a list of strings *)
Definition contains (x : string) (l : list string) : bool :=
  bool_decide (x ∈ l).

(** [o is not None] *)
Definition is_not_None {A} (o : option A) : bool :=
  match o with Some _ => true | None => false end.

(** [s.startswith(p)] *)
Fixpoint startswith (s p : string) {struct p} : bool :=
  match p, s with
  | EmptyString, _ => true
  | String a p', String b s' => Ascii.eqb a b && startswith s' p'
  | String _ _, EmptyString => false
  end.

(** Truth value of a [str]: empty is false. *)
Definition truthy (s : string) : bool := negb (String.eqb s "").

End Py.

Export Py.


(** ** [datetime.date]

    [date(y, m, d)] first reads its three arguments as C [int]s and raises
    [OverflowError] for one that does not fit; it then raises [ValueError]
    unless the three numbers name a day of the proleptic Gregorian
    calendar with [1 <= y <= 9999]. *)
Record date := mkdate { year : Z; month : Z; day : Z }.

(** A Python [int] that fits a C [int]. *)
Definition c_int (z : Z) : bool := (-2147483648 <=? z) && (z <=? 2147483647).

Definition is_leap (y : Z) : bool :=
  (y mod 4 =? 0) && (negb (y mod 100 =? 0) || (y mod 400 =? 0)).

Definition days_in_month (y m : Z) : Z :=
  if m =? 2 then (if is_leap y then 29 else 28)
  else if (m =? 4) || (m =? 6) || (m =? 9) || (m =? 11) then 30
  else 31.

Definition date_ok (y m d : Z) : bool :=
  (1 <=? y) && (y <=? 9999) && (1 <=? m) && (m <=? 12) &&
  (1 <=? d) && (d <=? days_in_month y m).

Definition date_new (y m d : Z) : Result date :=
  if negb (c_int y && c_int m && c_int d) then Raise OverflowError
  else if date_ok y m d then Return (mkdate y m d)
  else Raise ValueError.

Definition date_valid (d : date) : bool := date_ok (year d) (month d) (day d).

Definition digit (n : Z) : ascii := ascii_of_nat (48 + Z.to_nat n).

Definition pad2 (n : Z) : string :=
  String (digit (n / 10)) (String (digit (n mod 10)) "").

Definition pad4 (n : Z) : string := pad2 (n / 100) +:+ pad2 (n mod 100).

(** [d.isoformat()], that is [YYYY-MM-DD] *)
Definition isoformat (d : date) : string :=
  pad4 (year d) +:+ "-" +:+ pad2 (month d) +:+ "-" +:+ pad2 (day d).

(** The order of the calendar *)
Definition date_compare (d1 d2 : date) : comparison :=
  match year d1 ?= year d2 with
  | Eq => match month d1 ?= month d2 with
          | Eq => day d1 ?= day d2
          | c => c
          end
  | c => c
  end.

(** ** [schemas.py] *)

Inductive Religion :=
| Islam | Katolik | Protestan | Hindu | Budha | Khonghucu | Agnostik | Lainnya.
Inductive Religiosity := tidak_menjalankan | level_moderat | strict.
Inductive MaritalStatus := lajang | duda | janda.
Inductive LifestyleSmoking := merokok_tidak | merokok_kadang | merokok_sering.
Inductive LifestyleAlcohol := alkohol_tidak | alkohol_sosial | alkohol_sering.
Inductive Diet := bebas | vegetarian | vegan | halal | diet_lainnya.
Inductive PhysicalActivity := rendah | sedang | tinggi.
Inductive SleepHabit := malam | pagi | fleksibel.
Inductive TimeManagement := terencana | spontan | campuran.
Inductive ShoppingHabit := hemat | belanja_moderat | boros.

(** The [str] each [Literal] member is. *)
Definition Religion_str (r : Religion) : string :=
  match r with
  | Islam => "Islam" | Katolik => "Katolik" | Protestan => "Protestan"
  | Hindu => "Hindu" | Budha => "Budha" | Khonghucu => "Khonghucu"
  | Agnostik => "Agnostik" | Lainnya => "Lainnya"
  end.
Definition Religiosity_str (r : Religiosity) : string :=
  match r with
  | tidak_menjalankan => "tidak menjalankan"
  | level_moderat => "moderat"
  | strict => "strict"
  end.
Definition MaritalStatus_str (m : MaritalStatus) : string :=
  match m with lajang => "lajang" | duda => "duda" | janda => "janda" end.
Definition LifestyleSmoking_str (x : LifestyleSmoking) : string :=
  match x with
  | merokok_tidak => "tidak" | merokok_kadang => "kadang" | merokok_sering => "sering"
  end.
Definition LifestyleAlcohol_str (x : LifestyleAlcohol) : string :=
  match x with
  | alkohol_tidak => "tidak" | alkohol_sosial => "sosial" | alkohol_sering => "sering"
  end.
Definition Diet_str (x : Diet) : string :=
  match x with
  | bebas => "bebas" | vegetarian => "vegetarian" | vegan => "vegan"
  | halal => "halal" | diet_lainnya => "lainnya"
  end.
Definition PhysicalActivity_str (x : PhysicalActivity) : string :=
  match x with rendah => "rendah" | sedang => "sedang" | tinggi => "tinggi" end.
Definition SleepHabit_str (x : SleepHabit) : string :=
  match x with malam => "malam" | pagi => "pagi" | fleksibel => "fleksibel" end.
Definition TimeManagement_str (x : TimeManagement) : string :=
  match x with
  | terencana => "terencana" | spontan => "spontan" | campuran => "campuran"
  end.
Definition ShoppingHabit_str (x : ShoppingHabit) : string :=
  match x with hemat => "hemat" | belanja_moderat => "moderat" | boros => "boros" end.

Module Lifestyle.

Record t := mk {
  merokok : LifestyleSmoking;
  alkohol : LifestyleAlcohol;
  pola_makan : Diet;
  aktivitas_fisik : PhysicalActivity;
  kebiasaan_tidur : SleepHabit;
  pengelolaan_waktu : TimeManagement;
  kebiasaan_belanja : ShoppingHabit
}.

(** The sub-attributes a request body carries for a [Lifestyle]; a key
    that is left out is [None]. *)
Record fields := mk_fields {
  f_merokok : option LifestyleSmoking;
  f_alkohol : option LifestyleAlcohol;
  f_pola_makan : option Diet;
  f_aktivitas_fisik : option PhysicalActivity;
  f_kebiasaan_tidur : option SleepHabit;
  f_pengelolaan_waktu : option TimeManagement;
  f_kebiasaan_belanja : option ShoppingHabit
}.

Definition no_fields : fields := mk_fields None None None None None None None.

(** Validation of a body into the model: every attribute has a
    [Field(default=...)], so a key that is left out takes its default. *)
Definition validate (f : fields) : t :=
  {| merokok := default merokok_tidak (f_merokok f);
     alkohol := default alkohol_tidak (f_alkohol f);
     pola_makan := default bebas (f_pola_makan f);
     aktivitas_fisik := default sedang (f_aktivitas_fisik f);
     kebiasaan_tidur := default fleksibel (f_kebiasaan_tidur f);
     pengelolaan_waktu := default campuran (f_pengelolaan_waktu f);
     kebiasaan_belanja := default belanja_moderat (f_kebiasaan_belanja f) |}.

(** [model_dump(exclude_none=True).items()]: the attributes in declaration
    order.  No attribute of a validated [Lifestyle] is [None], so
    [exclude_none] drops nothing. *)
Definition model_dump (l : t) : list (string * string) :=
  [ ("merokok", LifestyleSmoking_str (merokok l));
    ("alkohol", LifestyleAlcohol_str (alkohol l));
    ("pola_makan", Diet_str (pola_makan l));
    ("aktivitas_fisik", PhysicalActivity_str (aktivitas_fisik l));
    ("kebiasaan_tidur", SleepHabit_str (kebiasaan_tidur l));
    ("pengelolaan_waktu", TimeManagement_str (pengelolaan_waktu l));
    ("kebiasaan_belanja", ShoppingHabit_str (kebiasaan_belanja l)) ].

End Lifestyle.

Module SocialLinks.

Record t := mk {
  instagram : option string;
  facebook : option string;
  twitter : option string;
  linkedin : option string;
  tiktok : option string
}.

End SocialLinks.

(** [$addToSet] on an array of strings: append unless already present. *)
Definition addToSet (x : string) (l : list string) : list string :=
  if contains x l then l else l ++ [x].

(** A document of the [user] collection holds the attributes of [User];
    its [_id] is the key it is stored under. *)
Module User.

Record t := mk {
  email : string;
  name : string;
  tanggal_lahir : date;
  status : MaritalStatus;
  agama : Religion;
  level_agama : Religiosity;
  suku : option string;
  hobi : list string;
  tinggi_cm : option Z;
  berat_kg : option Z;
  berkacamata : option bool;
  alamat_asli : option string;
  alamat_domisili : option string;
  jumlah_saudara : option Z;
  kondisi_keluarga : option string;
  riwayat_penyakit : option string;
  pekerjaan : option string;
  usaha_sampingan : option string;
  pendapatan_per_bulan : option Z;
  pendidikan : option string;
  bahasa : list string;
  rencana_anak : option string;
  love_language : option string;
  lifestyle : Lifestyle.t;
  social : SocialLinks.t;
  kota : option string;
  foto_url : option string;
  verified : bool;
  approved : bool;
  liked_user_ids : list string;
  matches : list string
}.

(** [{"$set": {"approved": b}}] *)
Definition set_approved (b : bool) (u : t) : t :=
  {|
     email := email u;
     name := name u;
     tanggal_lahir := tanggal_lahir u;
     status := status u;
     agama := agama u;
     level_agama := level_agama u;
     suku := suku u;
     hobi := hobi u;
     tinggi_cm := tinggi_cm u;
     berat_kg := berat_kg u;
     berkacamata := berkacamata u;
     alamat_asli := alamat_asli u;
     alamat_domisili := alamat_domisili u;
     jumlah_saudara := jumlah_saudara u;
     kondisi_keluarga := kondisi_keluarga u;
     riwayat_penyakit := riwayat_penyakit u;
     pekerjaan := pekerjaan u;
     usaha_sampingan := usaha_sampingan u;
     pendapatan_per_bulan := pendapatan_per_bulan u;
     pendidikan := pendidikan u;
     bahasa := bahasa u;
     rencana_anak := rencana_anak u;
     love_language := love_language u;
     lifestyle := lifestyle u;
     social := social u;
     kota := kota u;
     foto_url := foto_url u;
     verified := verified u;
     approved := b;
     liked_user_ids := liked_user_ids u;
     matches := matches u |}.

(** [{"$set": {"verified": b}}] *)
Definition set_verified (b : bool) (u : t) : t :=
  {|
     email := email u;
     name := name u;
     tanggal_lahir := tanggal_lahir u;
     status := status u;
     agama := agama u;
     level_agama := level_agama u;
     suku := suku u;
     hobi := hobi u;
     tinggi_cm := tinggi_cm u;
     berat_kg := berat_kg u;
     berkacamata := berkacamata u;
     alamat_asli := alamat_asli u;
     alamat_domisili := alamat_domisili u;
     jumlah_saudara := jumlah_saudara u;
     kondisi_keluarga := kondisi_keluarga u;
     riwayat_penyakit := riwayat_penyakit u;
     pekerjaan := pekerjaan u;
     usaha_sampingan := usaha_sampingan u;
     pendapatan_per_bulan := pendapatan_per_bulan u;
     pendidikan := pendidikan u;
     bahasa := bahasa u;
     rencana_anak := rencana_anak u;
     love_language := love_language u;
     lifestyle := lifestyle u;
     social := social u;
     kota := kota u;
     foto_url := foto_url u;
     verified := b;
     approved := approved u;
     liked_user_ids := liked_user_ids u;
     matches := matches u |}.

(** [{"$addToSet": {"liked_user_ids": x}}] *)
Definition addToSet_liked_user_ids (x : string) (u : t) : t :=
  {|
     email := email u;
     name := name u;
     tanggal_lahir := tanggal_lahir u;
     status := status u;
     agama := agama u;
     level_agama := level_agama u;
     suku := suku u;
     hobi := hobi u;
     tinggi_cm := tinggi_cm u;
     berat_kg := berat_kg u;
     berkacamata := berkacamata u;
     alamat_asli := alamat_asli u;
     alamat_domisili := alamat_domisili u;
     jumlah_saudara := jumlah_saudara u;
     kondisi_keluarga := kondisi_keluarga u;
     riwayat_penyakit := riwayat_penyakit u;
     pekerjaan := pekerjaan u;
     usaha_sampingan := usaha_sampingan u;
     pendapatan_per_bulan := pendapatan_per_bulan u;
     pendidikan := pendidikan u;
     bahasa := bahasa u;
     rencana_anak := rencana_anak u;
     love_language := love_language u;
     lifestyle := lifestyle u;
     social := social u;
     kota := kota u;
     foto_url := foto_url u;
     verified := verified u;
     approved := approved u;
     liked_user_ids := addToSet x (liked_user_ids u);
     matches := matches u |}.

(** [{"$addToSet": {"matches": x}}] *)
Definition addToSet_matches (x : string) (u : t) : t :=
  {|
     email := email u;
     name := name u;
     tanggal_lahir := tanggal_lahir u;
     status := status u;
     agama := agama u;
     level_agama := level_agama u;
     suku := suku u;
     hobi := hobi u;
     tinggi_cm := tinggi_cm u;
     berat_kg := berat_kg u;
     berkacamata := berkacamata u;
     alamat_asli := alamat_asli u;
     alamat_domisili := alamat_domisili u;
     jumlah_saudara := jumlah_saudara u;
     kondisi_keluarga := kondisi_keluarga u;
     riwayat_penyakit := riwayat_penyakit u;
     pekerjaan := pekerjaan u;
     usaha_sampingan := usaha_sampingan u;
     pendapatan_per_bulan := pendapatan_per_bulan u;
     pendidikan := pendidikan u;
     bahasa := bahasa u;
     rencana_anak := rencana_anak u;
     love_language := love_language u;
     lifestyle := lifestyle u;
     social := social u;
     kota := kota u;
     foto_url := foto_url u;
     verified := verified u;
     approved := approved u;
     liked_user_ids := liked_user_ids u;
     matches := addToSet x (matches u) |}.
End User.

Module Like.
Record t := mk { from_user_id : string; to_user_id : string }.
End Like.

(** [SendMessage] of [main.py] *)
Module SendMessage.
Record t := mk { from_user_id : string; to_user_id : string; text : string }.
End SendMessage.

(** A document of the [message] collection as [send_message] writes it;
    [created_at] is the reading of the clock. *)
Module Message.
Record t := mk { match_id : string; sender_id : string; text : string; created_at : Z }.
End Message.

(** [action] is a [Literal] of four names; the handler compares its
    [str] against them and has a branch for anything else. *)
Module AdminAction.

Inductive Action := approve | reject | verify | unverify.

(** The [str] each member is. *)
Definition Action_str (a : Action) : string :=
  match a with
  | approve => "approve" | reject => "reject"
  | verify => "verify" | unverify => "unverify"
  end.

Record t := mk { user_id : string; action : Action }.

(** Validation of the [action] of a request body: a [str] that is one of
    the four names. *)
Definition Action_validate (s : string) : option Action :=
  if String.eqb s "approve" then Some approve
  else if String.eqb s "reject" then Some reject
  else if String.eqb s "verify" then Some verify
  else if String.eqb s "unverify" then Some unverify
  else None.

(** [AdminAction(user_id=..., action=...)] on the two strings of a request
    body; [None] where validation fails. *)
Definition validate (user_id action : string) : option t :=
  mk user_id <$> Action_validate action.

End AdminAction.

Module SearchQuery.

Record t := mk {
  usia_min : option Z;
  usia_max : option Z;
  lokasi : option string;
  agama : option Religion;
  level_agama : option Religiosity;
  pekerjaan : option string;
  pendapatan_min : option Z;
  pendidikan : option string;
  lifestyle : option Lifestyle.t
}.

Definition empty : t := mk None None None None None None None None None.

End SearchQuery.

(** The error kinds of the specification are HTTP status codes here. *)
Definition NotFound : Z := 404.
Definition InvalidOperation : Z := 400.
Definition Forbidden : Z := 403.
Definition UpstreamFailure : Z := 500.

(** ** Conversation identity

    [main.py] builds the key in place, in [send_message] and in
    [get_user_chats]: ["-".join(sorted([a, b]))]. *)
Definition match_id (a b : string) : string := join "-" (sorted [a; b]).

(** No ["-"] in the string, as in a printed [ObjectId]. *)
Fixpoint dash_free (s : string) : bool :=
  match s with
  | EmptyString => true
  | String c rest => negb (Ascii.eqb c "-") && dash_free rest
  end.

(** ** Filter documents

    [filters : Dict[str, Any]] maps a field path to a value (equality) or
    to a dictionary of operators. *)
Inductive Value :=
| VNull
| VBool (b : bool)
| VInt (n : Z)
| VStr (s : string)
| VArr (l : list string).

Global Instance Value_eq_dec : EqDecision Value.
Proof. solve_decision. Defined.

Inductive Filter :=
| FValue (v : Value)
| FOps (ops : gmap string Value).

(** [if x:] on an [Optional[str]] *)
Definition truthy_opt (o : option string) : bool :=
  match o with Some s => truthy s | None => false end.

Definition regex_i (pattern : string) : Filter :=
  FOps (<["$options" := VStr "i"]> {["$regex" := VStr pattern]}).

(** Lines 111 to 121 of [search_profiles]: the birth-date conditions. *)
Definition age_conditions (today : date) (usia_min usia_max : option Z)
  : Result (gmap string Value) :=
  let conditions : gmap string Value := ∅ in
  conditions ←
    match usia_min with
    | Some a =>
        max_birth ← date_new (year today - a) (month today) (day today);
        Return (<["$lte" := VStr (isoformat max_birth)]> conditions)
    | None => Return conditions
    end;
  match usia_max with
  | Some b =>
      min_birth ← date_new (year today - b - 1) (month today) (day today);
      Return (<["$gte" := VStr (isoformat min_birth)]> conditions)
  | None => Return conditions
  end.

(** Lines 135 to 137: one entry per item of the dumped [Lifestyle]. *)
Definition lifestyle_filters (l : Lifestyle.t) (filters : gmap string Filter)
  : gmap string Filter :=
  foldl (λ acc kv, <["lifestyle." +:+ kv.1 := FValue (VStr kv.2)]> acc)
        filters (Lifestyle.model_dump l).

(** Lines 111 to 121: the entry for the birth date, when an age bound is
    given. *)
Definition age_filter (today : date) (q : SearchQuery.t)
    (filters : gmap string Filter) : Result (gmap string Filter) :=
  if is_not_None (SearchQuery.usia_min q) || is_not_None (SearchQuery.usia_max q)
  then
    conditions ← age_conditions today (SearchQuery.usia_min q) (SearchQuery.usia_max q);
    Return (<["tanggal_lahir" := FOps conditions]> filters)
  else Return filters.

(** Lines 122 to 137: the entries for the other fields of the query. *)
Definition field_filters (q : SearchQuery.t) (filters : gmap string Filter)
  : gmap string Filter :=
  let filters :=
    match SearchQuery.lokasi q with
    | Some s => if truthy s then <["kota" := regex_i s]> filters else filters
    | None => filters
    end in
  let filters :=
    match SearchQuery.agama q with
    | Some r => <["agama" := FValue (VStr (Religion_str r))]> filters
    | None => filters
    end in
  let filters :=
    match SearchQuery.level_agama q with
    | Some r => <["level_agama" := FValue (VStr (Religiosity_str r))]> filters
    | None => filters
    end in
  let filters :=
    match SearchQuery.pekerjaan q with
    | Some s => if truthy s then <["pekerjaan" := regex_i s]> filters else filters
    | None => filters
    end in
  let filters :=
    match SearchQuery.pendapatan_min q with
    | Some n => <["pendapatan_per_bulan" := FOps {["$gte" := VInt n]}]> filters
    | None => filters
    end in
  let filters :=
    match SearchQuery.pendidikan q with
    | Some s => if truthy s then <["pendidikan" := regex_i s]> filters else filters
    | None => filters
    end in
  match SearchQuery.lifestyle q with
  | Some l => lifestyle_filters l filters
  | None => filters
  end.

(** Lines 109 to 137 of [search_profiles]: the filter document handed to
    [get_documents].  [today] is [date.today()]. *)
Definition search_filters (today : date) (q : SearchQuery.t)
  : Result (gmap string Filter) :=
  let filters : gmap string Filter := {["approved" := FValue (VBool true)]} in
  filters ← age_filter today q filters;
  Return (field_filters q filters).

(** ** Matching a stored profile against a filter document *)

Definition opt_value {A} (f : A → Value) (o : option A) : Value :=
  match o with Some a => f a | None => VNull end.

(** Modelled from the spec: [database.py] is not part of the sources, so
    the stored shape of a profile is taken from section 3 and from the
    filters [search_profiles] builds for it: one entry per attribute of
    [User], nested attributes under their dotted path, and the birth date
    as the ISO string the age bounds are compared with. *)
Definition User_document (u : User.t) : gmap string Value :=
  list_to_map
    [ ("email", VStr (User.email u));
      ("name", VStr (User.name u));
      ("tanggal_lahir", VStr (isoformat (User.tanggal_lahir u)));
      ("status", VStr (MaritalStatus_str (User.status u)));
      ("agama", VStr (Religion_str (User.agama u)));
      ("level_agama", VStr (Religiosity_str (User.level_agama u)));
      ("suku", opt_value VStr (User.suku u));
      ("hobi", VArr (User.hobi u));
      ("tinggi_cm", opt_value VInt (User.tinggi_cm u));
      ("berat_kg", opt_value VInt (User.berat_kg u));
      ("berkacamata", opt_value VBool (User.berkacamata u));
      ("alamat_asli", opt_value VStr (User.alamat_asli u));
      ("alamat_domisili", opt_value VStr (User.alamat_domisili u));
      ("jumlah_saudara", opt_value VInt (User.jumlah_saudara u));
      ("kondisi_keluarga", opt_value VStr (User.kondisi_keluarga u));
      ("riwayat_penyakit", opt_value VStr (User.riwayat_penyakit u));
      ("pekerjaan", opt_value VStr (User.pekerjaan u));
      ("usaha_sampingan", opt_value VStr (User.usaha_sampingan u));
      ("pendapatan_per_bulan", opt_value VInt (User.pendapatan_per_bulan u));
      ("pendidikan", opt_value VStr (User.pendidikan u));
      ("bahasa", VArr (User.bahasa u));
      ("rencana_anak", opt_value VStr (User.rencana_anak u));
      ("love_language", opt_value VStr (User.love_language u));
      ("lifestyle.merokok",
        VStr (LifestyleSmoking_str (Lifestyle.merokok (User.lifestyle u))));
      ("lifestyle.alkohol",
        VStr (LifestyleAlcohol_str (Lifestyle.alkohol (User.lifestyle u))));
      ("lifestyle.pola_makan",
        VStr (Diet_str (Lifestyle.pola_makan (User.lifestyle u))));
      ("lifestyle.aktivitas_fisik",
        VStr (PhysicalActivity_str (Lifestyle.aktivitas_fisik (User.lifestyle u))));
      ("lifestyle.kebiasaan_tidur",
        VStr (SleepHabit_str (Lifestyle.kebiasaan_tidur (User.lifestyle u))));
      ("lifestyle.pengelolaan_waktu",
        VStr (TimeManagement_str (Lifestyle.pengelolaan_waktu (User.lifestyle u))));
      ("lifestyle.kebiasaan_belanja",
        VStr (ShoppingHabit_str (Lifestyle.kebiasaan_belanja (User.lifestyle u))));
      ("social.instagram", opt_value VStr (SocialLinks.instagram (User.social u)));
      ("social.facebook", opt_value VStr (SocialLinks.facebook (User.social u)));
      ("social.twitter", opt_value VStr (SocialLinks.twitter (User.social u)));
      ("social.linkedin", opt_value VStr (SocialLinks.linkedin (User.social u)));
      ("social.tiktok", opt_value VStr (SocialLinks.tiktok (User.social u)));
      ("kota", opt_value VStr (User.kota u));
      ("foto_url", opt_value VStr (User.foto_url u));
      ("verified", VBool (User.verified u));
      ("approved", VBool (User.approved u));
      ("liked_user_ids", VArr (User.liked_user_ids u));
      ("matches", VArr (User.matches u)) ].

(** Order of two values of one type; values of different types are never
    in range of each other. *)
Definition value_leb (a b : Value) : bool :=
  match a, b with
  | VStr x, VStr y => String.leb x y
  | VInt x, VInt y => x <=? y
  | _, _ => false
  end.

(** Equality match: the field holds the value, or is an array with the
    value among its elements; [null] also matches a field that is not
    there. *)
Definition value_matches (expected : Value) (v : option Value) : bool :=
  match v with
  | Some (VArr l) =>
      bool_decide (expected = VArr l) ||
      match expected with VStr s => contains s l | _ => false end
  | Some x => bool_decide (x = expected)
  | None => bool_decide (expected = VNull)
  end.

Section Matching.

(** [re_search pattern options s]: the store's pattern search, with the
    flags of [$options]. *)
Variable re_search : string → string → string → bool.

Definition op_holds (ops : gmap string Value) (v : option Value)
    (op : string) (arg : Value) : bool :=
  if String.eqb op "$lte" then
    match v with Some x => value_leb x arg | None => false end
  else if String.eqb op "$gte" then
    match v with Some x => value_leb arg x | None => false end
  else if String.eqb op "$regex" then
    match v, arg with
    | Some (VStr s), VStr pattern =>
        re_search pattern
          (match ops !! "$options" with Some (VStr o) => o | _ => "" end) s
    | _, _ => false
    end
  else String.eqb op "$options".

Definition filter_holds (f : Filter) (v : option Value) : bool :=
  match f with
  | FValue expected => value_matches expected v
  | FOps ops => forallb (λ kv, op_holds ops v kv.1 kv.2) (map_to_list ops)
  end.

(** A profile is selected when every entry of the filter document holds
    of it. *)
Definition doc_matches (filters : gmap string Filter) (u : User.t) : bool :=
  forallb (λ kf, filter_holds kf.2 (User_document u !! kf.1))
          (map_to_list filters).

End Matching.

(** ** The database and the request handlers *)

Section Backend.

(** [bson.ObjectId]: the identifiers of the store.  [ObjectId_new s] is
    [ObjectId(s)], with [None] where it raises [InvalidId];
    [ObjectId_str] is [str]. *)
Context `{Countable ObjectId}.
Variable ObjectId_new : string → option ObjectId.
Variable ObjectId_str : ObjectId → string.
Variable re_search : string → string → string → bool.

(** [db["user"]] and [db["message"]] *)
Record DB := mkDB {
  user : gmap ObjectId User.t;
  message : list Message.t
}.

Definition oid (id_str : string) : Result ObjectId :=
  match ObjectId_new id_str with
  | Some o => Return o
  | None => Raise (HTTPException 400 "Invalid ID")
  end.

(** [db["user"].find_one({"_id": o})] *)
Definition find_one (db : DB) (o : ObjectId) : option User.t := user db !! o.

(** [db["user"].update_one({"_id": o}, update)] *)
Definition update_one (o : ObjectId) (update : User.t → User.t) (db : DB) : DB :=
  {| user := alter update o (user db); message := message db |}.

(** [db["user"].delete_one({"_id": o})] *)
Definition delete_one (o : ObjectId) (db : DB) : DB :=
  {| user := delete o (user db); message := message db |}.

(** [db["message"].insert_one(doc)] *)
Definition insert_one (doc : Message.t) (db : DB) : DB :=
  {| user := user db; message := message db ++ [doc] |}.

(** [user_to_public]: the document with its [_id] turned into the string
    [id]. *)
Definition user_to_public (d : ObjectId * User.t) : string * User.t :=
  (ObjectId_str d.1, d.2).

(** Modelled from the spec: [get_documents] of [database.py] is not part
    of the sources; by section 6 ([findByFilterSet]) it returns the
    documents of the collection that satisfy the predicate set. *)
Definition get_documents (db : DB) (filters : gmap string Filter)
  : list (ObjectId * User.t) :=
  filter (λ d, doc_matches re_search filters d.2 = true) (map_to_list (user db)).

Definition search_profiles (today : date) (db : DB) (q : SearchQuery.t)
  : Result (list (string * User.t)) :=
  filters ← search_filters today q;
  let docs := get_documents db filters in
  Return (user_to_public <$> docs).

(** [like_user].  Every [raise] comes before the first write, so a
    [Raise] leaves the database as it was. *)
Definition like_user (db : DB) (payload : Like.t) : Result (DB * bool) :=
  if decide (Like.from_user_id payload = Like.to_user_id payload)
  then Raise (HTTPException 400 "Cannot like yourself")
  else
    id_from ← oid (Like.from_user_id payload);
    let u_from := find_one db id_from in
    id_to ← oid (Like.to_user_id payload);
    let u_to := find_one db id_to in
    match u_from, u_to with
    | Some u_from, Some u_to =>
        let db :=
          update_one id_from
            (User.addToSet_liked_user_ids (Like.to_user_id payload)) db in
        let is_mutual :=
          contains (Like.from_user_id payload) (User.liked_user_ids u_to) in
        let db :=
          if is_mutual then
            update_one id_to (User.addToSet_matches (Like.from_user_id payload))
              (update_one id_from
                 (User.addToSet_matches (Like.to_user_id payload)) db)
          else db in
        Return (db, is_mutual)
    | _, _ => Raise (HTTPException 404 "User not found")
    end.

(** [send_message]; [now] is [datetime.utcnow()]. *)
Definition send_message (now : Z) (db : DB) (payload : SendMessage.t)
  : Result (DB * bool) :=
  id_from ← oid (SendMessage.from_user_id payload);
  match find_one db id_from with
  | None => Raise (HTTPException 404 "Sender not found")
  | Some u_from =>
      if negb (contains (SendMessage.to_user_id payload) (User.matches u_from))
      then Raise (HTTPException 403 "You can only message matched users")
      else
        let doc :=
          {| Message.match_id :=
               match_id (SendMessage.from_user_id payload)
                        (SendMessage.to_user_id payload);
             Message.sender_id := SendMessage.from_user_id payload;
             Message.text := SendMessage.text payload;
             Message.created_at := now |} in
        Return (insert_one doc db, true)
  end.

(** [admin_action].  Here too nothing is written before a [raise]. *)
Definition admin_action (db : DB) (action : AdminAction.t) : Result (DB * bool) :=
  id ← oid (AdminAction.user_id action);
  match find_one db id with
  | None => Raise (HTTPException 404 "User not found")
  | Some _ =>
      if String.eqb (AdminAction.Action_str (AdminAction.action action)) "approve"
      then Return (update_one id (User.set_approved true) db, true)
      else if String.eqb (AdminAction.Action_str (AdminAction.action action)) "reject"
      then Return (delete_one id db, true)
      else if String.eqb (AdminAction.Action_str (AdminAction.action action)) "verify"
      then Return (update_one id (User.set_verified true) db, true)
      else if String.eqb (AdminAction.Action_str (AdminAction.action action)) "unverify"
      then Return (update_one id (User.set_verified false) db, true)
      else Raise (HTTPException 400 "Unknown action")
  end.

(** The route [POST /api/admin/action]: the [AdminAction] is built from
    the request body, and [admin_action] is called only with a body that
    the model accepts. *)
Definition admin_action_request (db : DB) (user_id action : string)
  : Result (DB * bool) :=
  match AdminAction.validate user_id action with
  | Some a => admin_action db a
  | None => Raise RequestValidationError
  end.

End Backend.

Global Arguments DB ObjectId {_ _}.
Global Arguments mkDB {ObjectId _ _} user message.

(** ** Payment *)

Module Stripe.
(** The arguments of [stripe.checkout.Session.create] that depend on the
    request. *)
Record request := mk {
  success_url : string;
  cancel_url : string;
  customer_email : string
}.
End Stripe.

Section Payment.

(** [os.getenv] and the payment provider: [inr url] is the session it
    returns, [inl msg] the exception it raises with [str(e) = msg]. *)
Variable getenv : string → option string.
Variable Session_create : Stripe.request → string + string.

Definition STRIPE_API_KEY : string := default "" (getenv "STRIPE_API_KEY").

(** The result comes with the calls made to the provider. *)
Definition create_checkout_session (email : string)
  : list Stripe.request * Result string :=
  if negb (truthy STRIPE_API_KEY) then
    ([], Return ("/onboarding?email=" +:+ email))
  else
    let frontend := default "http://localhost:3000" (getenv "FRONTEND_URL") in
    let req :=
      {| Stripe.success_url := frontend +:+ "/onboarding?email=" +:+ email;
         Stripe.cancel_url := frontend +:+ "/";
         Stripe.customer_email := email |} in
    ([req],
     match Session_create req with
     | inr url => Return url
     | inl msg => Raise (HTTPException 500 msg)
     end).

End Payment.

(** ** The other request handlers *)

Section OtherHandlers.

Context `{Countable ObjectId}.
Variable ObjectId_new : string → option ObjectId.
Variable ObjectId_str : ObjectId → string.
Variable re_search : string → string → string → bool.

(** [get_profile] *)
Definition get_profile (db : DB ObjectId) (user_id : string)
  : Result (string * User.t) :=
  id ← oid ObjectId_new user_id;
  match find_one db id with
  | None => Raise (HTTPException 404 "User not found")
  | Some doc => Return (user_to_public ObjectId_str (id, doc))
  end.

(** [[oid(mid) for mid in matches]]: the first identifier that is not an
    [ObjectId] raises. *)
Fixpoint oids (ids : list string) : Result (list ObjectId) :=
  match ids with
  | [] => Return []
  | mid :: rest =>
      o ← oid ObjectId_new mid;
      os ← oids rest;
      Return (o :: os)
  end.

(** [db["message"].find_one({"match_id": key}, sort=[("created_at", -1)])]:
    a message of the conversation with the greatest [created_at]; among
    several with that time, the one inserted first. *)
Definition find_last (msgs : list Message.t) (key : string) : option Message.t :=
  foldl
    (λ best m,
       if String.eqb (Message.match_id m) key then
         match best with
         | None => Some m
         | Some b =>
             if Message.created_at b <? Message.created_at m then Some m else Some b
         end
       else best)
    None msgs.

(** [get_user_chats]: one entry per profile found among the matches, with
    the text of the latest message of the conversation, if any.  The
    profiles come in the order of the collection. *)
Definition get_user_chats (db : DB ObjectId) (user_id : string)
  : Result (list ((string * User.t) * option string)) :=
  id ← oid ObjectId_new user_id;
  match find_one db id with
  | None => Raise (HTTPException 404 "User not found")
  | Some u =>
      let matches := User.matches u in
      match_docs ←
        match matches with
        | [] => Return []
        | _ :: _ =>
            ids ← oids matches;
            Return (filter (λ d, d.1 ∈ ids) (map_to_list (user db)))
        end;
      Return
        ((λ md,
            let match_id := match_id user_id (ObjectId_str md.1) in
            let last_msg := find_last (message db) match_id in
            (user_to_public ObjectId_str md, Message.text <$> last_msg))
           <$> match_docs)
  end.

(** [admin_list_users]: [get_documents("user")] has no filter, which is
    the empty filter document. *)
Definition admin_list_users (db : DB ObjectId) : list (string * User.t) :=
  user_to_public ObjectId_str <$> get_documents re_search db ∅.

(** [db["user"].count_documents(filter)], for a filter that holds of the
    profiles [P] accepts. *)
Definition count_documents (P : User.t → bool) (db : DB ObjectId) : nat :=
  size (filter (λ d, P d.2 = true) (user db)).

Record Stats := mkStats {
  total_users : nat;
  approved_users : nat;
  verified_users : nat;
  users_with_matches : nat
}.

(** [admin_stats].  [{"matches.0": {"$exists": True}}] holds of a profile
    whose [matches] has a first element. *)
Definition admin_stats (db : DB ObjectId) : Stats :=
  {| total_users := count_documents (λ _, true) db;
     approved_users := count_documents User.approved db;
     verified_users := count_documents User.verified db;
     users_with_matches :=
       count_documents
         (λ u, match User.matches u with [] => false | _ :: _ => true end) db |}.

(** ** Conditions on the stored likes and matches *)

(** Every match of a profile is among its likes. *)
Definition matches_are_liked (db : DB ObjectId) : Prop :=
  ∀ o u, user db !! o = Some u → User.matches u ⊆ User.liked_user_ids u.

(** Every match is returned: the matched identifier names a profile that
    holds an identifier of this profile among its own matches. *)
Definition matches_symmetric (db : DB ObjectId) : Prop :=
  ∀ oa ua s,
    user db !! oa = Some ua → s ∈ User.matches ua →
    ∃ ob ub s',
      ObjectId_new s = Some ob ∧ user db !! ob = Some ub ∧
      s' ∈ User.matches ub ∧ ObjectId_new s' = Some oa.

(** No identifier twice in an array of likes or matches. *)
Definition arrays_NoDup (db : DB ObjectId) : Prop :=
  ∀ o u, user db !! o = Some u →
         NoDup (User.liked_user_ids u) ∧ NoDup (User.matches u).

End OtherHandlers.

(** ** A concrete store for running the handlers

    [ObjectId(s)] takes a [str] of length 24 that [bytes.fromhex] reads,
    and holds the bytes; they are kept here as [str(ObjectId(s))] prints
    them, in hexadecimal digits of lower case. *)
Module Hex.

Definition is_hex (c : ascii) : bool :=
  let n := nat_of_ascii c in
  ((48 <=? n) && (n <=? 57) || (97 <=? n) && (n <=? 102) ||
   (65 <=? n) && (n <=? 70))%nat.

Definition lower (c : ascii) : ascii :=
  let n := nat_of_ascii c in
  if ((65 <=? n) && (n <=? 90))%nat then ascii_of_nat (n + 32) else c.

Fixpoint map_string (f : ascii → ascii) (s : string) : string :=
  match s with
  | EmptyString => EmptyString
  | String c rest => String (f c) (map_string f rest)
  end.

(** ASCII white space, which [bytes.fromhex] skips between bytes. *)
Definition is_space (c : ascii) : bool :=
  let n := nat_of_ascii c in
  ((n =? 32) || (9 <=? n) && (n <=? 13))%nat.

(** [bytes.fromhex(s)], with [None] where it raises [ValueError]. *)
Fixpoint fromhex (s : string) : option string :=
  match s with
  | EmptyString => Some EmptyString
  | String c rest =>
      if is_space c then fromhex rest
      else
        match rest with
        | String d rest' =>
            if is_hex c && is_hex d
            then (λ r, String (lower c) (String (lower d) r)) <$> fromhex rest'
            else None
        | EmptyString => None
        end
  end.

Definition ObjectId_new (s : string) : option string :=
  if (String.length s =? 24)%nat then fromhex s else None.

Definition ObjectId_str (o : string) : string := o.

(** A pattern search for the patterns of the samples, which are made of
    letters and digits only: such a pattern is found where it is a
    substring, compared without regard to case when the options hold
    [i]. *)
Fixpoint prefix_of (p s : string) : bool :=
  match p, s with
  | EmptyString, _ => true
  | String a p', String b s' => Ascii.eqb a b && prefix_of p' s'
  | String _ _, EmptyString => false
  end.

Fixpoint substring_of (p s : string) : bool :=
  prefix_of p s ||
  match s with
  | EmptyString => false
  | String _ s' => substring_of p s'
  end.

Definition re_search (pattern options s : string) : bool :=
  if substring_of "i" options
  then substring_of (map_string lower pattern) (map_string lower s)
  else substring_of pattern s.

End Hex.

(** ** Sample data *)

Module Sample.

Definition social0 : SocialLinks.t := SocialLinks.mk None None None None None.

(** A profile as [User(email=..., name=..., tanggal_lahir=..., status=...,
    agama=..., level_agama=..., lifestyle=...)] builds it, every other
    attribute at its default. *)
Definition profile (email name : string) (born : date) (l : Lifestyle.t)
  : User.t :=
  {| User.email := email; User.name := name; User.tanggal_lahir := born;
     User.status := lajang; User.agama := Islam; User.level_agama := level_moderat;
     User.suku := None; User.hobi := []; User.tinggi_cm := None;
     User.berat_kg := None; User.berkacamata := None; User.alamat_asli := None;
     User.alamat_domisili := None; User.jumlah_saudara := None;
     User.kondisi_keluarga := None; User.riwayat_penyakit := None;
     User.pekerjaan := None; User.usaha_sampingan := None;
     User.pendapatan_per_bulan := None; User.pendidikan := None;
     User.bahasa := []; User.rencana_anak := None; User.love_language := None;
     User.lifestyle := l; User.social := social0; User.kota := None;
     User.foto_url := None; User.verified := false; User.approved := false;
     User.liked_user_ids := []; User.matches := [] |}.

Definition id_a : string := "64b7f0c2a1d3e4f5a6b7c8d1".
Definition id_b : string := "64b7f0c2a1d3e4f5a6b7c8d2".
Definition id_c : string := "64b7f0c2a1d3e4f5a6b7c8d3".

Definition ani : User.t :=
  profile "ani@example.com" "Ani" (mkdate 1994 5 17)
    (Lifestyle.validate Lifestyle.no_fields).
Definition budi : User.t :=
  profile "budi@example.com" "Budi" (mkdate 1992 11 3)
    (Lifestyle.validate Lifestyle.no_fields).

(** Ani and Budi, strangers to each other. *)
Definition db0 : DB string :=
  mkDB (<[id_a := ani]> (<[id_b := budi]> ∅)) [].

(** Ani and Budi after they matched. *)
Definition db_matched : DB string :=
  mkDB (<[id_a := User.addToSet_matches id_b (User.addToSet_liked_user_ids id_b ani)]>
          (<[id_b := User.addToSet_matches id_a (User.addToSet_liked_user_ids id_a budi)]> ∅))
       [].

(** Ani matched with an identifier that has no profile. *)
Definition db_orphan : DB string :=
  mkDB (<[id_a := User.addToSet_matches id_c ani]> ∅) [].

Definition no_env : string → option string := λ _, None.
Definition no_provider : Stripe.request → string + string :=
  λ _, inl "No API key provided".

(** The body [{"lifestyle": {"merokok": "sering"}}]. *)
Definition smokers : SearchQuery.t :=
  SearchQuery.mk None None None None None None None None
    (Some (Lifestyle.validate
             (Lifestyle.mk_fields (Some merokok_sering) None None None None None None))).

(** An approved profile that smokes often and drinks socially. *)
Definition smoker : User.t :=
  User.set_approved true
    (profile "citra@example.com" "Citra" (mkdate 1990 1 9)
       (Lifestyle.validate
          (Lifestyle.mk_fields (Some merokok_sering) (Some alkohol_sosial)
             None None None None None))).

(** A query with age bounds only. *)
Definition ages (usia_min usia_max : option Z) : SearchQuery.t :=
  SearchQuery.mk usia_min usia_max None None None None None None None.

End Sample.

(** More sample data. *)
Module Cases.

(** The identifier of Ani in capitals: another string for the same
    [ObjectId]. *)
Definition id_a_upper : string := "64B7F0C2A1D3E4F5A6B7C8D1".

(** Budi has liked Ani; Ani has not liked back yet. *)
Definition db_liked : DB string :=
  mkDB (<[Sample.id_a := Sample.ani]>
          (<[Sample.id_b := User.addToSet_liked_user_ids Sample.id_a Sample.budi]> ∅))
       [].

(** The matched pair with one message from Budi, at time 3. *)
Definition db_talking : DB string :=
  mkDB (user Sample.db_matched)
       [ Message.mk (match_id Sample.id_b Sample.id_a) Sample.id_b "hai" 3 ].


(** Dewi, approved, lives in Jakarta Selatan and earns eight million a
    month. *)
Definition dewi : User.t :=
  {| User.email := "dewi@example.com"; User.name := "Dewi";
     User.tanggal_lahir := mkdate 1995 8 21;
     User.status := lajang; User.agama := Islam; User.level_agama := level_moderat;
     User.suku := None; User.hobi := []; User.tinggi_cm := None;
     User.berat_kg := None; User.berkacamata := None; User.alamat_asli := None;
     User.alamat_domisili := None; User.jumlah_saudara := None;
     User.kondisi_keluarga := None; User.riwayat_penyakit := None;
     User.pekerjaan := Some "Guru"; User.usaha_sampingan := None;
     User.pendapatan_per_bulan := Some 8000000; User.pendidikan := Some "S1";
     User.bahasa := []; User.rencana_anak := None; User.love_language := None;
     User.lifestyle := Lifestyle.validate Lifestyle.no_fields;
     User.social := Sample.social0; User.kota := Some "Jakarta Selatan";
     User.foto_url := None; User.verified := false; User.approved := true;
     User.liked_user_ids := []; User.matches := [] |}.

(** Dewi and Budi, both approved; Budi gave neither a city nor an
    income. *)
Definition db_city : DB string :=
  mkDB (<[Sample.id_a := dewi]>
          (<[Sample.id_b := User.set_approved true Sample.budi]> ∅)) [].

(** The body [{"lokasi": "jakarta", "agama": "Islam",
    "pendapatan_min": 5000000}]. *)
Definition in_jakarta : SearchQuery.t :=
  SearchQuery.mk None None (Some "jakarta") (Some Islam) None None
    (Some 5000000) None None.

End Cases.

(** * Properties *)

(** ** Strings, [sorted] and [$addToSet] *)

Lemma string_compare_refl (s : string) : String.compare s s = Eq.
Proof.
  induction s as [|c s IH]; simpl; [done|].
  unfold Ascii.compare. by rewrite N.compare_refl.
Qed.

Lemma string_leb_refl (s : string) : String.leb s s = true.
Proof. unfold String.leb. by rewrite string_compare_refl. Qed.

Lemma sorted_pair (a b : string) :
  sorted [a; b] = if String.ltb b a then [b; a] else [a; b].
Proof. reflexivity. Qed.

Lemma contains_true (x : string) (l : list string) :
  contains x l = true ↔ x ∈ l.
Proof. unfold contains. apply bool_decide_eq_true. Qed.

Lemma contains_false (x : string) (l : list string) :
  contains x l = false ↔ x ∉ l.
Proof. unfold contains. apply bool_decide_eq_false. Qed.

Lemma addToSet_present (x : string) (l : list string) :
  x ∈ l → addToSet x l = l.
Proof. intros Hx. unfold addToSet. by rewrite (proj2 (contains_true x l) Hx). Qed.

Lemma elem_of_addToSet (y x : string) (l : list string) :
  y ∈ addToSet x l ↔ y = x ∨ y ∈ l.
Proof.
  unfold addToSet. destruct (contains x l) eqn:Hc.
  - apply contains_true in Hc. split; [by right|]. by intros [->|].
  - rewrite elem_of_app, list_elem_of_singleton. tauto.
Qed.

Lemma addToSet_idemp (x : string) (l : list string) :
  addToSet x (addToSet x l) = addToSet x l.
Proof. apply addToSet_present, elem_of_addToSet. by left. Qed.

(** ** The setters only touch their own attribute *)

Lemma addToSet_liked_user_ids_present (x : string) (u : User.t) :
  x ∈ User.liked_user_ids u → User.addToSet_liked_user_ids x u = u.
Proof.
  intros Hx. destruct u. unfold User.addToSet_liked_user_ids; simpl in *.
  by rewrite addToSet_present.
Qed.

Lemma addToSet_matches_present (x : string) (u : User.t) :
  x ∈ User.matches u → User.addToSet_matches x u = u.
Proof.
  intros Hx. destruct u. unfold User.addToSet_matches; simpl in *.
  by rewrite addToSet_present.
Qed.

Lemma alter_fixpoint `{Countable K} {A} (f : A → A) (m : gmap K A) (i : K) :
  (∀ x, m !! i = Some x → f x = x) → alter f i m = m.
Proof.
  intros Hf. apply map_eq. intros j. rewrite lookup_alter.
  case_decide as Hij; [|done]. subst j.
  destruct (m !! i) as [x|] eqn:Hx; simpl; [|done]. by rewrite (Hf x).
Qed.

(** ** Conversation identity *)

(** C6. The conversation key is a total function of the two identifiers,
    does not depend on their order, and is the smaller identifier, the
    delimiter "-", then the larger one. *)
Theorem match_id_symmetric_sorted (a b : string) :
  match_id a b = match_id b a ∧
  ∃ lo hi, ((lo = a ∧ hi = b) ∨ (lo = b ∧ hi = a)) ∧
           String.leb lo hi = true ∧
           match_id a b = lo +:+ "-" +:+ hi.
Proof.
  unfold match_id, sorted; simpl.
  unfold String.ltb, String.leb.
  rewrite (String.compare_antisym a b).
  destruct (String.compare b a) eqn:Hba; simpl.
  - apply String.compare_eq_iff in Hba. subst b. split; [done|].
    exists a, a. split; [by left|]. by rewrite string_compare_refl.
  - split; [done|]. exists b, a. split; [by right|]. by rewrite Hba.
  - split; [done|]. exists a, b. split; [by left|].
    by rewrite String.compare_antisym, Hba.
Qed.

(** ** Likes and matches *)

Section Handlers.

Context `{Countable ObjectId}.
Variable ObjectId_new : string → option ObjectId.

Lemma oid_Some (s : string) (o : ObjectId) :
  ObjectId_new s = Some o → oid ObjectId_new s = Return o.
Proof. unfold oid. by intros ->. Qed.

Lemma oid_None (s : string) :
  ObjectId_new s = None → oid ObjectId_new s = Raise (HTTPException 400 "Invalid ID").
Proof. unfold oid. by intros ->. Qed.

Lemma user_update_one (o o' : ObjectId) (f : User.t → User.t) (db : DB ObjectId) :
  user (update_one o f db) !! o' =
  if decide (o = o') then f <$> user db !! o else user db !! o'.
Proof. unfold update_one; simpl. apply lookup_alter. Qed.

Lemma update_one_fixpoint (o : ObjectId) (f : User.t → User.t) (db : DB ObjectId) :
  (∀ u, user db !! o = Some u → f u = u) → update_one o f db = db.
Proof.
  intros Hf. destruct db as [us ms]. unfold update_one; simpl in *.
  by rewrite alter_fixpoint.
Qed.

(** What a like does once both profiles are found. *)
Lemma like_user_found (db : DB ObjectId) (p : Like.t) id_from id_to u_from u_to :
  Like.from_user_id p ≠ Like.to_user_id p →
  ObjectId_new (Like.from_user_id p) = Some id_from →
  ObjectId_new (Like.to_user_id p) = Some id_to →
  user db !! id_from = Some u_from →
  user db !! id_to = Some u_to →
  like_user ObjectId_new db p =
    let db1 :=
      update_one id_from (User.addToSet_liked_user_ids (Like.to_user_id p)) db in
    let is_mutual := contains (Like.from_user_id p) (User.liked_user_ids u_to) in
    Return
      (if is_mutual then
         update_one id_to (User.addToSet_matches (Like.from_user_id p))
           (update_one id_from (User.addToSet_matches (Like.to_user_id p)) db1)
       else db1, is_mutual).
Proof.
  intros Hne Hf Ht Huf Hut. unfold like_user.
  rewrite decide_False by done.
  rewrite (oid_Some _ _ Hf), (oid_Some _ _ Ht); simpl.
  unfold find_one. by rewrite Huf, Hut.
Qed.

Lemma like_user_returns (db db' : DB ObjectId) (p : Like.t) (mutual : bool) :
  like_user ObjectId_new db p = Return (db', mutual) →
  ∃ id_from id_to u_from u_to,
    Like.from_user_id p ≠ Like.to_user_id p ∧
    ObjectId_new (Like.from_user_id p) = Some id_from ∧
    ObjectId_new (Like.to_user_id p) = Some id_to ∧
    user db !! id_from = Some u_from ∧
    user db !! id_to = Some u_to.
Proof.
  unfold like_user, oid, find_one. case_decide as Hne; [done|].
  destruct (ObjectId_new (Like.from_user_id p)) as [id_from|]; [|done].
  destruct (ObjectId_new (Like.to_user_id p)) as [id_to|]; [|done]. simpl.
  destruct (user db !! id_from) as [u_from|] eqn:Hf; [|done].
  destruct (user db !! id_to) as [u_to|] eqn:Ht; [|done].
  intros _. by exists id_from, id_to, u_from, u_to.
Qed.

(** C1. When A and B are existing profiles with different identifiers and
    B has not liked A, [like_user(A, B)] answers [mutual = false] and
    changes no [matches] array; [like_user(B, A)] after it answers
    [mutual = true], and then B is in the matches of A and A in the
    matches of B.  Whenever a like succeeds, [mutual] tells whether the
    sender was in the receiver's [liked_user_ids] as stored before the
    call. *)
Theorem like_then_like_back (db : DB ObjectId) (A B : string)
    (oa ob : ObjectId) (ua ub : User.t) :
  A ≠ B →
  ObjectId_new A = Some oa →
  ObjectId_new B = Some ob →
  user db !! oa = Some ua →
  user db !! ob = Some ub →
  A ∉ User.liked_user_ids ub →
  (∃ db1 db2,
      like_user ObjectId_new db (Like.mk A B) = Return (db1, false) ∧
      (∀ o, User.matches <$> user db1 !! o = User.matches <$> user db !! o) ∧
      like_user ObjectId_new db1 (Like.mk B A) = Return (db2, true) ∧
      ∃ ua2 ub2,
        user db2 !! oa = Some ua2 ∧ user db2 !! ob = Some ub2 ∧
        B ∈ User.matches ua2 ∧ A ∈ User.matches ub2) ∧
  (∀ (db0 db' : DB ObjectId) (p : Like.t) (mutual : bool),
      like_user ObjectId_new db0 p = Return (db', mutual) →
      ∃ id_to u_to,
        ObjectId_new (Like.to_user_id p) = Some id_to ∧
        user db0 !! id_to = Some u_to ∧
        mutual = contains (Like.from_user_id p) (User.liked_user_ids u_to)).
Proof.
  intros Hne Ha Hb Hua Hub Hnot. split.
  - set (db1 := update_one oa (User.addToSet_liked_user_ids B) db).
    assert (Hua1 : user db1 !! oa = Some (User.addToSet_liked_user_ids B ua)).
    { unfold db1. rewrite user_update_one, decide_True by done. by rewrite Hua. }
    assert (Hub1 : ∃ ub1, user db1 !! ob = Some ub1).
    { unfold db1. rewrite user_update_one. case_decide; [subst; rewrite Hua|]; eauto. }
    destruct Hub1 as [ub1 Hub1].
    eexists db1, _. split; [|split; [|split]].
    + rewrite (like_user_found db (Like.mk A B) oa ob ua ub) by done. simpl.
      by rewrite (proj2 (contains_false A _) Hnot).
    + intros o. unfold db1. rewrite user_update_one.
      case_decide; [subst o|done]. by destruct (user db !! oa).
    + rewrite (like_user_found db1 (Like.mk B A) ob oa ub1 _) by done. simpl.
      rewrite (proj2 (contains_true B (addToSet B (User.liked_user_ids ua)))).
      * reflexivity.
      * apply elem_of_addToSet. by left.
    + clearbody db1.
      destruct (decide (oa = ob)) as [->|Hab].
      * rewrite Hua1 in Hub1. injection Hub1 as <-.
        eexists _, _. split; [|split].
        -- rewrite !user_update_one, !decide_True by done.
           by rewrite Hua1.
        -- rewrite !user_update_one, !decide_True by done.
           by rewrite Hua1.
        -- simpl. rewrite !elem_of_addToSet. tauto.
      * eexists _, _. split; [|split].
        -- rewrite user_update_one, decide_True by done.
           rewrite !user_update_one, !decide_False by done.
           by rewrite Hua1.
        -- rewrite user_update_one, decide_False by done.
           rewrite !user_update_one, !decide_True by done.
           by rewrite Hub1.
        -- simpl. rewrite !elem_of_addToSet. tauto.
  - intros db0 db' p mutual Hret.
    destruct (like_user_returns _ _ _ _ Hret)
      as (id_from & id_to & u_from & u_to & Hd & Hf & Ht & Huf & Hut).
    rewrite (like_user_found db0 p id_from id_to u_from u_to) in Hret by done.
    simpl in Hret. injection Hret as _ <-. by exists id_to, u_to.
Qed.

(** The state a successful like leaves behind, as seen from the two
    profiles. *)
Lemma like_user_state (db : DB ObjectId) (p : Like.t) id_from id_to u_from u_to :
  Like.from_user_id p ≠ Like.to_user_id p →
  ObjectId_new (Like.from_user_id p) = Some id_from →
  ObjectId_new (Like.to_user_id p) = Some id_to →
  user db !! id_from = Some u_from →
  user db !! id_to = Some u_to →
  ∃ db' u_from' u_to',
    let mutual := contains (Like.from_user_id p) (User.liked_user_ids u_to) in
    like_user ObjectId_new db p = Return (db', mutual) ∧
    user db' !! id_from = Some u_from' ∧
    user db' !! id_to = Some u_to' ∧
    User.liked_user_ids u_from' =
      addToSet (Like.to_user_id p) (User.liked_user_ids u_from) ∧
    contains (Like.from_user_id p) (User.liked_user_ids u_to') = mutual ∧
    (mutual = true →
       Like.to_user_id p ∈ User.matches u_from' ∧
       Like.from_user_id p ∈ User.matches u_to').
Proof.
  intros Hne Hf Ht Huf Hut.
  rewrite (like_user_found db p id_from id_to u_from u_to) by done.
  destruct p as [from to]; simpl in *.
  assert (Hself : contains from (addToSet to (User.liked_user_ids u_to))
                  = contains from (User.liked_user_ids u_to)).
  { unfold contains. apply bool_decide_ext. rewrite elem_of_addToSet.
    split; [by intros [?|?]|by right]. }
  destruct (contains from (User.liked_user_ids u_to)) eqn:Hm;
    destruct (decide (id_from = id_to)) as [->|Hft].
  - rewrite Huf in Hut. injection Hut as ->.
    eexists _, _, _. split; [done|]. split; [|split; [|split; [|split]]].
    + rewrite !user_update_one, !decide_True by done. by rewrite Huf.
    + rewrite !user_update_one, !decide_True by done. by rewrite Huf.
    + done.
    + simpl. by rewrite Hself.
    + intros _. simpl. rewrite !elem_of_addToSet. tauto.
  - eexists _, _, _. split; [done|]. split; [|split; [|split; [|split]]].
    + rewrite user_update_one, decide_False by done.
      rewrite !user_update_one, !decide_True by done. by rewrite Huf.
    + rewrite user_update_one, decide_True by done.
      rewrite !user_update_one, !decide_False by done. by rewrite Hut.
    + done.
    + done.
    + intros _. simpl. rewrite !elem_of_addToSet. tauto.
  - rewrite Huf in Hut. injection Hut as ->.
    eexists _, _, _. split; [done|]. split; [|split; [|split; [|split]]].
    + rewrite user_update_one, decide_True by done. by rewrite Huf.
    + rewrite user_update_one, decide_True by done. by rewrite Huf.
    + done.
    + simpl. by rewrite Hself.
    + done.
  - eexists _, _, _. split; [done|]. split; [|split; [|split; [|split]]].
    + rewrite user_update_one, decide_True by done. by rewrite Huf.
    + rewrite user_update_one, decide_False by done. done.
    + done.
    + done.
    + done.
Qed.

(** C5, as the code has it.  A like of oneself fails with status 400; an
    identifier that is not a well-formed [ObjectId] fails with status 400
    as well; two well-formed identifiers of which one has no profile fail
    with status 404; otherwise the receiver is added to the sender's
    [liked_user_ids] unless it is there already, and the same like once
    more gives the same answer and leaves the database as it is. *)
Theorem like_user_errors_and_idempotence (db : DB ObjectId) (p : Like.t) :
  (Like.from_user_id p = Like.to_user_id p →
     like_user ObjectId_new db p =
       Raise (HTTPException InvalidOperation "Cannot like yourself")) ∧
  (Like.from_user_id p ≠ Like.to_user_id p →
     ObjectId_new (Like.from_user_id p) = None ∨
     ObjectId_new (Like.to_user_id p) = None →
     like_user ObjectId_new db p =
       Raise (HTTPException InvalidOperation "Invalid ID")) ∧
  (∀ id_from id_to,
     Like.from_user_id p ≠ Like.to_user_id p →
     ObjectId_new (Like.from_user_id p) = Some id_from →
     ObjectId_new (Like.to_user_id p) = Some id_to →
     user db !! id_from = None ∨ user db !! id_to = None →
     like_user ObjectId_new db p =
       Raise (HTTPException NotFound "User not found")) ∧
  (∀ id_from id_to u_from u_to,
     Like.from_user_id p ≠ Like.to_user_id p →
     ObjectId_new (Like.from_user_id p) = Some id_from →
     ObjectId_new (Like.to_user_id p) = Some id_to →
     user db !! id_from = Some u_from →
     user db !! id_to = Some u_to →
     ∃ db' mutual u_from',
       like_user ObjectId_new db p = Return (db', mutual) ∧
       user db' !! id_from = Some u_from' ∧
       User.liked_user_ids u_from' =
         addToSet (Like.to_user_id p) (User.liked_user_ids u_from) ∧
       Like.to_user_id p ∈ User.liked_user_ids u_from' ∧
       like_user ObjectId_new db' p = Return (db', mutual)).
Proof.
  split; [|split; [|split]].
  - intros Heq. unfold like_user. by rewrite decide_True.
  - intros Hne Hbad. unfold like_user. rewrite decide_False by done.
    destruct (ObjectId_new (Like.from_user_id p)) as [id_from|] eqn:Hf.
    + destruct Hbad as [|Ht]; [done|].
      by rewrite (oid_Some _ _ Hf), (oid_None _ Ht).
    + by rewrite (oid_None _ Hf).
  - intros id_from id_to Hne Hf Ht Hmiss. unfold like_user.
    rewrite decide_False by done.
    rewrite (oid_Some _ _ Hf), (oid_Some _ _ Ht); simpl. unfold find_one.
    destruct Hmiss as [-> | ->]; [done|]. by destruct (user db !! id_from).
  - intros id_from id_to u_from u_to Hne Hf Ht Huf Hut.
    destruct (like_user_state db p id_from id_to u_from u_to)
      as (db' & u_from' & u_to' & Hret & Huf' & Hut' & Hliked & Hm & Hmatch);
      [done..|].
    simpl in *.
    assert (Hin : Like.to_user_id p ∈ User.liked_user_ids u_from').
    { rewrite Hliked. apply elem_of_addToSet. by left. }
    exists db', (contains (Like.from_user_id p) (User.liked_user_ids u_to)), u_from'.
    split; [done|]. split; [done|]. split; [done|]. split; [done|].
    rewrite (like_user_found db' p id_from id_to u_from' u_to') by done. simpl.
    rewrite (update_one_fixpoint id_from (User.addToSet_liked_user_ids _) db').
    2:{ intros u Hu. rewrite Huf' in Hu. injection Hu as <-.
        by apply addToSet_liked_user_ids_present. }
    rewrite Hm.
    destruct (contains (Like.from_user_id p) (User.liked_user_ids u_to)); [|done].
    destruct Hmatch as [Hm1 Hm2]; [done|].
    rewrite (update_one_fixpoint id_from (User.addToSet_matches _) db').
    2:{ intros u Hu. rewrite Huf' in Hu. injection Hu as <-.
        by apply addToSet_matches_present. }
    rewrite (update_one_fixpoint id_to (User.addToSet_matches _) db').
    2:{ intros u Hu. rewrite Hut' in Hu. injection Hu as <-.
        by apply addToSet_matches_present. }
    done.
Qed.

(** ** Messaging *)

(** C7, as the code has it.  A sender identifier that is not a well-formed
    [ObjectId] fails with status 400; a well-formed one without a profile
    fails with status 404; a receiver outside the sender's [matches] fails
    with status 403, whatever profiles exist; otherwise exactly one
    message is appended, under the conversation key of the two
    identifiers, with the sender, the text and the time of the call, and
    the profiles and earlier messages stay as they are. *)
Theorem send_message_outcomes (now : Z) (db : DB ObjectId) (p : SendMessage.t) :
  (ObjectId_new (SendMessage.from_user_id p) = None →
     send_message ObjectId_new now db p =
       Raise (HTTPException InvalidOperation "Invalid ID")) ∧
  (∀ id_from,
     ObjectId_new (SendMessage.from_user_id p) = Some id_from →
     user db !! id_from = None →
     send_message ObjectId_new now db p =
       Raise (HTTPException NotFound "Sender not found")) ∧
  (∀ id_from u_from,
     ObjectId_new (SendMessage.from_user_id p) = Some id_from →
     user db !! id_from = Some u_from →
     SendMessage.to_user_id p ∉ User.matches u_from →
     send_message ObjectId_new now db p =
       Raise (HTTPException Forbidden "You can only message matched users")) ∧
  (∀ id_from u_from,
     ObjectId_new (SendMessage.from_user_id p) = Some id_from →
     user db !! id_from = Some u_from →
     SendMessage.to_user_id p ∈ User.matches u_from →
     ∃ db',
       send_message ObjectId_new now db p = Return (db', true) ∧
       user db' = user db ∧
       message db' =
         message db ++
         [ {| Message.match_id :=
                match_id (SendMessage.from_user_id p) (SendMessage.to_user_id p);
              Message.sender_id := SendMessage.from_user_id p;
              Message.text := SendMessage.text p;
              Message.created_at := now |} ]).
Proof.
  unfold send_message, find_one. split; [|split; [|split]].
  - intros Hf. by rewrite (oid_None _ Hf).
  - intros id_from Hf Hu. rewrite (oid_Some _ _ Hf); simpl. by rewrite Hu.
  - intros id_from u_from Hf Hu Hnot. rewrite (oid_Some _ _ Hf); simpl.
    rewrite Hu. by rewrite (proj2 (contains_false _ _) Hnot).
  - intros id_from u_from Hf Hu Hin. rewrite (oid_Some _ _ Hf); simpl.
    rewrite Hu. rewrite (proj2 (contains_true _ _) Hin); simpl.
    by eexists.
Qed.

(** ** Moderation *)

Lemma list_to_map_agree (k0 k : string) (l1 l2 : list (string * Value)) :
  Forall2 (λ a b, a.1 = b.1 ∧ (a.1 ≠ k0 → a.2 = b.2)) l1 l2 →
  k ≠ k0 →
  (list_to_map l1 : gmap string Value) !! k = (list_to_map l2 : gmap string Value) !! k.
Proof.
  intros Hl Hk. induction Hl as [|[k1 v1] [k2 v2] l1 l2 [Hkey Hval] _ IH].
  - done.
  - simpl in Hkey, Hval. subst k2. rewrite !list_to_map_cons. simpl.
    rewrite !lookup_insert. case_decide as Hd; [|done].
    subst k1. by rewrite Hval.
Qed.

Ltac same_entries :=
  repeat (constructor;
          [split; [reflexivity|intros Hn; first [reflexivity|by destruct Hn]]|]);
  constructor.

Lemma User_document_set_approved (b : bool) (u : User.t) (k : string) :
  k ≠ "approved" →
  User_document (User.set_approved b u) !! k = User_document u !! k.
Proof.
  intros Hk. unfold User_document.
  apply (list_to_map_agree "approved"); [same_entries|done].
Qed.

Lemma User_document_set_verified (b : bool) (u : User.t) (k : string) :
  k ≠ "verified" →
  User_document (User.set_verified b u) !! k = User_document u !! k.
Proof.
  intros Hk. unfold User_document.
  apply (list_to_map_agree "verified"); [same_entries|done].
Qed.

(** The [action] of a request body passes validation exactly when it is
    one of the four names. *)
Lemma Action_validate_None (name : string) :
  name ∉ ["approve"; "reject"; "verify"; "unverify"] →
  AdminAction.Action_validate name = None.
Proof.
  rewrite !elem_of_cons, elem_of_nil. intros Hnot.
  unfold AdminAction.Action_validate.
  destruct (String.eqb_spec name "approve"); [tauto|].
  destruct (String.eqb_spec name "reject"); [tauto|].
  destruct (String.eqb_spec name "verify"); [tauto|].
  destruct (String.eqb_spec name "unverify"); [tauto|].
  done.
Qed.

Lemma Action_validate_str (x : AdminAction.Action) :
  AdminAction.Action_validate (AdminAction.Action_str x) = Some x.
Proof. by destruct x. Qed.

(** C8, as the code has it.  An identifier that is not a well-formed
    [ObjectId] fails with status 400 and a well-formed one without a
    profile with status 404.  On a profile that exists: approve sets
    [approved] to true, verify and unverify set [verified] to true and
    false, each leaving every other attribute of the profile, every other
    profile and the messages as they are; reject deletes the profile, so
    that looking it up finds nothing.  A request whose action is none of
    the four names is refused when its body is validated, whatever its
    identifier: the handler is not called and nothing is written.  A
    request with one of the four names is the handler's call, and the
    handler never answers "Unknown action". *)
Theorem admin_action_outcomes (db : DB ObjectId) (a : AdminAction.t) :
  (ObjectId_new (AdminAction.user_id a) = None →
     admin_action ObjectId_new db a =
       Raise (HTTPException InvalidOperation "Invalid ID")) ∧
  (∀ id,
     ObjectId_new (AdminAction.user_id a) = Some id →
     user db !! id = None →
     admin_action ObjectId_new db a =
       Raise (HTTPException NotFound "User not found")) ∧
  (∀ id u,
     ObjectId_new (AdminAction.user_id a) = Some id →
     user db !! id = Some u →
     (AdminAction.action a = AdminAction.approve →
        ∃ db' u',
          admin_action ObjectId_new db a = Return (db', true) ∧
          message db' = message db ∧
          (∀ o, o ≠ id → user db' !! o = user db !! o) ∧
          user db' !! id = Some u' ∧ User.approved u' = true ∧
          ∀ k, k ≠ "approved" → User_document u' !! k = User_document u !! k) ∧
     (AdminAction.action a = AdminAction.reject →
        ∃ db',
          admin_action ObjectId_new db a = Return (db', true) ∧
          message db' = message db ∧
          (∀ o, o ≠ id → user db' !! o = user db !! o) ∧
          find_one db' id = None) ∧
     (∀ b,
        AdminAction.action a
          = (if b : bool then AdminAction.verify else AdminAction.unverify) →
        ∃ db' u',
          admin_action ObjectId_new db a = Return (db', true) ∧
          message db' = message db ∧
          (∀ o, o ≠ id → user db' !! o = user db !! o) ∧
          user db' !! id = Some u' ∧ User.verified u' = b ∧
          ∀ k, k ≠ "verified" → User_document u' !! k = User_document u !! k)) ∧
  (∀ name,
     name ∉ ["approve"; "reject"; "verify"; "unverify"] →
     admin_action_request ObjectId_new db (AdminAction.user_id a) name
       = Raise RequestValidationError) ∧
  admin_action_request ObjectId_new db (AdminAction.user_id a)
      (AdminAction.Action_str (AdminAction.action a))
    = admin_action ObjectId_new db a ∧
  admin_action ObjectId_new db a
    ≠ Raise (HTTPException InvalidOperation "Unknown action").
Proof.
  split; [|split; [|split; [|split; [|split]]]].
  - unfold admin_action, find_one.
    intros Hid. by rewrite (oid_None _ Hid).
  - unfold admin_action, find_one.
    intros id Hid Hu. rewrite (oid_Some _ _ Hid); simpl. by rewrite Hu.
  - unfold admin_action, find_one.
    intros id u Hid Hu. rewrite (oid_Some _ _ Hid); simpl. rewrite Hu.
    split; [|split].
    + intros ->. simpl.
      exists (update_one id (User.set_approved true) db), (User.set_approved true u).
      split; [done|]. split; [done|]. split.
      { intros o Ho. by rewrite user_update_one, decide_False. }
      split.
      { rewrite user_update_one, decide_True by done. by rewrite Hu. }
      split; [done|]. intros k Hk. by apply User_document_set_approved.
    + intros ->. simpl. exists (delete_one id db).
      split; [done|]. split; [done|]. split.
      { intros o Ho. unfold delete_one; simpl. by rewrite lookup_delete_ne. }
      unfold find_one, delete_one; simpl. apply lookup_delete_eq.
    + intros b Hb. rewrite Hb.
      exists (update_one id (User.set_verified b) db), (User.set_verified b u).
      split; [by destruct b|]. split; [done|]. split.
      { intros o Ho. by rewrite user_update_one, decide_False. }
      split.
      { rewrite user_update_one, decide_True by done. by rewrite Hu. }
      split; [done|]. intros k Hk. by apply User_document_set_verified.
  - intros name Hnot. unfold admin_action_request, AdminAction.validate.
    by rewrite (Action_validate_None _ Hnot).
  - unfold admin_action_request, AdminAction.validate.
    rewrite Action_validate_str. by destruct a.
  - unfold admin_action, find_one.
    destruct (oid ObjectId_new (AdminAction.user_id a)) as [id|e] eqn:Hoid; simpl.
    + destruct (user db !! id); [|discriminate].
      by destruct (AdminAction.action a).
    + unfold oid in Hoid.
      destruct (ObjectId_new (AdminAction.user_id a)); [discriminate|].
      injection Hoid as <-. discriminate.
Qed.

(** C10. [send_message] looks up the sender only.  Whenever the receiver
    is in the sender's [matches] the call returns and the store afterwards
    is the store before with the one message appended, whether or not a
    profile with the receiver's identifier exists; in particular the
    sender can still write after an admin has rejected, and so deleted,
    the receiver. *)
Theorem send_message_ignores_recipient (now : Z) (db : DB ObjectId)
    (p : SendMessage.t) (id_from : ObjectId) (u_from : User.t) :
  ObjectId_new (SendMessage.from_user_id p) = Some id_from →
  user db !! id_from = Some u_from →
  SendMessage.to_user_id p ∈ User.matches u_from →
  let doc :=
    {| Message.match_id :=
         match_id (SendMessage.from_user_id p) (SendMessage.to_user_id p);
       Message.sender_id := SendMessage.from_user_id p;
       Message.text := SendMessage.text p;
       Message.created_at := now |} in
  (∃ db',
     send_message ObjectId_new now db p = Return (db', true) ∧
     message db' = message db ++ [doc] ∧
     user db' = user db) ∧
  ∀ id_to,
    ObjectId_new (SendMessage.to_user_id p) = Some id_to →
    id_to ≠ id_from →
    is_Some (user db !! id_to) →
    ∃ db1 db2,
      admin_action ObjectId_new db
        (AdminAction.mk (SendMessage.to_user_id p) AdminAction.reject)
        = Return (db1, true) ∧
      find_one db1 id_to = None ∧
      send_message ObjectId_new now db1 p = Return (db2, true) ∧
      message db2 = message db ++ [doc] ∧
      user db2 = user db1 ∧
      find_one db2 id_to = None.
Proof.
  intros Hf Hu Hin doc.
  assert (Hsend : ∀ db0 : DB ObjectId,
            user db0 !! id_from = Some u_from →
            send_message ObjectId_new now db0 p = Return (insert_one doc db0, true)).
  { intros db0 Hu0. unfold send_message, find_one.
    rewrite (oid_Some _ _ Hf); simpl. rewrite Hu0.
    by rewrite (proj2 (contains_true _ _) Hin). }
  split.
  { exists (insert_one doc db). split; [by apply Hsend|]. by split. }
  intros id_to Ht Hne [u_to Hut].
  exists (delete_one id_to db), (insert_one doc (delete_one id_to db)).
  split; [|split; [|split; [|split; [|split]]]].
  - unfold admin_action, find_one; simpl.
    rewrite (oid_Some _ _ Ht); simpl. by rewrite Hut.
  - unfold find_one, delete_one; simpl. apply lookup_delete_eq.
  - apply Hsend. unfold delete_one; simpl. by rewrite lookup_delete_ne.
  - done.
  - done.
  - unfold find_one, insert_one, delete_one; simpl. apply lookup_delete_eq.
Qed.

End Handlers.

(** ** ISO dates compare as dates *)

Lemma digit_compare (x y : Z) :
  0 <= x <= 9 → 0 <= y <= 9 → Ascii.compare (digit x) (digit y) = (x ?= y).
Proof.
  intros Hx Hy.
  assert (Ex : x = 0 ∨ x = 1 ∨ x = 2 ∨ x = 3 ∨ x = 4 ∨ x = 5 ∨ x = 6 ∨ x = 7
               ∨ x = 8 ∨ x = 9) by lia.
  assert (Ey : y = 0 ∨ y = 1 ∨ y = 2 ∨ y = 3 ∨ y = 4 ∨ y = 5 ∨ y = 6 ∨ y = 7
               ∨ y = 8 ∨ y = 9) by lia.
  clear Hx Hy.
  repeat (destruct Ex as [->|Ex]); try subst x;
    repeat (destruct Ey as [->|Ey]); try subst y; reflexivity.
Qed.

Lemma Z_compare_divmod (a b n : Z) :
  0 < n →
  match a / n ?= b / n with
  | Eq => a mod n ?= b mod n
  | c => c
  end = (a ?= b).
Proof.
  intros Hn.
  pose proof (Z.div_mod a n ltac:(lia)) as Ha.
  pose proof (Z.div_mod b n ltac:(lia)) as Hb.
  pose proof (Z.mod_pos_bound a n Hn) as Ra.
  pose proof (Z.mod_pos_bound b n Hn) as Rb.
  destruct (Z.compare_spec (a / n) (b / n)) as [Hq|Hq|Hq].
  - destruct (Z.compare_spec (a mod n) (b mod n)) as [Hr|Hr|Hr]; symmetry.
    + apply Z.compare_eq_iff. congruence.
    + apply Z.compare_lt_iff. rewrite Ha, Hb, Hq. lia.
    + apply Z.compare_gt_iff. rewrite Ha, Hb, Hq. lia.
  - symmetry. apply Z.compare_lt_iff. nia.
  - symmetry. apply Z.compare_gt_iff. nia.
Qed.

Lemma append_cons (c : ascii) (s t : string) :
  String c s +:+ t = String c (s +:+ t).
Proof. reflexivity. Qed.

Lemma append_empty (t : string) : "" +:+ t = t.
Proof. reflexivity. Qed.

Lemma append_assoc (s t r : string) : (s +:+ t) +:+ r = s +:+ (t +:+ r).
Proof. induction s as [|c s IH]; [done|]. by rewrite !append_cons, IH. Qed.

Lemma compare_cons (c1 c2 : ascii) (s t : string) :
  String.compare (String c1 s) (String c2 t) =
  match Ascii.compare c1 c2 with Eq => String.compare s t | c => c end.
Proof. reflexivity. Qed.

Lemma digits_of_two (a : Z) :
  0 <= a < 100 → 0 <= a / 10 <= 9 ∧ 0 <= a mod 10 <= 9.
Proof.
  intros Ha. pose proof (Z.mod_pos_bound a 10 ltac:(lia)).
  pose proof (Z.div_mod a 10 ltac:(lia)). lia.
Qed.

Lemma compare_pad2 (a b : Z) (s t : string) :
  0 <= a < 100 → 0 <= b < 100 →
  String.compare (pad2 a +:+ s) (pad2 b +:+ t) =
  match a ?= b with Eq => String.compare s t | c => c end.
Proof.
  intros Ha Hb. unfold pad2.
  destruct (digits_of_two a Ha) as [Ha1 Ha0].
  destruct (digits_of_two b Hb) as [Hb1 Hb0].
  rewrite !append_cons, !append_empty, !compare_cons.
  rewrite !digit_compare by done.
  rewrite <- (Z_compare_divmod a b 10) by lia.
  destruct (a / 10 ?= b / 10); [|done..].
  by destruct (a mod 10 ?= b mod 10).
Qed.

Lemma compare_pad4 (a b : Z) (s t : string) :
  0 <= a <= 9999 → 0 <= b <= 9999 →
  String.compare (pad4 a +:+ s) (pad4 b +:+ t) =
  match a ?= b with Eq => String.compare s t | c => c end.
Proof.
  intros Ha Hb. unfold pad4. rewrite !append_assoc.
  assert (Hq : ∀ x, 0 <= x <= 9999 → 0 <= x / 100 < 100 ∧ 0 <= x mod 100 < 100).
  { intros x Hx. pose proof (Z.mod_pos_bound x 100 ltac:(lia)).
    pose proof (Z.div_mod x 100 ltac:(lia)). lia. }
  destruct (Hq a Ha) as [Ha1 Ha0]. destruct (Hq b Hb) as [Hb1 Hb0].
  rewrite compare_pad2 by done.
  rewrite <- (Z_compare_divmod a b 100) by lia.
  destruct (a / 100 ?= b / 100); [|done..].
  by rewrite compare_pad2.
Qed.

Lemma days_in_month_bound (y m : Z) : 28 <= days_in_month y m <= 31.
Proof.
  unfold days_in_month. destruct (m =? 2); [destruct (is_leap y); lia|].
  destruct ((m =? 4) || (m =? 6) || (m =? 9) || (m =? 11)); lia.
Qed.

Lemma date_ok_bounds (y m d : Z) :
  date_ok y m d = true → 1 <= y <= 9999 ∧ 1 <= m <= 12 ∧ 1 <= d <= 31.
Proof.
  unfold date_ok. rewrite !andb_true_iff, !Z.leb_le.
  pose proof (days_in_month_bound y m). lia.
Qed.

(** Dates that exist compare as their ISO strings do. *)
Lemma isoformat_compare (d1 d2 : date) :
  date_valid d1 = true → date_valid d2 = true →
  String.compare (isoformat d1) (isoformat d2) = date_compare d1 d2.
Proof.
  intros H1 H2. apply date_ok_bounds in H1, H2.
  unfold isoformat, date_compare.
  rewrite compare_pad4 by lia.
  destruct (year d1 ?= year d2); [|done..].
  rewrite !append_cons, !append_empty, compare_cons.
  change (Ascii.compare "-" "-") with Eq. cbv iota.
  rewrite compare_pad2 by lia.
  destruct (month d1 ?= month d2); [|done..].
  rewrite compare_cons.
  change (Ascii.compare "-" "-") with Eq. cbv iota.
  change (pad2 (day d1)) with (pad2 (day d1) +:+ "").
  change (pad2 (day d2)) with (pad2 (day d2) +:+ "").
  rewrite compare_pad2 by lia.
  by destruct (day d1 ?= day d2).
Qed.

(** ** Search: the filter document *)

Lemma Result_bind_Return {A B} (a : A) (k : A → Result B) :
  (Return a ≫= k) = k a.
Proof. reflexivity. Qed.

Lemma days_in_month_bounds (y m : Z) : 28 <= days_in_month y m <= 31.
Proof.
  unfold days_in_month.
  destruct (m =? 2); [destruct (is_leap y); lia|].
  destruct ((m =? 4) || (m =? 6) || (m =? 9) || (m =? 11)); lia.
Qed.

(** The numbers of a day of the calendar fit a C [int]. *)
Lemma date_ok_c_int (y m d : Z) :
  date_ok y m d = true → c_int y && c_int m && c_int d = true.
Proof.
  unfold date_ok, c_int. pose proof (days_in_month_bounds y m).
  rewrite !andb_true_iff, !Z.leb_le. lia.
Qed.

Lemma date_ok_c_int_year (y m d : Z) : date_ok y m d = true → c_int y = true.
Proof.
  intros Hok. apply date_ok_c_int in Hok.
  by apply andb_true_iff in Hok as [[? _]%andb_true_iff _].
Qed.

Lemma date_new_ok (y m d : Z) :
  date_ok y m d = true → date_new y m d = Return (mkdate y m d).
Proof.
  intros Hok. unfold date_new. by rewrite (date_ok_c_int _ _ _ Hok), Hok.
Qed.

Lemma date_new_invalid (y m d : Z) :
  c_int y && c_int m && c_int d = true →
  date_ok y m d = false → date_new y m d = Raise ValueError.
Proof. unfold date_new. by intros -> ->. Qed.

Lemma date_new_overflow (y m d : Z) :
  c_int y && c_int m && c_int d = false → date_new y m d = Raise OverflowError.
Proof. unfold date_new. by intros ->. Qed.

(** The conditions on the birth date, when the dates of the bounds
    exist. *)
Lemma age_conditions_returns (today : date) (usia_min usia_max : option Z) :
  (∀ a, usia_min = Some a →
        date_ok (year today - a) (month today) (day today) = true) →
  (∀ b, usia_max = Some b →
        date_ok (year today - b - 1) (month today) (day today) = true) →
  ∃ conditions,
    age_conditions today usia_min usia_max = Return conditions ∧
    conditions !! "$lte" =
      (λ a, VStr (isoformat (mkdate (year today - a) (month today) (day today))))
        <$> usia_min ∧
    conditions !! "$gte" =
      (λ b, VStr (isoformat (mkdate (year today - b - 1) (month today) (day today))))
        <$> usia_max ∧
    ∀ k, k ≠ "$lte" → k ≠ "$gte" → conditions !! k = None.
Proof.
  intros Hmin Hmax. unfold age_conditions.
  destruct usia_min as [a|], usia_max as [b|].
  - rewrite (date_new_ok _ _ _ (Hmin a eq_refl)), !Result_bind_Return.
    rewrite (date_new_ok _ _ _ (Hmax b eq_refl)), !Result_bind_Return.
    eexists. split; [done|]. split; [|split].
    + rewrite lookup_insert_ne by done. by rewrite lookup_insert_eq.
    + by rewrite lookup_insert_eq.
    + intros k H1 H2. by rewrite !lookup_insert_ne, lookup_empty by done.
  - rewrite (date_new_ok _ _ _ (Hmin a eq_refl)), !Result_bind_Return.
    eexists. split; [done|]. split; [|split].
    + by rewrite lookup_insert_eq.
    + by rewrite lookup_insert_ne, lookup_empty by done.
    + intros k H1 H2. by rewrite !lookup_insert_ne, lookup_empty by done.
  - rewrite !Result_bind_Return.
    rewrite (date_new_ok _ _ _ (Hmax b eq_refl)), !Result_bind_Return.
    eexists. split; [done|]. split; [|split].
    + by rewrite lookup_insert_ne, lookup_empty by done.
    + by rewrite lookup_insert_eq.
    + intros k H1 H2. by rewrite !lookup_insert_ne, lookup_empty by done.
  - rewrite !Result_bind_Return.
    eexists. split; [done|]. split; [|split]; try done.
Qed.

Lemma lookup_opt_insert {A} (o : option A) (g : A → Filter) (k k' : string)
    (f : gmap string Filter) :
  match o with Some a => <[k := g a]> f | None => f end !! k' =
  if decide (k = k')
  then match o with Some a => Some (g a) | None => f !! k end
  else f !! k'.
Proof.
  destruct o; [rewrite lookup_insert|]; case_decide; by subst.
Qed.

Lemma lookup_text_insert (o : option string) (k k' : string)
    (f : gmap string Filter) :
  match o with
  | Some s => if truthy s then <[k := regex_i s]> f else f
  | None => f
  end !! k' =
  if decide (k = k')
  then (if truthy_opt o then regex_i <$> o else f !! k)
  else f !! k'.
Proof.
  destruct o as [s|]; simpl; [destruct (truthy s); [rewrite lookup_insert|]|];
    case_decide; by subst.
Qed.

Lemma lifestyle_filters_lookup_other (l : Lifestyle.t) (f : gmap string Filter)
    (k : string) :
  startswith k "lifestyle." = false → lifestyle_filters l f !! k = f !! k.
Proof.
  intros Hk. unfold lifestyle_filters.
  generalize (Lifestyle.model_dump l). intros items. revert f.
  induction items as [|[k1 v1] items IH]; intros f; simpl; [done|].
  rewrite IH. apply lookup_insert_ne. intros <-.
  by rewrite (eq_refl : startswith ("lifestyle." +:+ k1) "lifestyle." = true) in Hk.
Qed.

(** What the steps for the fields other than [lifestyle] leave under a
    key. *)
Lemma field_filters_lookup (q : SearchQuery.t) (F : gmap string Filter) (k : string) :
  SearchQuery.lifestyle q = None ∨ startswith k "lifestyle." = false →
  field_filters q F !! k =
    if decide ("pendidikan" = k) then
      (if truthy_opt (SearchQuery.pendidikan q)
       then regex_i <$> SearchQuery.pendidikan q else F !! k)
    else if decide ("pendapatan_per_bulan" = k) then
      match SearchQuery.pendapatan_min q with
      | Some n => Some (FOps {["$gte" := VInt n]})
      | None => F !! k
      end
    else if decide ("pekerjaan" = k) then
      (if truthy_opt (SearchQuery.pekerjaan q)
       then regex_i <$> SearchQuery.pekerjaan q else F !! k)
    else if decide ("level_agama" = k) then
      match SearchQuery.level_agama q with
      | Some r => Some (FValue (VStr (Religiosity_str r)))
      | None => F !! k
      end
    else if decide ("agama" = k) then
      match SearchQuery.agama q with
      | Some r => Some (FValue (VStr (Religion_str r)))
      | None => F !! k
      end
    else if decide ("kota" = k) then
      (if truthy_opt (SearchQuery.lokasi q)
       then regex_i <$> SearchQuery.lokasi q else F !! k)
    else F !! k.
Proof.
  intros Hk. unfold field_filters. cbv zeta.
  match goal with
  | |- match ?o with Some l => lifestyle_filters l ?X | None => _ end !! _ = _ =>
      set (F6 := X);
      assert (Hl : match o with Some l => lifestyle_filters l F6 | None => F6 end !! k
                   = F6 !! k)
  end.
  { destruct Hk as [-> | Hk]; [done|].
    destruct (SearchQuery.lifestyle q); [|done].
    by apply lifestyle_filters_lookup_other. }
  rewrite Hl. clear Hl. unfold F6. clear F6.
  repeat (progress rewrite ?lookup_text_insert, ?lookup_opt_insert).
  repeat (case_decide; simplify_eq; try done).
Qed.

(** Every item of the dumped [Lifestyle] ends up as an equality on its
    path. *)
Lemma lifestyle_filters_items (l : Lifestyle.t) (F : gmap string Filter)
    (k v : string) :
  (k, v) ∈ Lifestyle.model_dump l →
  lifestyle_filters l F !! ("lifestyle." +:+ k) = Some (FValue (VStr v)).
Proof.
  unfold lifestyle_filters, Lifestyle.model_dump. cbn [foldl fst snd].
  rewrite !elem_of_cons, elem_of_nil.
  intros [Hkv|[Hkv|[Hkv|[Hkv|[Hkv|[Hkv|[Hkv|[]]]]]]]];
    injection Hkv as -> ->;
    cbv beta iota fix delta [String.append];
    repeat (first [ by rewrite lookup_insert_eq
                  | rewrite lookup_insert_ne by discriminate ]).
Qed.

Ltac doc_lookup :=
  unfold User_document;
  repeat (rewrite list_to_map_cons;
          first [ by rewrite lookup_insert_eq
                | rewrite lookup_insert_ne by discriminate ]).

Lemma User_document_approved (u : User.t) :
  User_document u !! "approved" = Some (VBool (User.approved u)).
Proof. doc_lookup. Qed.

Lemma User_document_tanggal_lahir (u : User.t) :
  User_document u !! "tanggal_lahir" = Some (VStr (isoformat (User.tanggal_lahir u))).
Proof. doc_lookup. Qed.

Section Search.

Context `{Countable ObjectId}.
Variable ObjectId_str : ObjectId → string.
Variable re_search : string → string → string → bool.

Lemma doc_matches_spec (filters : gmap string Filter) (u : User.t) :
  doc_matches re_search filters u = true ↔
  ∀ k f, filters !! k = Some f →
         filter_holds re_search f (User_document u !! k) = true.
Proof.
  unfold doc_matches. rewrite forallb_forall. split.
  - intros Hall k f Hk. apply (Hall (k, f)).
    apply list_elem_of_In. by apply elem_of_map_to_list.
  - intros Hall [k f] Hin. apply list_elem_of_In, elem_of_map_to_list in Hin.
    by apply Hall.
Qed.

Lemma doc_matches_approved_only (u : User.t) :
  doc_matches re_search {["approved" := FValue (VBool true)]} u = User.approved u.
Proof.
  unfold doc_matches. rewrite map_to_list_singleton.
  unfold forallb, filter_holds, value_matches. cbn [fst snd].
  rewrite User_document_approved, andb_true_r.
  destruct (User.approved u); reflexivity.
Qed.

Lemma search_filters_empty (today : date) :
  search_filters today SearchQuery.empty =
    Return {["approved" := FValue (VBool true)]}.
Proof. reflexivity. Qed.

(** With no field in the query, the search returns the approved profiles
    and only them. *)
Lemma search_profiles_empty (today : date) (db : DB ObjectId) :
  ∃ results,
    search_profiles ObjectId_str re_search today db SearchQuery.empty = Return results ∧
    ∀ id u, (id, u) ∈ results ↔
            ∃ o, id = ObjectId_str o ∧ user db !! o = Some u ∧ User.approved u = true.
Proof.
  unfold search_profiles. rewrite search_filters_empty, Result_bind_Return.
  eexists. split; [done|]. intros id u. unfold get_documents.
  rewrite list_elem_of_fmap. split.
  - intros [[o u'] [Heq Hin]]. unfold user_to_public in Heq; simpl in Heq.
    injection Heq as -> ->. apply list_elem_of_filter in Hin as [Hm Hin].
    cbn [snd] in Hm. rewrite doc_matches_approved_only in Hm.
    apply elem_of_map_to_list in Hin. by exists o.
  - intros (o & -> & Hu & Ha). exists (o, u). split; [done|].
    apply list_elem_of_filter. split.
    + cbn [snd]. by rewrite doc_matches_approved_only.
    + by apply elem_of_map_to_list.
Qed.

(** The entries of the filter document, when the dates of the age bounds
    exist. *)
Lemma search_filters_entries (today : date) (q : SearchQuery.t) :
  (∀ a, SearchQuery.usia_min q = Some a →
        date_ok (year today - a) (month today) (day today) = true) →
  (∀ b, SearchQuery.usia_max q = Some b →
        date_ok (year today - b - 1) (month today) (day today) = true) →
  ∃ filters conditions,
    search_filters today q = Return filters ∧
    filters !! "approved" = Some (FValue (VBool true)) ∧
    filters !! "tanggal_lahir" =
      (if is_not_None (SearchQuery.usia_min q) || is_not_None (SearchQuery.usia_max q)
       then Some (FOps conditions) else None) ∧
    conditions !! "$lte" =
      (λ a, VStr (isoformat (mkdate (year today - a) (month today) (day today))))
        <$> SearchQuery.usia_min q ∧
    conditions !! "$gte" =
      (λ b, VStr (isoformat (mkdate (year today - b - 1) (month today) (day today))))
        <$> SearchQuery.usia_max q ∧
    (∀ k, k ≠ "$lte" → k ≠ "$gte" → conditions !! k = None) ∧
    filters !! "kota" =
      (if truthy_opt (SearchQuery.lokasi q)
       then regex_i <$> SearchQuery.lokasi q else None) ∧
    filters !! "agama" =
      (λ r, FValue (VStr (Religion_str r))) <$> SearchQuery.agama q ∧
    filters !! "level_agama" =
      (λ r, FValue (VStr (Religiosity_str r))) <$> SearchQuery.level_agama q ∧
    filters !! "pekerjaan" =
      (if truthy_opt (SearchQuery.pekerjaan q)
       then regex_i <$> SearchQuery.pekerjaan q else None) ∧
    filters !! "pendapatan_per_bulan" =
      (λ n, FOps {["$gte" := VInt n]}) <$> SearchQuery.pendapatan_min q ∧
    filters !! "pendidikan" =
      (if truthy_opt (SearchQuery.pendidikan q)
       then regex_i <$> SearchQuery.pendidikan q else None) ∧
    (SearchQuery.lifestyle q = None →
     ∀ k, is_Some (filters !! k) →
          k ∈ ["approved"; "tanggal_lahir"; "kota"; "agama"; "level_agama";
               "pekerjaan"; "pendapatan_per_bulan"; "pendidikan"]).
Proof.
  intros Hmin Hmax.
  destruct (age_conditions_returns today _ _ Hmin Hmax)
    as (conditions & Hret & Hlte & Hgte & Hother).
  set (F0 := ({["approved" := FValue (VBool true)]} : gmap string Filter)).
  set (flag := is_not_None (SearchQuery.usia_min q) || is_not_None (SearchQuery.usia_max q)).
  set (F1 := if flag then <["tanggal_lahir" := FOps conditions]> F0 else F0).
  assert (Hsf : search_filters today q = Return (field_filters q F1)).
  { unfold search_filters, age_filter. fold F0. fold flag. unfold F1.
    destruct flag; [rewrite Hret|]; by rewrite !Result_bind_Return. }
  assert (HF1 : ∀ k, F1 !! k =
            if decide ("tanggal_lahir" = k)
            then (if flag then Some (FOps conditions) else None)
            else if decide ("approved" = k) then Some (FValue (VBool true))
            else None).
  { intros k. unfold F1, F0. destruct flag.
    - rewrite lookup_insert. case_decide; [done|].
      rewrite lookup_singleton. by case_decide.
    - rewrite lookup_singleton. repeat case_decide; by simplify_eq. }
  exists (field_filters q F1), conditions.
  split; [done|].
  repeat split; try done.
  1-8: rewrite field_filters_lookup by (by right); rewrite HF1;
       repeat (case_decide; simplify_eq; try done).
  intros Hl k [f Hf].
  rewrite field_filters_lookup, HF1 in Hf by (by left).
  rewrite !elem_of_cons.
  repeat (case_decide; simplify_eq; try tauto).
Qed.

(** C2, as the code has it.  When the dates of the age bounds exist, the
    filter document always holds [approved = True]; each age bound given
    adds one condition on the birth date; a religion, a religiosity and a
    minimum income that are given, and a location, an occupation and an
    education text that are given and not empty, each add one entry; an
    empty text adds nothing, like a field left out; and with no lifestyle
    in the query the document holds nothing else.  With no field at all
    the search returns the approved profiles and only them. *)
Theorem search_filters_constraints (today : date) (q : SearchQuery.t) :
  ((∀ a, SearchQuery.usia_min q = Some a →
         date_ok (year today - a) (month today) (day today) = true) →
   (∀ b, SearchQuery.usia_max q = Some b →
         date_ok (year today - b - 1) (month today) (day today) = true) →
   ∃ filters conditions,
     search_filters today q = Return filters ∧
     filters !! "approved" = Some (FValue (VBool true)) ∧
     filters !! "tanggal_lahir" =
       (if is_not_None (SearchQuery.usia_min q) || is_not_None (SearchQuery.usia_max q)
        then Some (FOps conditions) else None) ∧
     conditions !! "$lte" =
       (λ a, VStr (isoformat (mkdate (year today - a) (month today) (day today))))
         <$> SearchQuery.usia_min q ∧
     conditions !! "$gte" =
       (λ b, VStr (isoformat (mkdate (year today - b - 1) (month today) (day today))))
         <$> SearchQuery.usia_max q ∧
     (∀ k, k ≠ "$lte" → k ≠ "$gte" → conditions !! k = None) ∧
     filters !! "kota" =
       (if truthy_opt (SearchQuery.lokasi q)
        then regex_i <$> SearchQuery.lokasi q else None) ∧
     filters !! "agama" =
       (λ r, FValue (VStr (Religion_str r))) <$> SearchQuery.agama q ∧
     filters !! "level_agama" =
       (λ r, FValue (VStr (Religiosity_str r))) <$> SearchQuery.level_agama q ∧
     filters !! "pekerjaan" =
       (if truthy_opt (SearchQuery.pekerjaan q)
        then regex_i <$> SearchQuery.pekerjaan q else None) ∧
     filters !! "pendapatan_per_bulan" =
       (λ n, FOps {["$gte" := VInt n]}) <$> SearchQuery.pendapatan_min q ∧
     filters !! "pendidikan" =
       (if truthy_opt (SearchQuery.pendidikan q)
        then regex_i <$> SearchQuery.pendidikan q else None) ∧
     (SearchQuery.lifestyle q = None →
      ∀ k, is_Some (filters !! k) →
           k ∈ ["approved"; "tanggal_lahir"; "kota"; "agama"; "level_agama";
                "pekerjaan"; "pendapatan_per_bulan"; "pendidikan"])) ∧
  (∀ db : DB ObjectId,
     ∃ results,
       search_profiles ObjectId_str re_search today db SearchQuery.empty
         = Return results ∧
       ∀ id u, (id, u) ∈ results ↔
               ∃ o, id = ObjectId_str o ∧ user db !! o = Some u ∧
                    User.approved u = true).
Proof.
  split; [apply search_filters_entries|apply search_profiles_empty].
Qed.

Lemma filter_holds_ops (ops : gmap string Value) (v : option Value) :
  filter_holds re_search (FOps ops) v = true ↔
  ∀ op arg, ops !! op = Some arg → op_holds re_search ops v op arg = true.
Proof.
  unfold filter_holds. rewrite forallb_forall. split.
  - intros Hall op arg Hop. apply (Hall (op, arg)).
    apply list_elem_of_In. by apply elem_of_map_to_list.
  - intros Hall [op arg] Hin. apply list_elem_of_In, elem_of_map_to_list in Hin.
    by apply Hall.
Qed.

(** Away from the leap day the age bounds are the inclusive range of
    birth dates: a profile born today minus [a] years is returned for
    ages [a] to [a], and is not returned for a minimum age of [a + 1]. *)
Lemma search_age_bounds_regular_day (today : date) (db : DB ObjectId) (a : Z)
    (o : ObjectId) (u : User.t) :
  let born := mkdate (year today - a) (month today) (day today) in
  date_valid born = true →
  date_ok (year today - a - 1) (month today) (day today) = true →
  user db !! o = Some u →
  User.approved u = true →
  User.tanggal_lahir u = born →
  (∃ results,
      search_profiles ObjectId_str re_search today db (Sample.ages (Some a) (Some a))
        = Return results ∧
      (ObjectId_str o, u) ∈ results) ∧
  (∃ results,
      search_profiles ObjectId_str re_search today db (Sample.ages (Some (a + 1)) None)
        = Return results ∧
      ∀ id u', (id, u') ∈ results → User.tanggal_lahir u' ≠ born).
Proof.
  intros born Hborn Hprev Hu Happ Hdate.
  assert (Hlt : String.compare
                  (isoformat (mkdate (year today - a - 1) (month today) (day today)))
                  (isoformat born) = Lt).
  { rewrite isoformat_compare by done. unfold date_compare, born; simpl.
    by rewrite (proj2 (Z.compare_lt_iff _ _)) by lia. }
  split.
  - destruct (search_filters_entries today (Sample.ages (Some a) (Some a)))
      as (filters & conditions & Hsf & Hap & Htl & Hlte & Hgte & Hoth & Hk1 & Hk2
          & Hk3 & Hk4 & Hk5 & Hk6 & Hdom).
    { intros ? [= <-]. exact Hborn. }
    { intros ? [= <-]. exact Hprev. }
    unfold search_profiles. rewrite Hsf, Result_bind_Return.
    eexists. split; [done|].
    apply list_elem_of_fmap. exists (o, u). split; [done|].
    unfold get_documents. apply list_elem_of_filter.
    split; [|by apply elem_of_map_to_list].
    cbn [snd]. apply doc_matches_spec. intros k f Hk.
    specialize (Hdom eq_refl k (mk_is_Some _ _ Hk)).
    simpl in Htl, Hlte, Hgte, Hk1, Hk2, Hk3, Hk4, Hk5, Hk6.
    rewrite !elem_of_cons, elem_of_nil in Hdom.
    destruct Hdom as [->|[->|[->|[->|[->|[->|[->|[->|[]]]]]]]]]; try congruence.
    + rewrite Hap in Hk. injection Hk as <-.
      rewrite User_document_approved, Happ. reflexivity.
    + rewrite Htl in Hk. injection Hk as <-.
      rewrite User_document_tanggal_lahir, Hdate.
      apply filter_holds_ops. intros op arg Hop.
      destruct (decide (op = "$lte")) as [->|Hn1].
      { rewrite Hlte in Hop. injection Hop as <-.
        unfold op_holds; simpl. apply string_leb_refl. }
      destruct (decide (op = "$gte")) as [->|Hn2].
      { rewrite Hgte in Hop. injection Hop as <-.
        unfold op_holds; simpl. unfold String.leb. fold born. by rewrite Hlt. }
      by rewrite Hoth in Hop.
  - destruct (search_filters_entries today (Sample.ages (Some (a + 1)) None))
      as (filters & conditions & Hsf & Hap & Htl & Hlte & _).
    { intros ? [= <-]. by replace (year today - (a + 1)) with (year today - a - 1) by lia. }
    { intros ? [=]. }
    unfold search_profiles. rewrite Hsf, Result_bind_Return.
    eexists. split; [done|].
    intros id u' Hin Heq.
    apply list_elem_of_fmap in Hin as [[o' u''] [Hpub Hin]].
    injection Hpub as -> ->. unfold get_documents in Hin.
    apply list_elem_of_filter in Hin as [Hm _]. cbn [snd] in Hm.
    rewrite doc_matches_spec in Hm.
    simpl in Htl, Hlte.
    specialize (Hm _ _ Htl). rewrite User_document_tanggal_lahir, Heq in Hm.
    rewrite filter_holds_ops in Hm. specialize (Hm _ _ Hlte).
    unfold op_holds in Hm; simpl in Hm.
    replace (year today - (a + 1)) with (year today - a - 1) in Hm by lia.
    unfold String.leb in Hm. rewrite String.compare_antisym in Hm.
    fold born in Hm. by rewrite Hlt in Hm.
Qed.

(** C3, on a leap day.  On 29 February 2024 a profile born on 29 February
    2020 is exactly four years old, yet the search for ages four to four
    does not return: the lower birth date, 29 February 2019, does not
    exist and [date] raises [ValueError].  The search for a minimum age of
    five fails in the same way. *)
Theorem search_age_bounds_leap_day (db : DB ObjectId) :
  let today := mkdate 2024 2 29 in
  let born := mkdate (year today - 4) (month today) (day today) in
  date_valid today = true ∧
  date_valid born = true ∧
  search_filters today (Sample.ages (Some 4) (Some 4)) = Raise ValueError ∧
  search_profiles ObjectId_str re_search today db (Sample.ages (Some 4) (Some 4))
    = Raise ValueError ∧
  search_profiles ObjectId_str re_search today db (Sample.ages (Some 5) None)
    = Raise ValueError.
Proof.
  assert (H4 : search_filters (mkdate 2024 2 29) (Sample.ages (Some 4) (Some 4))
               = Raise ValueError) by (vm_compute; reflexivity).
  assert (H5 : search_filters (mkdate 2024 2 29) (Sample.ages (Some 5) None)
               = Raise ValueError) by (vm_compute; reflexivity).
  cbv zeta. unfold search_profiles. rewrite H4, H5.
  repeat split; reflexivity.
Qed.

(** C4, at a partial lifestyle.  For the body
    [{"lifestyle": {"merokok": "sering"}}] the filter document constrains
    all seven lifestyle attributes, the six that were left out at their
    defaults; so an approved profile that smokes often and drinks socially
    is not selected, because the filter asks for [alkohol = "tidak"]. *)
Theorem search_lifestyle_partial_filter (today : date) :
  ∃ filters,
    search_filters today Sample.smokers = Return filters ∧
    filters !! "lifestyle.merokok" = Some (FValue (VStr "sering")) ∧
    filters !! "lifestyle.alkohol" = Some (FValue (VStr "tidak")) ∧
    filters !! "lifestyle.pola_makan" = Some (FValue (VStr "bebas")) ∧
    filters !! "lifestyle.aktivitas_fisik" = Some (FValue (VStr "sedang")) ∧
    filters !! "lifestyle.kebiasaan_tidur" = Some (FValue (VStr "fleksibel")) ∧
    filters !! "lifestyle.pengelolaan_waktu" = Some (FValue (VStr "campuran")) ∧
    filters !! "lifestyle.kebiasaan_belanja" = Some (FValue (VStr "moderat")) ∧
    User.approved Sample.smoker = true ∧
    Lifestyle.merokok (User.lifestyle Sample.smoker) = merokok_sering ∧
    doc_matches re_search filters Sample.smoker = false.
Proof.
  set (l := Lifestyle.validate
              (Lifestyle.mk_fields (Some merokok_sering) None None None None None None)).
  set (F0 := ({["approved" := FValue (VBool true)]} : gmap string Filter)).
  exists (lifestyle_filters l F0).
  assert (Hitem : ∀ k v, (k, v) ∈ Lifestyle.model_dump l →
            lifestyle_filters l F0 !! ("lifestyle." +:+ k) = Some (FValue (VStr v)))
    by (intros k v; apply lifestyle_filters_items).
  split; [reflexivity|].
  split; [apply (Hitem "merokok" "sering"); set_solver|].
  split; [apply (Hitem "alkohol" "tidak"); set_solver|].
  split; [apply (Hitem "pola_makan" "bebas"); set_solver|].
  split; [apply (Hitem "aktivitas_fisik" "sedang"); set_solver|].
  split; [apply (Hitem "kebiasaan_tidur" "fleksibel"); set_solver|].
  split; [apply (Hitem "pengelolaan_waktu" "campuran"); set_solver|].
  split; [apply (Hitem "kebiasaan_belanja" "moderat"); set_solver|].
  split; [reflexivity|]. split; [reflexivity|].
  destruct (doc_matches re_search (lifestyle_filters l F0) Sample.smoker) eqn:Hm;
    [exfalso|done].
  rewrite doc_matches_spec in Hm.
  specialize (Hm "lifestyle.alkohol" _ (Hitem "alkohol" "tidak" ltac:(set_solver))).
  assert (Hdoc : User_document Sample.smoker !! "lifestyle.alkohol"
                 = Some (VStr "sosial")) by doc_lookup.
  rewrite Hdoc in Hm. vm_compute in Hm. discriminate Hm.
Qed.

End Search.

(** ** Payment *)

Section PaymentProperties.

Variable getenv : string → option string.
Variable Session_create : Stripe.request → string + string.

(** C9. Without [STRIPE_API_KEY] in the environment, the checkout of any
    email returns, without a call to the payment provider, the onboarding
    address with the email as its [email] query parameter. *)
Theorem checkout_without_api_key (email : string) :
  getenv "STRIPE_API_KEY" = None →
  create_checkout_session getenv Session_create email =
    ([], Return ("/onboarding?email=" +:+ email)).
Proof.
  intros Hkey. unfold create_checkout_session, STRIPE_API_KEY.
  by rewrite Hkey.
Qed.

End PaymentProperties.

(** * The properties at sample data

    Identifiers are those of the concrete store [Hex]. *)

Lemma like_then_like_back_witness :
  ∃ db1 db2,
    like_user Hex.ObjectId_new Sample.db0 (Like.mk Sample.id_a Sample.id_b)
      = Return (db1, false) ∧
    like_user Hex.ObjectId_new db1 (Like.mk Sample.id_b Sample.id_a)
      = Return (db2, true) ∧
    ∃ ua2 ub2,
      user db2 !! Sample.id_a = Some ua2 ∧ user db2 !! Sample.id_b = Some ub2 ∧
      Sample.id_b ∈ User.matches ua2 ∧ Sample.id_a ∈ User.matches ub2.
Proof.
  destruct (like_then_like_back Hex.ObjectId_new Sample.db0
              Sample.id_a Sample.id_b Sample.id_a Sample.id_b
              Sample.ani Sample.budi)
    as [(db1 & db2 & H1 & _ & H2 & H3) _].
  - discriminate.
  - reflexivity.
  - reflexivity.
  - reflexivity.
  - reflexivity.
  - apply not_elem_of_nil.
  - exists db1, db2. split; [exact H1|]. split; [exact H2|exact H3].
Defined.

(** C5 as written fails at an identifier that is not an [ObjectId]: "x"
    resolves to no profile, and the like fails with status 400, not with
    404. *)
Lemma like_user_malformed_id_counterexample :
  "x" ≠ Sample.id_b ∧
  Hex.ObjectId_new "x" = None ∧
  like_user Hex.ObjectId_new Sample.db0 (Like.mk "x" Sample.id_b)
    = Raise (HTTPException InvalidOperation "Invalid ID") ∧
  like_user Hex.ObjectId_new Sample.db0 (Like.mk "x" Sample.id_b)
    ≠ Raise (HTTPException NotFound "User not found").
Proof.
  assert (Hrun : like_user Hex.ObjectId_new Sample.db0 (Like.mk "x" Sample.id_b)
                 = Raise (HTTPException InvalidOperation "Invalid ID"))
    by reflexivity.
  split; [discriminate|]. split; [reflexivity|]. split; [exact Hrun|].
  rewrite Hrun. discriminate.
Qed.

Lemma like_user_errors_and_idempotence_witness :
  like_user Hex.ObjectId_new Sample.db0 (Like.mk Sample.id_a Sample.id_c)
    = Raise (HTTPException NotFound "User not found") ∧
  ∃ db' mutual u_from',
    like_user Hex.ObjectId_new Sample.db0 (Like.mk Sample.id_a Sample.id_b)
      = Return (db', mutual) ∧
    user db' !! Sample.id_a = Some u_from' ∧
    Sample.id_b ∈ User.liked_user_ids u_from' ∧
    like_user Hex.ObjectId_new db' (Like.mk Sample.id_a Sample.id_b)
      = Return (db', mutual).
Proof.
  split.
  - apply (proj1 (proj2 (proj2
      (like_user_errors_and_idempotence Hex.ObjectId_new Sample.db0
         (Like.mk Sample.id_a Sample.id_c)))) Sample.id_a Sample.id_c).
    + discriminate.
    + reflexivity.
    + reflexivity.
    + right. reflexivity.
  - destruct (proj2 (proj2 (proj2
      (like_user_errors_and_idempotence Hex.ObjectId_new Sample.db0
         (Like.mk Sample.id_a Sample.id_b)))) Sample.id_a Sample.id_b
         Sample.ani Sample.budi)
      as (db' & mutual & u' & H1 & H2 & _ & H3 & H4).
    + discriminate.
    + reflexivity.
    + reflexivity.
    + reflexivity.
    + reflexivity.
    + exists db', mutual, u'. split; [exact H1|]. split; [exact H2|].
      split; [exact H3|exact H4].
Defined.

(** C7 as written fails at a sender identifier that is not an
    [ObjectId]: the sender "x" is unknown, and the failure has status 400,
    not 404. *)
Lemma send_message_malformed_id_counterexample :
  Hex.ObjectId_new "x" = None ∧
  send_message Hex.ObjectId_new 0 Sample.db0 (SendMessage.mk "x" Sample.id_b "halo")
    = Raise (HTTPException InvalidOperation "Invalid ID") ∧
  send_message Hex.ObjectId_new 0 Sample.db0 (SendMessage.mk "x" Sample.id_b "halo")
    ≠ Raise (HTTPException NotFound "Sender not found").
Proof.
  assert (Hrun : send_message Hex.ObjectId_new 0 Sample.db0
                   (SendMessage.mk "x" Sample.id_b "halo")
                 = Raise (HTTPException InvalidOperation "Invalid ID"))
    by reflexivity.
  split; [reflexivity|]. split; [exact Hrun|]. rewrite Hrun. discriminate.
Qed.

Lemma send_message_outcomes_witness :
  send_message Hex.ObjectId_new 7 Sample.db0
      (SendMessage.mk Sample.id_a Sample.id_b "halo")
    = Raise (HTTPException Forbidden "You can only message matched users") ∧
  ∃ db',
    send_message Hex.ObjectId_new 7 Sample.db_matched
        (SendMessage.mk Sample.id_a Sample.id_b "halo")
      = Return (db', true) ∧
    user db' = user Sample.db_matched ∧
    message db' =
      [ Message.mk (match_id Sample.id_a Sample.id_b) Sample.id_a "halo" 7 ].
Proof.
  split.
  - apply (proj1 (proj2 (proj2
      (send_message_outcomes Hex.ObjectId_new 7 Sample.db0
         (SendMessage.mk Sample.id_a Sample.id_b "halo")))) Sample.id_a Sample.ani).
    + reflexivity.
    + reflexivity.
    + apply not_elem_of_nil.
  - apply (proj2 (proj2 (proj2
      (send_message_outcomes Hex.ObjectId_new 7 Sample.db_matched
         (SendMessage.mk Sample.id_a Sample.id_b "halo")))) Sample.id_a
         (User.addToSet_matches Sample.id_b
            (User.addToSet_liked_user_ids Sample.id_b Sample.ani))).
    + reflexivity.
    + reflexivity.
    + apply list_elem_of_here.
Defined.

(** C8 as written fails at an identifier that is not an [ObjectId]: no
    profile "x" exists, and the action fails with status 400, not 404.  It
    also fails at the action "archive" on the existing profile of Ani: the
    request is refused when its body is validated, which is not the
    handler's status 400. *)
Lemma admin_action_malformed_id_counterexample :
  Hex.ObjectId_new "x" = None ∧
  admin_action Hex.ObjectId_new Sample.db0 (AdminAction.mk "x" AdminAction.approve)
    = Raise (HTTPException InvalidOperation "Invalid ID") ∧
  admin_action Hex.ObjectId_new Sample.db0 (AdminAction.mk "x" AdminAction.approve)
    ≠ Raise (HTTPException NotFound "User not found") ∧
  user Sample.db0 !! Sample.id_a = Some Sample.ani ∧
  admin_action_request Hex.ObjectId_new Sample.db0 Sample.id_a "archive"
    = Raise RequestValidationError ∧
  admin_action_request Hex.ObjectId_new Sample.db0 Sample.id_a "archive"
    ≠ Raise (HTTPException InvalidOperation "Unknown action").
Proof.
  assert (Hrun : admin_action Hex.ObjectId_new Sample.db0
                   (AdminAction.mk "x" AdminAction.approve)
                 = Raise (HTTPException InvalidOperation "Invalid ID"))
    by reflexivity.
  assert (Hreq : admin_action_request Hex.ObjectId_new Sample.db0 Sample.id_a "archive"
                 = Raise RequestValidationError)
    by reflexivity.
  split; [reflexivity|]. split; [exact Hrun|].
  split; [rewrite Hrun; discriminate|].
  split; [reflexivity|]. split; [exact Hreq|]. rewrite Hreq. discriminate.
Qed.

Lemma admin_action_outcomes_witness :
  admin_action Hex.ObjectId_new Sample.db0
      (AdminAction.mk Sample.id_c AdminAction.approve)
    = Raise (HTTPException NotFound "User not found") ∧
  admin_action_request Hex.ObjectId_new Sample.db0 Sample.id_a "archive"
    = Raise RequestValidationError ∧
  (∃ db' u',
     admin_action Hex.ObjectId_new Sample.db0
         (AdminAction.mk Sample.id_a AdminAction.approve)
       = Return (db', true) ∧
     user db' !! Sample.id_a = Some u' ∧ User.approved u' = true) ∧
  (∃ db',
     admin_action Hex.ObjectId_new Sample.db0
         (AdminAction.mk Sample.id_a AdminAction.reject)
       = Return (db', true) ∧
     find_one db' Sample.id_a = None).
Proof.
  pose proof (admin_action_outcomes Hex.ObjectId_new Sample.db0) as Hadm.
  split; [|split; [|split]].
  - apply (proj1 (proj2 (Hadm (AdminAction.mk Sample.id_c AdminAction.approve)))
             Sample.id_c).
    + reflexivity.
    + reflexivity.
  - apply (proj1 (proj2 (proj2 (proj2
      (Hadm (AdminAction.mk Sample.id_a AdminAction.approve))))) "archive").
    rewrite !elem_of_cons, elem_of_nil.
    intros [?|[?|[?|[?|[]]]]]; discriminate.
  - destruct (proj1 (proj1 (proj2 (proj2
      (Hadm (AdminAction.mk Sample.id_a AdminAction.approve)))) Sample.id_a Sample.ani
      eq_refl eq_refl) eq_refl)
      as (db' & u' & H1 & _ & _ & H2 & H3 & _).
    exists db', u'. split; [exact H1|]. split; [exact H2|exact H3].
  - destruct (proj1 (proj2 (proj1 (proj2 (proj2
      (Hadm (AdminAction.mk Sample.id_a AdminAction.reject)))) Sample.id_a Sample.ani
      eq_refl eq_refl)) eq_refl)
      as (db' & H1 & _ & _ & H2).
    exists db'. split; [exact H1|exact H2].
Defined.

Lemma send_message_ignores_recipient_witness :
  Hex.ObjectId_new Sample.id_c = Some Sample.id_c ∧
  user Sample.db_orphan !! Sample.id_c = None ∧
  ∃ db',
    send_message Hex.ObjectId_new 7 Sample.db_orphan
        (SendMessage.mk Sample.id_a Sample.id_c "halo")
      = Return (db', true) ∧
    message db' =
      message Sample.db_orphan
        ++ [Message.mk (match_id Sample.id_a Sample.id_c) Sample.id_a "halo" 7] ∧
    user db' = user Sample.db_orphan.
Proof.
  split; [reflexivity|]. split; [reflexivity|].
  apply (send_message_ignores_recipient Hex.ObjectId_new 7 Sample.db_orphan
           (SendMessage.mk Sample.id_a Sample.id_c "halo") Sample.id_a
           (User.addToSet_matches Sample.id_c Sample.ani)).
  - reflexivity.
  - reflexivity.
  - apply list_elem_of_here.
Defined.

Lemma checkout_without_api_key_witness :
  Sample.no_env "STRIPE_API_KEY" = None ∧
  create_checkout_session Sample.no_env Sample.no_provider "ani@example.com"
    = ([], Return "/onboarding?email=ani@example.com").
Proof.
  split; [reflexivity|].
  apply (checkout_without_api_key Sample.no_env Sample.no_provider "ani@example.com").
  reflexivity.
Defined.

(** C2 as written fails at an empty text: the query gives [lokasi], and
    the filter document holds [approved] alone. *)
Lemma search_filters_empty_text_counterexample :
  let q := SearchQuery.mk None None (Some "") None None None None None None in
  is_not_None (SearchQuery.lokasi q) = true ∧
  search_filters (mkdate 2024 3 1) q = Return {["approved" := FValue (VBool true)]}.
Proof. split; reflexivity. Qed.

Lemma search_filters_constraints_witness :
  ∃ filters conditions,
    search_filters (mkdate 2024 3 1) (Sample.ages (Some 25) (Some 35))
      = Return filters ∧
    filters !! "approved" = Some (FValue (VBool true)) ∧
    filters !! "tanggal_lahir" = Some (FOps conditions) ∧
    conditions !! "$lte" = Some (VStr "1999-03-01") ∧
    conditions !! "$gte" = Some (VStr "1988-03-01") ∧
    filters !! "kota" = None.
Proof.
  destruct (proj1 (search_filters_constraints Hex.ObjectId_str Hex.re_search
                     (mkdate 2024 3 1) (Sample.ages (Some 25) (Some 35))))
    as (filters & conditions & H1 & H2 & H3 & H4 & H5 & _ & H6 & _).
  - intros a [= <-]. reflexivity.
  - intros b [= <-]. reflexivity.
  - exists filters, conditions.
    split; [exact H1|]. split; [exact H2|]. split; [exact H3|].
    split; [exact H4|]. split; [exact H5|exact H6].
Defined.

(** * Further properties of the handlers *)

#[local] Set Warnings "-clear-no-such-hyp".

(** ** What a like changes *)

Lemma NoDup_addToSet (x : string) (l : list string) :
  NoDup l → NoDup (addToSet x l).
Proof.
  intros Hl. unfold addToSet. destruct (contains x l) eqn:Hc; [done|].
  apply contains_false in Hc. apply NoDup_app. split; [done|].
  split; [|apply NoDup_singleton].
  intros y Hy Hy'. apply list_elem_of_singleton in Hy'. by subst.
Qed.

Ltac entries_agree :=
  repeat (constructor;
          [split; [reflexivity|intros Hn; first [reflexivity|by destruct Hn]]|]);
  constructor.

Lemma User_document_addToSet_liked_user_ids (x : string) (u : User.t) (k : string) :
  k ≠ "liked_user_ids" →
  User_document (User.addToSet_liked_user_ids x u) !! k = User_document u !! k.
Proof.
  intros Hk. unfold User_document.
  apply (list_to_map_agree "liked_user_ids"); [entries_agree|done].
Qed.

Lemma User_document_addToSet_matches (x : string) (u : User.t) (k : string) :
  k ≠ "matches" →
  User_document (User.addToSet_matches x u) !! k = User_document u !! k.
Proof.
  intros Hk. unfold User_document.
  apply (list_to_map_agree "matches"); [entries_agree|done].
Qed.

Section LikeEffects.

Context `{Countable ObjectId}.
Variable ObjectId_new : string → option ObjectId.

(** The whole effect of a like that succeeds, profile by profile. *)
Lemma like_user_effect (db db' : DB ObjectId) (p : Like.t) (mutual : bool) :
  like_user ObjectId_new db p = Return (db', mutual) →
  ∃ id_from id_to u_from u_to,
    Like.from_user_id p ≠ Like.to_user_id p ∧
    ObjectId_new (Like.from_user_id p) = Some id_from ∧
    ObjectId_new (Like.to_user_id p) = Some id_to ∧
    user db !! id_from = Some u_from ∧
    user db !! id_to = Some u_to ∧
    mutual = contains (Like.from_user_id p) (User.liked_user_ids u_to) ∧
    message db' = message db ∧
    ∀ o,
      match user db !! o with
      | None => user db' !! o = None
      | Some u =>
          ∃ u',
            user db' !! o = Some u' ∧
            (∀ s, s ∈ User.liked_user_ids u' ↔
                  s ∈ User.liked_user_ids u ∨ (o = id_from ∧ s = Like.to_user_id p)) ∧
            (∀ s, s ∈ User.matches u' ↔
                  s ∈ User.matches u ∨
                  (mutual = true ∧ o = id_from ∧ s = Like.to_user_id p) ∨
                  (mutual = true ∧ o = id_to ∧ s = Like.from_user_id p)) ∧
            (NoDup (User.liked_user_ids u) → NoDup (User.liked_user_ids u')) ∧
            (NoDup (User.matches u) → NoDup (User.matches u')) ∧
            (∀ k, k ≠ "liked_user_ids" → k ≠ "matches" →
                  User_document u' !! k = User_document u !! k) ∧
            (o ≠ id_from → o ≠ id_to → u' = u)
      end.
Proof.
  intros Hret.
  destruct (like_user_returns _ _ _ _ _ Hret)
    as (id_from & id_to & u_from & u_to & Hne & Hf & Ht & Huf & Hut).
  rewrite (like_user_found ObjectId_new db p id_from id_to u_from u_to) in Hret by done.
  cbv zeta in Hret. injection Hret as Hdb Hm.
  exists id_from, id_to, u_from, u_to.
  split; [done|]. split; [done|]. split; [done|]. split; [done|]. split; [done|].
  split; [done|].
  split. { subst db'. by destruct (contains _ _). }
  intros o. destruct (user db !! o) as [u|] eqn:Hu.
  - subst db'. rewrite Hm.
    assert (Hcase :
      ∀ f : User.t → User.t,
        (∀ s, s ∈ User.liked_user_ids (f u) ↔
              s ∈ User.liked_user_ids u ∨ (o = id_from ∧ s = Like.to_user_id p)) →
        (∀ s, s ∈ User.matches (f u) ↔
              s ∈ User.matches u ∨
              (mutual = true ∧ o = id_from ∧ s = Like.to_user_id p) ∨
              (mutual = true ∧ o = id_to ∧ s = Like.from_user_id p)) →
        (NoDup (User.liked_user_ids u) → NoDup (User.liked_user_ids (f u))) →
        (NoDup (User.matches u) → NoDup (User.matches (f u))) →
        (∀ k, k ≠ "liked_user_ids" → k ≠ "matches" →
              User_document (f u) !! k = User_document u !! k) →
        (o ≠ id_from → o ≠ id_to → f u = u) →
        ∃ u', Some (f u) = Some u' ∧
          (∀ s, s ∈ User.liked_user_ids u' ↔
                s ∈ User.liked_user_ids u ∨ (o = id_from ∧ s = Like.to_user_id p)) ∧
          (∀ s, s ∈ User.matches u' ↔
                s ∈ User.matches u ∨
                (mutual = true ∧ o = id_from ∧ s = Like.to_user_id p) ∨
                (mutual = true ∧ o = id_to ∧ s = Like.from_user_id p)) ∧
          (NoDup (User.liked_user_ids u) → NoDup (User.liked_user_ids u')) ∧
          (NoDup (User.matches u) → NoDup (User.matches u')) ∧
          (∀ k, k ≠ "liked_user_ids" → k ≠ "matches" →
                User_document u' !! k = User_document u !! k) ∧
          (o ≠ id_from → o ≠ id_to → u' = u)).
    { intros f ? ? ? ? ? ?. by exists (f u). }
    destruct mutual.
    + rewrite !user_update_one.
      destruct (decide (id_to = o)) as [->|Nto], (decide (id_from = o)) as [->|Nfrom];
        rewrite ?decide_True by done; rewrite Hu; simpl.
      * apply (Hcase (λ u, User.addToSet_matches (Like.from_user_id p)
                             (User.addToSet_matches (Like.to_user_id p)
                                (User.addToSet_liked_user_ids (Like.to_user_id p) u))));
          simpl.
        -- intros s. rewrite elem_of_addToSet. naive_solver.
        -- intros s. rewrite !elem_of_addToSet. naive_solver.
        -- apply NoDup_addToSet.
        -- intros. by repeat apply NoDup_addToSet.
        -- intros k Hk1 Hk2.
           by rewrite !User_document_addToSet_matches,
             User_document_addToSet_liked_user_ids.
        -- done.
      * apply (Hcase (λ u, User.addToSet_matches (Like.from_user_id p) u)); simpl.
        -- intros s. naive_solver.
        -- intros s. rewrite !elem_of_addToSet. naive_solver.
        -- done.
        -- apply NoDup_addToSet.
        -- intros k Hk1 Hk2. by rewrite User_document_addToSet_matches.
        -- done.
      * apply (Hcase (λ u, User.addToSet_matches (Like.to_user_id p)
                             (User.addToSet_liked_user_ids (Like.to_user_id p) u)));
          simpl.
        -- intros s. rewrite elem_of_addToSet. naive_solver.
        -- intros s. rewrite !elem_of_addToSet. naive_solver.
        -- apply NoDup_addToSet.
        -- apply NoDup_addToSet.
        -- intros k Hk1 Hk2.
           by rewrite User_document_addToSet_matches,
             User_document_addToSet_liked_user_ids.
        -- done.
      * apply (Hcase (λ u, u)); naive_solver.
    + rewrite !user_update_one.
      destruct (decide (id_from = o)) as [->|Nfrom]; rewrite Hu; simpl.
      * apply (Hcase (λ u, User.addToSet_liked_user_ids (Like.to_user_id p) u)); simpl.
        -- intros s. rewrite elem_of_addToSet. naive_solver.
        -- intros s. naive_solver.
        -- apply NoDup_addToSet.
        -- done.
        -- intros k Hk1 Hk2. by rewrite User_document_addToSet_liked_user_ids.
        -- done.
      * apply (Hcase (λ u, u)); naive_solver.
  - subst db'. destruct (contains _ _); rewrite !user_update_one;
      repeat case_decide; subst; rewrite ?Hu; try done; congruence.
Qed.

(** X1. A like that succeeds creates and deletes no profile and no
    message; in the profiles it changes nothing but [liked_user_ids] and
    [matches], and it leaves every profile other than the sender's and
    the receiver's as it was. *)
Theorem like_user_frame (db db' : DB ObjectId) (p : Like.t) (mutual : bool) :
  like_user ObjectId_new db p = Return (db', mutual) →
  message db' = message db ∧
  (∀ o, user db' !! o = None ↔ user db !! o = None) ∧
  (∀ o u u', user db !! o = Some u → user db' !! o = Some u' →
     ∀ k, k ≠ "liked_user_ids" → k ≠ "matches" →
          User_document u' !! k = User_document u !! k) ∧
  (∀ o, ObjectId_new (Like.from_user_id p) ≠ Some o →
        ObjectId_new (Like.to_user_id p) ≠ Some o →
        user db' !! o = user db !! o).
Proof.
  intros Hret.
  destruct (like_user_effect _ _ _ _ Hret)
    as (id_from & id_to & u_from & u_to & Hne & Hf & Ht & Huf & Hut & Hm & Hmsg & Heff).
  split; [done|]. split; [|split].
  - intros o. specialize (Heff o). destruct (user db !! o) as [u|].
    + destruct Heff as (u' & -> & _). done.
    + by rewrite Heff.
  - intros o u u' Hu Hu'. specialize (Heff o). rewrite Hu in Heff.
    destruct Heff as (u'' & Hu'' & _ & _ & _ & _ & Hdoc & _).
    rewrite Hu' in Hu''. injection Hu'' as <-. exact Hdoc.
  - intros o Hof Hot. specialize (Heff o). destruct (user db !! o) as [u|].
    + destruct Heff as (u' & -> & _ & _ & _ & _ & _ & Hsame).
      f_equal. apply Hsame; congruence.
    + done.
Qed.

(** X2. A like keeps every match among the likes: if in the store each
    profile has liked all its matches, so it is after the like. *)
Theorem like_user_keeps_matches_liked (db db' : DB ObjectId) (p : Like.t)
    (mutual : bool) :
  like_user ObjectId_new db p = Return (db', mutual) →
  matches_are_liked db → matches_are_liked db'.
Proof.
  intros Hret Hinv o u' Hu' s Hs.
  destruct (like_user_effect _ _ _ _ Hret)
    as (id_from & id_to & u_from & u_to & Hne & Hf & Ht & Huf & Hut & Hm & Hmsg & Heff).
  specialize (Heff o). destruct (user db !! o) as [u|] eqn:Hu; [|congruence].
  destruct Heff as (u'' & Hu'' & Hliked & Hmatches & _).
  rewrite Hu' in Hu''. injection Hu'' as <-.
  apply Hliked.
  destruct (proj1 (Hmatches s) Hs) as [Hs'|[(_ & Ho & Hs')|(Hmut & Ho & Hs')]].
  - left. by apply (Hinv o u).
  - by right.
  - left. subst o s. rewrite Hut in Hu. injection Hu as <-.
    apply contains_true. congruence.
Qed.

(** X3. A like keeps the matches mutual: if every match in the store is
    returned by the matched profile, so it is after the like. *)
Theorem like_user_keeps_matches_symmetric (db db' : DB ObjectId) (p : Like.t)
    (mutual : bool) :
  like_user ObjectId_new db p = Return (db', mutual) →
  matches_symmetric ObjectId_new db → matches_symmetric ObjectId_new db'.
Proof.
  intros Hret Hinv oa ua' s Hua' Hs.
  destruct (like_user_effect _ _ _ _ Hret)
    as (id_from & id_to & u_from & u_to & Hne & Hf & Ht & Huf & Hut & Hm & Hmsg & Heff).
  assert (Hkeep : ∀ ob ub s', user db !! ob = Some ub → s' ∈ User.matches ub →
            ∃ ub', user db' !! ob = Some ub' ∧ s' ∈ User.matches ub').
  { intros ob ub s' Hub Hs'. specialize (Heff ob). rewrite Hub in Heff.
    destruct Heff as (ub' & Hub' & _ & Hmatches & _).
    exists ub'. split; [done|]. apply Hmatches. by left. }
  assert (Hnew : ∀ ob ub s', user db !! ob = Some ub → mutual = true →
            (ob = id_from ∧ s' = Like.to_user_id p) ∨
            (ob = id_to ∧ s' = Like.from_user_id p) →
            ∃ ub', user db' !! ob = Some ub' ∧ s' ∈ User.matches ub').
  { intros ob ub s' Hub Hmut Hcase. specialize (Heff ob). rewrite Hub in Heff.
    destruct Heff as (ub' & Hub' & _ & Hmatches & _).
    exists ub'. split; [done|]. apply Hmatches. naive_solver. }
  pose proof (Heff oa) as Ha. destruct (user db !! oa) as [ua|] eqn:Hua; [|congruence].
  destruct Ha as (ua'' & Hua'' & _ & Hmatches & _).
  rewrite Hua' in Hua''. injection Hua'' as <-.
  destruct (proj1 (Hmatches s) Hs) as [Hs0|[(Hmut & Ho & Hs0)|(Hmut & Ho & Hs0)]];
    try subst oa s.
  - destruct (Hinv oa ua s Hua Hs0) as (ob & ub & s' & Hob & Hub & Hs' & Hback).
    destruct (Hkeep ob ub s' Hub Hs') as (ub' & Hub' & Hs'').
    by exists ob, ub', s'.
  - destruct (Hnew id_to u_to (Like.from_user_id p) Hut Hmut) as (ub' & Hub' & Hs'');
      [by right|].
    by exists id_to, ub', (Like.from_user_id p).
  - destruct (Hnew id_from u_from (Like.to_user_id p) Huf Hmut) as (ub' & Hub' & Hs'');
      [by left|].
    by exists id_from, ub', (Like.to_user_id p).
Qed.

(** X4. A like keeps the arrays free of duplicates: [$addToSet] never
    stores an identifier twice in [liked_user_ids] or in [matches]. *)
Theorem like_user_keeps_NoDup (db db' : DB ObjectId) (p : Like.t) (mutual : bool) :
  like_user ObjectId_new db p = Return (db', mutual) →
  arrays_NoDup db → arrays_NoDup db'.
Proof.
  intros Hret Hinv o u' Hu'.
  destruct (like_user_effect _ _ _ _ Hret)
    as (id_from & id_to & u_from & u_to & Hne & Hf & Ht & Huf & Hut & Hm & Hmsg & Heff).
  specialize (Heff o). destruct (user db !! o) as [u|] eqn:Hu; [|congruence].
  destruct Heff as (u'' & Hu'' & _ & _ & Hnl & Hnm & _).
  rewrite Hu' in Hu''. injection Hu'' as <-.
  destruct (Hinv o u Hu). split; auto.
Qed.

(** X5. The guard against liking oneself compares the identifier
    strings, not the profiles: when two different strings name the same
    profile, the like of one by the other succeeds and puts an identifier
    of the profile among its own likes. *)
Theorem like_user_self_by_other_spelling (db : DB ObjectId) (A A' : string)
    (o : ObjectId) (u : User.t) :
  A ≠ A' →
  ObjectId_new A = Some o →
  ObjectId_new A' = Some o →
  user db !! o = Some u →
  ∃ db' u',
    like_user ObjectId_new db (Like.mk A A')
      = Return (db', contains A (User.liked_user_ids u)) ∧
    user db' !! o = Some u' ∧
    A' ∈ User.liked_user_ids u' ∧
    ObjectId_new A' = Some o.
Proof.
  intros Hne HA HA' Hu.
  destruct (like_user_state ObjectId_new db (Like.mk A A') o o u u)
    as (db' & u1 & u2 & Hret & Hu1 & _ & Hliked & _); [done..|].
  simpl in *. exists db', u1. split; [done|]. split; [done|]. split; [|done].
  rewrite Hliked. apply elem_of_addToSet. by left.
Qed.

End LikeEffects.

(** ** Chats *)


Lemma find_last_in (msgs : list Message.t) (key : string) (m : Message.t) :
  find_last msgs key = Some m → m ∈ msgs ∧ Message.match_id m = key.
Proof.
  unfold find_last.
  assert (Hgen : ∀ acc,
            foldl (λ best m0,
                     if String.eqb (Message.match_id m0) key then
                       match best with
                       | None => Some m0
                       | Some b =>
                           if Message.created_at b <? Message.created_at m0
                           then Some m0 else Some b
                       end
                     else best) acc msgs = Some m →
            acc = Some m ∨ (m ∈ msgs ∧ Message.match_id m = key)).
  { induction msgs as [|m0 msgs IH]; intros acc; simpl; [by left|].
    intros Hf. apply IH in Hf as [Hacc|[Hin Hk]].
    - destruct (String.eqb_spec (Message.match_id m0) key) as [Hk|Hk]; [|by left].
      destruct acc as [b|].
      + destruct (Message.created_at b <? Message.created_at m0).
        * injection Hacc as <-. right. split; [apply list_elem_of_here|done].
        * by left.
      + injection Hacc as <-. right. split; [apply list_elem_of_here|done].
    - right. split; [by apply list_elem_of_further|done]. }
  intros Hf. by destruct (Hgen None Hf).
Qed.

(** The latest message of a conversation is the one just appended, when
    it is later than all the others. *)
Lemma find_last_snoc (msgs : list Message.t) (m : Message.t) :
  (∀ m', m' ∈ msgs → Message.match_id m' = Message.match_id m →
         Message.created_at m' < Message.created_at m) →
  find_last (msgs ++ [m]) (Message.match_id m) = Some m.
Proof.
  intros Hlater. unfold find_last. rewrite foldl_app. simpl.
  rewrite String.eqb_refl.
  destruct (foldl _ None msgs) as [b|] eqn:Hb; [|done].
  apply find_last_in in Hb as [Hin Hk].
  by rewrite (proj2 (Z.ltb_lt _ _) (Hlater b Hin Hk)).
Qed.

Lemma find_last_none (msgs : list Message.t) (key : string) :
  (∀ m, m ∈ msgs → Message.match_id m ≠ key) → find_last msgs key = None.
Proof.
  intros Hno. destruct (find_last msgs key) as [m|] eqn:Hm; [|done].
  apply find_last_in in Hm as [Hin Hk]. by destruct (Hno m Hin).
Qed.

(** What [find_last] answers: nothing when the conversation is empty,
    else one of its messages than which none is later. *)
Lemma find_last_spec (msgs : list Message.t) (key : string) :
  match find_last msgs key with
  | None => ∀ m, m ∈ msgs → Message.match_id m ≠ key
  | Some b =>
      b ∈ msgs ∧ Message.match_id b = key ∧
      ∀ m, m ∈ msgs → Message.match_id m = key →
           Message.created_at m <= Message.created_at b
  end.
Proof.
  induction msgs as [|m0 msgs IH] using rev_ind.
  - simpl. intros m Hm. by apply elem_of_nil in Hm.
  - unfold find_last in *. rewrite foldl_app. simpl.
    destruct (foldl _ None msgs) as [b|].
    + destruct IH as (Hin & Hk & Hmax).
      destruct (String.eqb_spec (Message.match_id m0) key) as [Hk0|Hk0].
      * destruct (Z.ltb_spec (Message.created_at b) (Message.created_at m0)).
        -- split; [apply elem_of_app; right; apply list_elem_of_here|].
           split; [done|]. intros m Hm Hmk.
           apply elem_of_app in Hm as [Hm|Hm].
           ++ specialize (Hmax m Hm Hmk). lia.
           ++ apply list_elem_of_singleton in Hm. subst. lia.
        -- split; [apply elem_of_app; by left|]. split; [done|].
           intros m Hm Hmk. apply elem_of_app in Hm as [Hm|Hm].
           ++ by apply Hmax.
           ++ apply list_elem_of_singleton in Hm. by subst.
      * split; [apply elem_of_app; by left|]. split; [done|].
        intros m Hm Hmk. apply elem_of_app in Hm as [Hm|Hm].
        -- by apply Hmax.
        -- apply list_elem_of_singleton in Hm. by subst.
    + destruct (String.eqb_spec (Message.match_id m0) key) as [Hk0|Hk0].
      * split; [apply elem_of_app; right; apply list_elem_of_here|].
        split; [done|]. intros m Hm Hmk.
        apply elem_of_app in Hm as [Hm|Hm].
        -- by destruct (IH m Hm).
        -- apply list_elem_of_singleton in Hm. subst. lia.
      * intros m Hm. apply elem_of_app in Hm as [Hm|Hm].
        -- by apply IH.
        -- apply list_elem_of_singleton in Hm. by subst.
Qed.

Section Chats.

Context `{Countable ObjectId}.
Variable ObjectId_new : string → option ObjectId.
Variable ObjectId_str : ObjectId → string.

Lemma oids_Return (ids : list string) (os : list ObjectId) :
  oids ObjectId_new ids = Return os ↔
  Forall2 (λ s o, ObjectId_new s = Some o) ids os.
Proof.
  revert os. induction ids as [|s ids IH]; intros os; simpl.
  - split.
    + intros [= <-]. constructor.
    + intros Hf. by apply Forall2_nil_inv_l in Hf as ->.
  - unfold oid. destruct (ObjectId_new s) as [o|] eqn:Hs; simpl.
    + destruct (oids ObjectId_new ids) as [os'|e] eqn:Hos; simpl.
      * split.
        -- intros [= <-]. constructor; [done|]. by apply IH.
        -- intros Hf. apply Forall2_cons_inv_l in Hf as (o' & os'' & Ho & Hf & ->).
           apply IH in Hf. congruence.
      * split; [done|].
        intros Hf. apply Forall2_cons_inv_l in Hf as (o' & os'' & Ho & Hf & ->).
        apply IH in Hf. congruence.
    + split; [done|].
      intros Hf. apply Forall2_cons_inv_l in Hf as (o' & os'' & Ho & Hf & ->).
      congruence.
Qed.

Lemma oids_Raise (ids : list string) (e : Exception) :
  oids ObjectId_new ids = Raise e → e = HTTPException 400 "Invalid ID".
Proof.
  induction ids as [|s ids IH]; simpl; [done|].
  unfold oid. destruct (ObjectId_new s) as [o|]; simpl; [|by intros [= <-]].
  destruct (oids ObjectId_new ids) as [os'|e']; simpl; [done|].
  intros [= <-]. by apply IH.
Qed.

Lemma oids_total (ids : list string) :
  Forall (λ s, is_Some (ObjectId_new s)) ids →
  ∃ os, oids ObjectId_new ids = Return os.
Proof.
  induction 1 as [|s ids [o Ho] _ [os IH]]; simpl; [by eexists|].
  unfold oid. rewrite Ho. simpl. rewrite IH. simpl. by eexists.
Qed.

Lemma oids_malformed (ids : list string) (s : string) :
  s ∈ ids → ObjectId_new s = None →
  oids ObjectId_new ids = Raise (HTTPException 400 "Invalid ID").
Proof.
  intros Hin Hs. destruct (oids ObjectId_new ids) as [os|e] eqn:Hos.
  - apply oids_Return in Hos.
    apply list_elem_of_lookup in Hin as [i Hi].
    destruct (Forall2_lookup_l _ _ _ _ _ Hos Hi) as (o & _ & Ho). congruence.
  - by rewrite (oids_Raise _ _ Hos).
Qed.

(** X6. The chat list fails with status 400 for an identifier that is not
    an [ObjectId] and with 404 for one without a profile; it is empty for
    a profile without matches; and it fails with status 400 as soon as
    one stored match is not an [ObjectId]. *)
Theorem get_user_chats_edges (db : DB ObjectId) (user_id : string) :
  (ObjectId_new user_id = None →
     get_user_chats ObjectId_new ObjectId_str db user_id
       = Raise (HTTPException 400 "Invalid ID")) ∧
  (∀ o, ObjectId_new user_id = Some o → user db !! o = None →
     get_user_chats ObjectId_new ObjectId_str db user_id
       = Raise (HTTPException 404 "User not found")) ∧
  (∀ o u, ObjectId_new user_id = Some o → user db !! o = Some u →
     User.matches u = [] →
     get_user_chats ObjectId_new ObjectId_str db user_id = Return []) ∧
  (∀ o u s, ObjectId_new user_id = Some o → user db !! o = Some u →
     s ∈ User.matches u → ObjectId_new s = None →
     get_user_chats ObjectId_new ObjectId_str db user_id
       = Raise (HTTPException 400 "Invalid ID")).
Proof.
  unfold get_user_chats, find_one. split; [|split; [|split]].
  - intros Hid. by rewrite (oid_None _ _ Hid).
  - intros o Hid Hu. rewrite (oid_Some _ _ _ Hid); simpl. by rewrite Hu.
  - intros o u Hid Hu Hm. rewrite (oid_Some _ _ _ Hid); simpl. by rewrite Hu, Hm.
  - intros o u s Hid Hu Hin Hs. rewrite (oid_Some _ _ _ Hid); simpl. rewrite Hu.
    destruct (User.matches u) as [|m ms] eqn:Hm; [by apply elem_of_nil in Hin|].
    by rewrite (oids_malformed (m :: ms) s Hin Hs).
Qed.

(** The entries of the chat list. *)
Lemma get_user_chats_listing (db : DB ObjectId) (user_id : string)
    (o : ObjectId) (u : User.t) :
  ObjectId_new user_id = Some o →
  user db !! o = Some u →
  Forall (λ s, is_Some (ObjectId_new s)) (User.matches u) →
  ∃ chats,
    get_user_chats ObjectId_new ObjectId_str db user_id = Return chats ∧
    ∀ id u' last,
      ((id, u'), last) ∈ chats ↔
      ∃ o' s,
        s ∈ User.matches u ∧ ObjectId_new s = Some o' ∧
        user db !! o' = Some u' ∧ id = ObjectId_str o' ∧
        last = Message.text <$>
                 find_last (message db) (match_id user_id (ObjectId_str o')).
Proof.
  intros Hid Hu Hwf. unfold get_user_chats, find_one.
  rewrite (oid_Some _ _ _ Hid); simpl. rewrite Hu.
  destruct (User.matches u) as [|m ms] eqn:Hm.
  - simpl. exists []. split; [done|]. intros id u' last. split.
    + by intros ?%elem_of_nil.
    + intros (o' & s & Hin & _). by apply elem_of_nil in Hin.
  - destruct (oids_total _ Hwf) as [os Hos]. rewrite Hos. simpl.
    eexists. split; [done|]. apply oids_Return in Hos.
    intros id u' last. rewrite list_elem_of_fmap. split.
    + intros [[o' u''] [Heq Hin]]. unfold user_to_public in Heq. simpl in Heq.
      injection Heq as -> -> ->.
      apply list_elem_of_filter in Hin as [Hos' Hin]. simpl in Hos'.
      apply elem_of_map_to_list in Hin.
      apply list_elem_of_lookup in Hos' as [i Hi].
      destruct (Forall2_lookup_r _ _ _ _ _ Hos Hi) as (s & Hs & Hso).
      exists o', s. split; [by apply list_elem_of_lookup; eauto|]. done.
    + intros (o' & s & Hin & Hs & Hu' & -> & ->). exists (o', u').
      split; [done|]. apply list_elem_of_filter. split.
      * simpl. apply list_elem_of_lookup in Hin as [i Hi].
        destruct (Forall2_lookup_l _ _ _ _ _ Hos Hi) as (o'' & Ho'' & Hso).
        apply list_elem_of_lookup. exists i. congruence.
      * by apply elem_of_map_to_list.
Qed.

(** X7. When every stored match is an [ObjectId], the chat list has an
    entry for each profile that a match names and that still exists, and
    no other entry; a match whose profile is gone has none.  The last
    message of an entry is absent when the conversation, under the key of
    the requested identifier and the profile's printed one, has no
    message; else it is the text of a message of that conversation than
    which none is later. *)
Theorem get_user_chats_entries (db : DB ObjectId) (user_id : string)
    (o : ObjectId) (u : User.t) :
  ObjectId_new user_id = Some o →
  user db !! o = Some u →
  Forall (λ s, is_Some (ObjectId_new s)) (User.matches u) →
  ∃ chats,
    get_user_chats ObjectId_new ObjectId_str db user_id = Return chats ∧
    (∀ o' s u',
       s ∈ User.matches u → ObjectId_new s = Some o' → user db !! o' = Some u' →
       ∃ last, ((ObjectId_str o', u'), last) ∈ chats) ∧
    (∀ id u' last,
       ((id, u'), last) ∈ chats →
       ∃ o' s,
         s ∈ User.matches u ∧ ObjectId_new s = Some o' ∧
         user db !! o' = Some u' ∧ id = ObjectId_str o' ∧
         match last with
         | None =>
             ∀ m, m ∈ message db →
                  Message.match_id m ≠ match_id user_id (ObjectId_str o')
         | Some text =>
             ∃ m, m ∈ message db ∧
                  Message.match_id m = match_id user_id (ObjectId_str o') ∧
                  Message.text m = text ∧
                  ∀ m', m' ∈ message db →
                        Message.match_id m' = match_id user_id (ObjectId_str o') →
                        Message.created_at m' <= Message.created_at m
         end).
Proof.
  intros Hid Hu Hwf.
  destruct (get_user_chats_listing db user_id o u Hid Hu Hwf)
    as (chats & Hchats & Hentries).
  exists chats. split; [done|]. split.
  - intros o' s u' Hs Ho' Hu'. eexists. apply Hentries. by exists o', s.
  - intros id u' last Hin.
    destruct (proj1 (Hentries id u' last) Hin) as (o' & s & Hs & Ho' & Hu' & Hidp & Hlast).
    exists o', s. split; [done|]. split; [done|]. split; [done|]. split; [done|].
    pose proof (find_last_spec (message db) (match_id user_id (ObjectId_str o')))
      as Hspec.
    destruct (find_last (message db) (match_id user_id (ObjectId_str o'))) as [m|];
      subst last; simpl.
    + destruct Hspec as (Hm & Hk & Hmax). by exists m.
    + done.
Qed.

(** X8. What is sent shows up in the sender's chat list.  Let every stored
    match of the sender be an [ObjectId], the receiver be one of them,
    exist, and have its identifier written as [str] prints it, and let
    every earlier message of the conversation be strictly older than the
    new one.  Then the message is sent, and the sender's list afterwards
    has the receiver's profile with the text as last message. *)
Theorem send_then_chats_sender (now : Z) (db : DB ObjectId) (p : SendMessage.t)
    (id_from id_to : ObjectId) (u_from u_to : User.t) :
  ObjectId_new (SendMessage.from_user_id p) = Some id_from →
  user db !! id_from = Some u_from →
  SendMessage.to_user_id p ∈ User.matches u_from →
  Forall (λ s, is_Some (ObjectId_new s)) (User.matches u_from) →
  ObjectId_new (SendMessage.to_user_id p) = Some id_to →
  ObjectId_str id_to = SendMessage.to_user_id p →
  user db !! id_to = Some u_to →
  (∀ m, m ∈ message db →
        Message.match_id m
          = match_id (SendMessage.from_user_id p) (SendMessage.to_user_id p) →
        Message.created_at m < now) →
  ∃ db' chats,
    send_message ObjectId_new now db p = Return (db', true) ∧
    get_user_chats ObjectId_new ObjectId_str db' (SendMessage.from_user_id p)
      = Return chats ∧
    ((SendMessage.to_user_id p, u_to), Some (SendMessage.text p)) ∈ chats.
Proof.
  intros Hf Huf Hin Hwf Ht Hstr Hut Hlater.
  set (doc := {| Message.match_id :=
                   match_id (SendMessage.from_user_id p) (SendMessage.to_user_id p);
                 Message.sender_id := SendMessage.from_user_id p;
                 Message.text := SendMessage.text p;
                 Message.created_at := now |}).
  assert (Hsend : send_message ObjectId_new now db p = Return (insert_one doc db, true)).
  { unfold send_message, find_one. rewrite (oid_Some _ _ _ Hf); simpl. rewrite Huf.
    by rewrite (proj2 (contains_true _ _) Hin). }
  destruct (get_user_chats_listing (insert_one doc db) (SendMessage.from_user_id p)
              id_from u_from Hf Huf Hwf) as (chats & Hchats & Hentries).
  exists (insert_one doc db), chats. split; [done|]. split; [done|].
  apply Hentries. exists id_to, (SendMessage.to_user_id p).
  split; [done|]. split; [done|]. split; [done|]. split; [done|].
  rewrite Hstr. unfold insert_one; simpl.
  change (match_id (SendMessage.from_user_id p) (SendMessage.to_user_id p))
    with (Message.match_id doc).
  by rewrite find_last_snoc.
Qed.


End Chats.

(** ** Profiles, moderation and statistics *)

Lemma count_insert_fresh `{Countable K} {A} (P : A → bool) (m : gmap K A) (i : K) (x : A) :
  m !! i = None →
  size (filter (λ d : K * A, P d.2 = true) (<[i := x]> m)) =
  ((if P x then 1 else 0) + size (filter (λ d : K * A, P d.2 = true) m))%nat.
Proof.
  intros Hi. destruct (P x) eqn:HP.
  - rewrite map_filter_insert_True by done.
    rewrite map_size_insert_None; [done|].
    apply map_lookup_filter_None. by left.
  - rewrite map_filter_insert_False by (simpl; congruence).
    by rewrite delete_id.
Qed.

Section Moderation.

Context `{Countable ObjectId}.
Variable ObjectId_new : string → option ObjectId.
Variable ObjectId_str : ObjectId → string.
Variable re_search : string → string → string → bool.

(** [get_profile] fails with status 400 for an identifier that is
    not an [ObjectId] and with 404 for one without a profile; otherwise
    it returns the stored profile under the printed identifier. *)
Lemma get_profile_outcomes (db : DB ObjectId) (user_id : string) :
  (ObjectId_new user_id = None →
     get_profile ObjectId_new ObjectId_str db user_id
       = Raise (HTTPException 400 "Invalid ID")) ∧
  (∀ o, ObjectId_new user_id = Some o → user db !! o = None →
     get_profile ObjectId_new ObjectId_str db user_id
       = Raise (HTTPException 404 "User not found")) ∧
  (∀ o u, ObjectId_new user_id = Some o → user db !! o = Some u →
     get_profile ObjectId_new ObjectId_str db user_id = Return (ObjectId_str o, u)).
Proof.
  unfold get_profile, find_one. split; [|split].
  - intros Hid. by rewrite (oid_None _ _ Hid).
  - intros o Hid Hu. rewrite (oid_Some _ _ _ Hid); simpl. by rewrite Hu.
  - intros o u Hid Hu. rewrite (oid_Some _ _ _ Hid); simpl. by rewrite Hu.
Qed.

Lemma admin_action_found (db : DB ObjectId) (a : AdminAction.t) (o : ObjectId)
    (u : User.t) :
  ObjectId_new (AdminAction.user_id a) = Some o →
  user db !! o = Some u →
  admin_action ObjectId_new db a =
    if String.eqb (AdminAction.Action_str (AdminAction.action a)) "approve" then
      Return (update_one o (User.set_approved true) db, true)
    else if String.eqb (AdminAction.Action_str (AdminAction.action a)) "reject" then
      Return (delete_one o db, true)
    else if String.eqb (AdminAction.Action_str (AdminAction.action a)) "verify" then
      Return (update_one o (User.set_verified true) db, true)
    else if String.eqb (AdminAction.Action_str (AdminAction.action a)) "unverify" then
      Return (update_one o (User.set_verified false) db, true)
    else Raise (HTTPException 400 "Unknown action").
Proof.
  intros Hid Hu. unfold admin_action, find_one.
  rewrite (oid_Some _ _ _ Hid); simpl. by rewrite Hu.
Qed.

Lemma admin_action_returns (db db' : DB ObjectId) (a : AdminAction.t) (r : bool) :
  admin_action ObjectId_new db a = Return (db', r) →
  ∃ o u, ObjectId_new (AdminAction.user_id a) = Some o ∧ user db !! o = Some u.
Proof.
  unfold admin_action, find_one, oid.
  destruct (ObjectId_new (AdminAction.user_id a)) as [o|]; [|done]. simpl.
  destruct (user db !! o) as [u|] eqn:Hu; [|done]. intros _. by exists o, u.
Qed.

(** X10. Moderation shows in the profile: after a reject, [get_profile]
    of that identifier fails with status 404; after an approve it returns
    the profile with [approved] true. *)
Theorem get_profile_after_admin_action (db : DB ObjectId) (user_id : string)
    (o : ObjectId) (u : User.t) :
  ObjectId_new user_id = Some o →
  user db !! o = Some u →
  (∃ db',
      admin_action ObjectId_new db (AdminAction.mk user_id AdminAction.reject)
        = Return (db', true) ∧
      get_profile ObjectId_new ObjectId_str db' user_id
        = Raise (HTTPException 404 "User not found")) ∧
  (∃ db',
      admin_action ObjectId_new db (AdminAction.mk user_id AdminAction.approve)
        = Return (db', true) ∧
      get_profile ObjectId_new ObjectId_str db' user_id
        = Return (ObjectId_str o, User.set_approved true u) ∧
      User.approved (User.set_approved true u) = true).
Proof.
  intros Hid Hu. split.
  - exists (delete_one o db). split.
    + by rewrite (admin_action_found db (AdminAction.mk user_id AdminAction.reject) o u).
    + unfold get_profile, find_one. rewrite (oid_Some _ _ _ Hid); simpl.
      by rewrite lookup_delete_eq.
  - exists (update_one o (User.set_approved true) db). split; [|split; [|done]].
    + by rewrite (admin_action_found db (AdminAction.mk user_id AdminAction.approve) o u).
    + unfold get_profile, find_one. rewrite (oid_Some _ _ _ Hid); simpl.
      rewrite lookup_alter_eq, Hu. done.
Qed.

(** X11. Approve, verify and unverify are idempotent: an action that has
    just succeeded, when repeated, succeeds again and changes nothing.  A
    repeated reject fails with status 404. *)
Theorem admin_action_repeated (db db' : DB ObjectId) (a : AdminAction.t) (r : bool) :
  admin_action ObjectId_new db a = Return (db', r) →
  admin_action ObjectId_new db' a =
    if String.eqb (AdminAction.Action_str (AdminAction.action a)) "reject"
    then Raise (HTTPException 404 "User not found")
    else Return (db', r).
Proof.
  intros Hret.
  destruct (admin_action_returns _ _ _ _ Hret) as (o & u & Hid & Hu).
  rewrite (admin_action_found db a o u Hid Hu) in Hret.
  destruct (String.eqb_spec (AdminAction.Action_str (AdminAction.action a)) "approve") as [Ha|Ha].
  { injection Hret as <- <-. rewrite Ha. simpl.
    rewrite (admin_action_found _ a o (User.set_approved true u) Hid)
      by (by rewrite user_update_one, decide_True, Hu).
    rewrite Ha. simpl. f_equal. f_equal.
    apply update_one_fixpoint. intros u'.
    rewrite user_update_one, decide_True, Hu by done. by intros [= <-]. }
  destruct (String.eqb_spec (AdminAction.Action_str (AdminAction.action a)) "reject") as [Hr|Hr].
  { injection Hret as <- <-. unfold admin_action, find_one.
    rewrite (oid_Some _ _ _ Hid); simpl. by rewrite lookup_delete_eq. }
  destruct (String.eqb_spec (AdminAction.Action_str (AdminAction.action a)) "verify") as [Hv|Hv].
  { injection Hret as <- <-.
    rewrite (admin_action_found _ a o (User.set_verified true u) Hid)
      by (by rewrite user_update_one, decide_True, Hu).
    rewrite Hv. simpl. f_equal. f_equal.
    apply update_one_fixpoint. intros u'.
    rewrite user_update_one, decide_True, Hu by done. by intros [= <-]. }
  destruct (String.eqb_spec (AdminAction.Action_str (AdminAction.action a)) "unverify")
    as [Hn|Hn]; [|done].
  injection Hret as <- <-.
  rewrite (admin_action_found _ a o (User.set_verified false u) Hid)
    by (by rewrite user_update_one, decide_True, Hu).
  rewrite Hn. simpl. f_equal. f_equal.
  apply update_one_fixpoint. intros u'.
  rewrite user_update_one, decide_True, Hu by done. by intros [= <-].
Qed.

(** X12. A reject does not clean up after the profile: another profile
    that held it among its matches holds it still, so the matches of the
    store are no longer mutual. *)
Theorem admin_reject_leaves_match (db : DB ObjectId) (s : string)
    (oa ob : ObjectId) (ua : User.t) :
  user db !! oa = Some ua →
  s ∈ User.matches ua →
  ObjectId_new s = Some ob →
  ob ≠ oa →
  is_Some (user db !! ob) →
  ∃ db',
    admin_action ObjectId_new db (AdminAction.mk s AdminAction.reject) = Return (db', true) ∧
    user db' !! oa = Some ua ∧
    user db' !! ob = None ∧
    ¬ matches_symmetric ObjectId_new db'.
Proof.
  intros Hua Hs Hob Hne [ub Hub]. exists (delete_one ob db).
  assert (Ha : user (delete_one ob db) !! oa = Some ua).
  { unfold delete_one; simpl. by rewrite lookup_delete_ne. }
  assert (Hb : user (delete_one ob db) !! ob = None).
  { unfold delete_one; simpl. apply lookup_delete_eq. }
  split; [|split; [done|split; [done|]]].
  - by rewrite (admin_action_found db (AdminAction.mk s AdminAction.reject) ob ub).
  - intros Hsym. destruct (Hsym oa ua s Ha Hs) as (ob' & ub' & s' & Hob' & Hub' & _).
    congruence.
Qed.

Lemma count_documents_update (P : User.t → bool) (db : DB ObjectId) (o : ObjectId)
    (f : User.t → User.t) (u : User.t) :
  user db !! o = Some u →
  (count_documents P (update_one o f db) + (if P u then 1 else 0) =
   count_documents P db + (if P (f u) then 1 else 0))%nat.
Proof.
  intros Hu. unfold count_documents, update_one; simpl.
  assert (Hdb : user db = <[o := u]> (delete o (user db)))
    by (by rewrite insert_delete_id).
  assert (Hdb' : alter f o (user db) = <[o := f u]> (delete o (user db))).
  { rewrite Hdb at 1. by rewrite alter_insert_eq. }
  rewrite Hdb'. rewrite Hdb at 2.
  rewrite !count_insert_fresh by apply lookup_delete_eq. lia.
Qed.

Lemma count_documents_delete (P : User.t → bool) (db : DB ObjectId) (o : ObjectId)
    (u : User.t) :
  user db !! o = Some u →
  (count_documents P (delete_one o db) + (if P u then 1 else 0) =
   count_documents P db)%nat.
Proof.
  intros Hu. unfold count_documents, delete_one; simpl.
  assert (Hdb : user db = <[o := u]> (delete o (user db)))
    by (by rewrite insert_delete_id).
  rewrite Hdb at 2.
  rewrite count_insert_fresh by apply lookup_delete_eq. lia.
Qed.

(** X13. In the statistics the three partial counts never exceed the
    total, and the total is the number of stored profiles. *)
Theorem admin_stats_bounds (db : DB ObjectId) :
  total_users (admin_stats db) = size (user db) ∧
  (approved_users (admin_stats db) ≤ total_users (admin_stats db))%nat ∧
  (verified_users (admin_stats db) ≤ total_users (admin_stats db))%nat ∧
  (users_with_matches (admin_stats db) ≤ total_users (admin_stats db))%nat.
Proof.
  assert (Htotal : count_documents (λ _, true) db = size (user db)).
  { unfold count_documents. f_equal. apply map_filter_id. by intros. }
  unfold admin_stats; simpl. rewrite Htotal.
  split; [done|]. unfold count_documents. repeat split; apply map_size_filter.
Qed.

(** X14. An approve of a profile that was not approved raises the count
    of approved profiles by one and leaves the other three counts as
    they were; a reject lowers the total by one. *)
Theorem admin_stats_after_action (db : DB ObjectId) (user_id : string)
    (o : ObjectId) (u : User.t) :
  ObjectId_new user_id = Some o →
  user db !! o = Some u →
  (User.approved u = false →
   ∃ db',
     admin_action ObjectId_new db (AdminAction.mk user_id AdminAction.approve)
       = Return (db', true) ∧
     approved_users (admin_stats db') = S (approved_users (admin_stats db)) ∧
     total_users (admin_stats db') = total_users (admin_stats db) ∧
     verified_users (admin_stats db') = verified_users (admin_stats db) ∧
     users_with_matches (admin_stats db') = users_with_matches (admin_stats db)) ∧
  (∃ db',
     admin_action ObjectId_new db (AdminAction.mk user_id AdminAction.reject)
       = Return (db', true) ∧
     S (total_users (admin_stats db')) = total_users (admin_stats db)).
Proof.
  intros Hid Hu. split.
  - intros Hnot. exists (update_one o (User.set_approved true) db).
    split; [by rewrite (admin_action_found db (AdminAction.mk user_id AdminAction.approve) o u)|].
    unfold admin_stats; simpl.
    pose proof (count_documents_update User.approved db o (User.set_approved true) u Hu) as H1.
    pose proof (count_documents_update (λ _, true) db o (User.set_approved true) u Hu) as H2.
    pose proof (count_documents_update User.verified db o (User.set_approved true) u Hu) as H3.
    pose proof (count_documents_update
                  (λ u, match User.matches u with [] => false | _ :: _ => true end)
                  db o (User.set_approved true) u Hu) as H4.
    simpl in H1, H2, H3, H4. rewrite Hnot in H1.
    destruct (User.verified u); destruct (User.matches u); simpl in *; lia.
  - exists (delete_one o db).
    split; [by rewrite (admin_action_found db (AdminAction.mk user_id AdminAction.reject) o u)|].
    unfold admin_stats; simpl.
    pose proof (count_documents_delete (λ _, true) db o u Hu) as H1.
    simpl in H1. lia.
Qed.

(** The admin list has every stored profile, approved or not, under
    its printed identifier, and nothing else. *)
Lemma admin_list_users_all (db : DB ObjectId) (id : string) (u : User.t) :
  (id, u) ∈ admin_list_users ObjectId_str re_search db ↔
  ∃ o, id = ObjectId_str o ∧ user db !! o = Some u.
Proof.
  unfold admin_list_users, get_documents. rewrite list_elem_of_fmap. split.
  - intros [[o u'] [Heq Hin]]. unfold user_to_public in Heq; simpl in Heq.
    injection Heq as -> ->. apply list_elem_of_filter in Hin as [_ Hin].
    apply elem_of_map_to_list in Hin. by exists o.
  - intros (o & -> & Hu). exists (o, u). split; [done|].
    apply list_elem_of_filter. split.
    + unfold doc_matches. by rewrite map_to_list_empty.
    + by apply elem_of_map_to_list.
Qed.

End Moderation.

(** ** Search *)

Lemma Result_bind_Raise {A B} (e : Exception) (k : A → Result B) :
  (Raise e ≫= k) = Raise e.
Proof. reflexivity. Qed.

(** [date] at today's month and day: what the year decides. *)
Lemma date_new_today (today : date) (y : Z) :
  date_valid today = true →
  date_new y (month today) (day today) =
    if c_int y
    then if date_ok y (month today) (day today)
         then Return (mkdate y (month today) (day today))
         else Raise ValueError
    else Raise OverflowError.
Proof.
  intros Hv. apply date_ok_c_int in Hv. unfold date_new.
  apply andb_true_iff in Hv as [Hv Hd]. apply andb_true_iff in Hv as [_ Hm].
  rewrite Hm, Hd, !andb_true_r. by destruct (c_int y).
Qed.

Lemma date_new_Return (y m d : Z) (x : date) :
  date_new y m d = Return x → date_ok y m d = true.
Proof.
  unfold date_new. destruct (negb _); [done|]. by destruct (date_ok y m d).
Qed.

(** The filter builder fails as its birth-date conditions fail. *)
Lemma search_filters_Raise (today : date) (q : SearchQuery.t) (e : Exception) :
  search_filters today q = Raise e ↔
  age_conditions today (SearchQuery.usia_min q) (SearchQuery.usia_max q) = Raise e.
Proof.
  unfold search_filters, age_filter.
  destruct (is_not_None (SearchQuery.usia_min q)
            || is_not_None (SearchQuery.usia_max q)) eqn:Hflag.
  - destruct (age_conditions today _ _); cbn [mbind Result_bind mret Result_ret];
      [split; intros; discriminate|split; by intros [= ->]].
  - apply orb_false_iff in Hflag as [Hmin Hmax].
    destruct (SearchQuery.usia_min q); [done|].
    destruct (SearchQuery.usia_max q); [done|]. done.
Qed.

(** A filter document is built only from dates that exist. *)
Lemma search_filters_Return_dates (today : date) (q : SearchQuery.t)
    (filters : gmap string Filter) :
  search_filters today q = Return filters →
  (∀ a, SearchQuery.usia_min q = Some a →
        date_ok (year today - a) (month today) (day today) = true) ∧
  (∀ b, SearchQuery.usia_max q = Some b →
        date_ok (year today - b - 1) (month today) (day today) = true).
Proof.
  intros Hsf.
  destruct (age_conditions today (SearchQuery.usia_min q) (SearchQuery.usia_max q))
    as [c|e] eqn:Hage.
  2:{ apply search_filters_Raise in Hage. congruence. }
  clear Hsf. unfold age_conditions in Hage. split.
  - intros a Ha. rewrite Ha in Hage.
    destruct (date_new (year today - a) (month today) (day today)) as [x|e] eqn:Hd;
      [by apply date_new_Return in Hd|done].
  - intros b Hb. rewrite Hb in Hage.
    destruct (date_new (year today - b - 1) (month today) (day today))
      as [x|e] eqn:Hd; [by apply date_new_Return in Hd|].
    by destruct (SearchQuery.usia_min q) as [a|];
      [destruct (date_new (year today - a) (month today) (day today))|].
Qed.

(** X15. The filter builder fails only through the dates of the age
    bounds, the minimum first.  For a bound that is given, the year of its
    date is [today.year - usia_min] or [today.year - usia_max - 1], with
    today's month and day.  The builder raises [OverflowError] exactly
    when the first such year that is not the year of a day of the calendar
    does not fit a C [int], [ValueError] exactly when it fits, and no
    other exception. *)
Theorem search_filters_failure (today : date) (q : SearchQuery.t) :
  date_valid today = true →
  (search_filters today q = Raise OverflowError ↔
     (∃ a, SearchQuery.usia_min q = Some a ∧ c_int (year today - a) = false) ∨
     (∃ b, SearchQuery.usia_max q = Some b ∧
           c_int (year today - b - 1) = false ∧
           ∀ a, SearchQuery.usia_min q = Some a →
                date_ok (year today - a) (month today) (day today) = true)) ∧
  (search_filters today q = Raise ValueError ↔
     (∃ a, SearchQuery.usia_min q = Some a ∧
           c_int (year today - a) = true ∧
           date_ok (year today - a) (month today) (day today) = false) ∨
     (∃ b, SearchQuery.usia_max q = Some b ∧
           c_int (year today - b - 1) = true ∧
           date_ok (year today - b - 1) (month today) (day today) = false ∧
           ∀ a, SearchQuery.usia_min q = Some a →
                date_ok (year today - a) (month today) (day today) = true)) ∧
  (∀ e, search_filters today q = Raise e → e = ValueError ∨ e = OverflowError).
Proof.
  intros Hv.
  assert (Hall : ∀ e,
            search_filters today q = Raise e ↔
            age_conditions today (SearchQuery.usia_min q) (SearchQuery.usia_max q)
              = Raise e) by (intros e; apply search_filters_Raise).
  setoid_rewrite Hall. clear Hall. unfold age_conditions.
  destruct (SearchQuery.usia_min q) as [a|], (SearchQuery.usia_max q) as [b|];
    rewrite ?(date_new_today _ _ Hv);
    repeat first
      [ match goal with
        | |- context [if c_int ?y then _ else _] => destruct (c_int y) eqn:?
        | |- context [if date_ok ?y ?m ?d then _ else _] =>
            destruct (date_ok y m d) eqn:?
        end
      | progress cbn [mbind Result_bind mret Result_ret] ];
    (split; [|split]; [split; intros Hx | split; intros Hx | intros e Hx]);
    repeat match goal with
      | H : _ ∨ _ |- _ => destruct H
      | H : ∃ _, _ |- _ => destruct H
      | H : _ ∧ _ |- _ => destruct H
      end;
    simplify_eq;
    try congruence;
    try (match goal with
         | H : ∀ a0, Some ?a = Some a0 → _ |- _ =>
             specialize (H a eq_refl);
             first [congruence | apply date_ok_c_int_year in H; congruence]
         end);
    solve [ left; eexists; repeat split; eauto
          | right; eexists; repeat split; eauto; intros ? [= <-]; done
          | right; eexists; repeat split; eauto; intros ? [=]
          | auto ].
Qed.

Lemma leap_day_neighbours (y : Z) :
  date_ok y 2 29 = true → date_ok (y - 1) 2 29 = false.
Proof.
  unfold date_ok, days_in_month, is_leap. simpl.
  destruct (1 <=? y - 1) eqn:H1; simpl; [|done].
  destruct (y - 1 <=? 9999) eqn:H2; simpl; [|done].
  intros Hy.
  destruct ((y - 1) mod 4 =? 0) eqn:Hm; simpl; [|done].
  exfalso. apply Z.eqb_eq in Hm.
  destruct (y mod 4 =? 0) eqn:Hm'; simpl in Hy.
  - apply Z.eqb_eq in Hm'.
    pose proof (Z.div_mod y 4 ltac:(lia)).
    pose proof (Z.div_mod (y - 1) 4 ltac:(lia)). lia.
  - rewrite !andb_false_r in Hy. simpl in Hy.
    destruct (1 <=? y), (y <=? 9999); simpl in Hy; done.
Qed.

(** X16. On any 29 February, the search for a single age never returns.
    Of the two birth dates that [usia_min = usia_max = a] needs, 29
    February of two successive years, at most one exists, and [date]
    raises [ValueError] for the other; when [today.year - a] does not fit
    a C [int], [date] raises [OverflowError] for the first. *)
Theorem search_single_age_on_leap_day (today : date) (a : Z) :
  month today = 2 → day today = 29 →
  search_filters today (Sample.ages (Some a) (Some a))
    = Raise (if c_int (year today - a) then ValueError else OverflowError).
Proof.
  intros Hm Hd. apply search_filters_Raise. unfold age_conditions. simpl.
  rewrite Hm, Hd.
  destruct (c_int (year today - a)) eqn:Hc.
  - destruct (date_ok (year today - a) 2 29) eqn:Ha.
    + rewrite (date_new_ok _ _ _ Ha).
      cbn [mbind Result_bind mret Result_ret].
      replace (year today - a - 1) with ((year today - a) - 1) by lia.
      rewrite (date_new_invalid (year today - a - 1) 2 29);
        [reflexivity| |by apply leap_day_neighbours].
      unfold date_ok in Ha. unfold c_int.
      rewrite !andb_true_iff, !Z.leb_le in *. lia.
    + rewrite (date_new_invalid (year today - a) 2 29); [reflexivity| |done].
      by rewrite Hc.
  - rewrite (date_new_overflow (year today - a) 2 29); [reflexivity|].
    by rewrite Hc.
Qed.

Lemma Religion_str_inj (r1 r2 : Religion) :
  Religion_str r1 = Religion_str r2 → r1 = r2.
Proof. destruct r1, r2; simpl; intros Heq; first [reflexivity|discriminate Heq]. Qed.

Lemma Religiosity_str_inj (r1 r2 : Religiosity) :
  Religiosity_str r1 = Religiosity_str r2 → r1 = r2.
Proof. destruct r1, r2; simpl; intros Heq; first [reflexivity|discriminate Heq]. Qed.

Lemma User_document_agama (u : User.t) :
  User_document u !! "agama" = Some (VStr (Religion_str (User.agama u))).
Proof. doc_lookup. Qed.

Lemma User_document_level_agama (u : User.t) :
  User_document u !! "level_agama" = Some (VStr (Religiosity_str (User.level_agama u))).
Proof. doc_lookup. Qed.

Lemma User_document_pendapatan (u : User.t) :
  User_document u !! "pendapatan_per_bulan"
    = Some (opt_value VInt (User.pendapatan_per_bulan u)).
Proof. doc_lookup. Qed.

Lemma User_document_kota (u : User.t) :
  User_document u !! "kota" = Some (opt_value VStr (User.kota u)).
Proof. doc_lookup. Qed.

Lemma User_document_pekerjaan (u : User.t) :
  User_document u !! "pekerjaan" = Some (opt_value VStr (User.pekerjaan u)).
Proof. doc_lookup. Qed.

Lemma User_document_pendidikan (u : User.t) :
  User_document u !! "pendidikan" = Some (opt_value VStr (User.pendidikan u)).
Proof. doc_lookup. Qed.


Section SearchResults.

Context `{Countable ObjectId}.
Variable ObjectId_str : ObjectId → string.
Variable re_search : string → string → string → bool.


Lemma op_holds_gte (ops : gmap string Value) (v : option Value) (arg : Value) :
  op_holds re_search ops v "$gte" arg =
  match v with Some x => value_leb arg x | None => false end.
Proof. reflexivity. Qed.

Lemma op_holds_regex (ops : gmap string Value) (v : option Value) (arg : Value) :
  op_holds re_search ops v "$regex" arg =
  match v, arg with
  | Some (VStr s), VStr pattern =>
      re_search pattern
        (match ops !! "$options" with Some (VStr o) => o | _ => "" end) s
  | _, _ => false
  end.
Proof. reflexivity. Qed.

(** A text filter holds of a field that is there and that the pattern is
    found in, case ignored. *)
Lemma regex_i_holds (s : string) (field : option string) :
  filter_holds re_search (regex_i s) (Some (opt_value VStr field)) = true →
  ∃ c, field = Some c ∧ re_search s "i" c = true.
Proof.
  unfold regex_i. rewrite filter_holds_ops. intros Hops.
  specialize (Hops "$regex" (VStr s)).
  rewrite lookup_insert_ne, lookup_singleton_eq in Hops by done.
  specialize (Hops eq_refl). rewrite op_holds_regex in Hops.
  rewrite lookup_insert_eq in Hops.
  destruct field as [c|]; simpl in Hops; [|done]. by exists c.
Qed.

Lemma regex_i_holds_intro (s c : string) (field : option string) :
  field = Some c → re_search s "i" c = true →
  filter_holds re_search (regex_i s) (Some (opt_value VStr field)) = true.
Proof.
  intros -> Hc. unfold regex_i. apply filter_holds_ops. intros op arg Hop.
  apply lookup_insert_Some in Hop as [[<- <-]|[Hne Hop]]; [reflexivity|].
  apply lookup_singleton_Some in Hop as [<- <-].
  rewrite op_holds_regex, lookup_insert_eq. exact Hc.
Qed.

Lemma truthy_true (s : string) : truthy s = true ↔ s ≠ "".
Proof.
  unfold truthy. rewrite negb_true_iff. apply String.eqb_neq.
Qed.

Lemma search_profiles_Return (today : date) (db : DB ObjectId) (q : SearchQuery.t)
    (results : list (string * User.t)) :
  search_profiles ObjectId_str re_search today db q = Return results →
  ∃ filters,
    search_filters today q = Return filters ∧
    ∀ id u, (id, u) ∈ results ↔
            ∃ o, id = ObjectId_str o ∧ user db !! o = Some u ∧
                 doc_matches re_search filters u = true.
Proof.
  unfold search_profiles.
  destruct (search_filters today q) as [filters|e]; [|done].
  rewrite Result_bind_Return. intros [= <-]. exists filters. split; [done|].
  intros id u. unfold get_documents. rewrite list_elem_of_fmap. split.
  - intros [[o u'] [Heq Hin]]. unfold user_to_public in Heq; simpl in Heq.
    injection Heq as -> ->. apply list_elem_of_filter in Hin as [Hm Hin].
    apply elem_of_map_to_list in Hin. by exists o.
  - intros (o & -> & Hu & Hm). exists (o, u). split; [done|].
    apply list_elem_of_filter. split; [done|]. by apply elem_of_map_to_list.
Qed.

(** The search returns whenever the dates of its age bounds exist. *)
Lemma search_profiles_total (today : date) (db : DB ObjectId) (q : SearchQuery.t) :
  (∀ a, SearchQuery.usia_min q = Some a →
        date_ok (year today - a) (month today) (day today) = true) →
  (∀ b, SearchQuery.usia_max q = Some b →
        date_ok (year today - b - 1) (month today) (day today) = true) →
  ∃ results, search_profiles ObjectId_str re_search today db q = Return results.
Proof.
  intros Hmin Hmax.
  destruct (search_filters_entries today q Hmin Hmax) as (f & c & Hsf & _).
  unfold search_profiles. rewrite Hsf. by eexists.
Qed.

(** X17. What a search returns.  Every profile returned is stored and
    approved, has the religion and the religiosity the query gives, has an
    income that is there and is at least [pendapatan_min], and has a city,
    an occupation and an education that are there and that the store's
    pattern search accepts, for the non-empty text of the query as the
    pattern and with the option [i]; a profile that lacks a field the
    query constrains is not returned.  The text is handed over as a
    pattern, not as a literal; what a pattern accepts is the store's
    affair.  For a query without age bounds and without a lifestyle the
    converse holds: every stored profile with these properties is
    returned. *)
Theorem search_results_sound (today : date) (db : DB ObjectId) (q : SearchQuery.t)
    (results : list (string * User.t)) :
  search_profiles ObjectId_str re_search today db q = Return results →
  let selected (u : User.t) : Prop :=
    User.approved u = true ∧
    (∀ r, SearchQuery.agama q = Some r → User.agama u = r) ∧
    (∀ r, SearchQuery.level_agama q = Some r → User.level_agama u = r) ∧
    (∀ n, SearchQuery.pendapatan_min q = Some n →
          ∃ p, User.pendapatan_per_bulan u = Some p ∧ n <= p) ∧
    (∀ s, SearchQuery.lokasi q = Some s → s ≠ "" →
          ∃ c, User.kota u = Some c ∧ re_search s "i" c = true) ∧
    (∀ s, SearchQuery.pekerjaan q = Some s → s ≠ "" →
          ∃ c, User.pekerjaan u = Some c ∧ re_search s "i" c = true) ∧
    (∀ s, SearchQuery.pendidikan q = Some s → s ≠ "" →
          ∃ c, User.pendidikan u = Some c ∧ re_search s "i" c = true) in
  (∀ id u,
     (id, u) ∈ results →
     (∃ o, id = ObjectId_str o ∧ user db !! o = Some u) ∧ selected u) ∧
  (SearchQuery.usia_min q = None →
   SearchQuery.usia_max q = None →
   SearchQuery.lifestyle q = None →
   ∀ o u, user db !! o = Some u → selected u → (ObjectId_str o, u) ∈ results).
Proof.
  intros Hsearch selected.
  destruct (search_profiles_Return _ _ _ _ Hsearch) as (filters & Hsf & Hres).
  destruct (search_filters_entries today q)
    as (f & c & Hsf' & Hap & Htl & _ & _ & _ & Hkota & Hagama & Hlevel & Hpek
        & Hpend & Hdik & Hdom).
  { exact (proj1 (search_filters_Return_dates _ _ _ Hsf)). }
  { exact (proj2 (search_filters_Return_dates _ _ _ Hsf)). }
  rewrite Hsf in Hsf'. injection Hsf' as <-.
  split.
  - intros id u Hin.
    destruct (proj1 (Hres id u) Hin) as (o & Hid & Hu & Hm). subst id.
    rewrite doc_matches_spec in Hm.
    split; [by exists o|]. unfold selected.
    split; [|split; [|split; [|split; [|split; [|split]]]]].
    + specialize (Hm _ _ Hap). rewrite User_document_approved in Hm.
      simpl in Hm. by apply bool_decide_eq_true in Hm as [= ->].
    + intros r Hr. rewrite Hr in Hagama. specialize (Hm _ _ Hagama).
      rewrite User_document_agama in Hm. simpl in Hm.
      apply bool_decide_eq_true in Hm as [= Heq]. by apply Religion_str_inj.
    + intros r Hr. rewrite Hr in Hlevel. specialize (Hm _ _ Hlevel).
      rewrite User_document_level_agama in Hm. simpl in Hm.
      apply bool_decide_eq_true in Hm as [= Heq]. by apply Religiosity_str_inj.
    + intros n Hn. rewrite Hn in Hpend. specialize (Hm _ _ Hpend).
      rewrite User_document_pendapatan in Hm. rewrite filter_holds_ops in Hm.
      specialize (Hm "$gte" (VInt n)). rewrite lookup_singleton_eq in Hm.
      specialize (Hm eq_refl). rewrite op_holds_gte in Hm.
      destruct (User.pendapatan_per_bulan u) as [p|]; simpl in Hm; [|done].
      exists p. split; [done|]. by apply Z.leb_le.
    + intros s Hs Hne. rewrite Hs in Hkota. simpl in Hkota.
      rewrite (proj2 (truthy_true s) Hne) in Hkota. specialize (Hm _ _ Hkota).
      rewrite User_document_kota in Hm. by apply regex_i_holds.
    + intros s Hs Hne. rewrite Hs in Hpek. simpl in Hpek.
      rewrite (proj2 (truthy_true s) Hne) in Hpek. specialize (Hm _ _ Hpek).
      rewrite User_document_pekerjaan in Hm. by apply regex_i_holds.
    + intros s Hs Hne. rewrite Hs in Hdik. simpl in Hdik.
      rewrite (proj2 (truthy_true s) Hne) in Hdik. specialize (Hm _ _ Hdik).
      rewrite User_document_pendidikan in Hm. by apply regex_i_holds.
  - intros Hmin Hmax Hl o u Hu
      (Happ & Hsagama & Hslevel & Hspend & Hskota & Hspek & Hsdik).
    apply Hres. exists o. split; [done|]. split; [done|].
    apply doc_matches_spec. intros k f Hk.
    specialize (Hdom Hl k (mk_is_Some _ _ Hk)).
    rewrite !elem_of_cons, elem_of_nil in Hdom.
    destruct Hdom as [->|[->|[->|[->|[->|[->|[->|[->|[]]]]]]]]].
    + rewrite Hap in Hk. injection Hk as <-.
      rewrite User_document_approved, Happ. reflexivity.
    + rewrite Htl, Hmin, Hmax in Hk. discriminate Hk.
    + rewrite Hkota in Hk.
      destruct (SearchQuery.lokasi q) as [s|]; simpl in Hk; [|done].
      destruct (truthy s) eqn:Ht; [|done]. injection Hk as <-.
      destruct (Hskota s eq_refl (proj1 (truthy_true s) Ht)) as (c0 & Hc0 & Hre).
      rewrite User_document_kota. by apply (regex_i_holds_intro s c0).
    + rewrite Hagama in Hk.
      destruct (SearchQuery.agama q) as [r|]; simpl in Hk; [|done].
      injection Hk as <-. rewrite User_document_agama, (Hsagama r eq_refl).
      simpl. by apply bool_decide_eq_true.
    + rewrite Hlevel in Hk.
      destruct (SearchQuery.level_agama q) as [r|]; simpl in Hk; [|done].
      injection Hk as <-. rewrite User_document_level_agama, (Hslevel r eq_refl).
      simpl. by apply bool_decide_eq_true.
    + rewrite Hpek in Hk.
      destruct (SearchQuery.pekerjaan q) as [s|]; simpl in Hk; [|done].
      destruct (truthy s) eqn:Ht; [|done]. injection Hk as <-.
      destruct (Hspek s eq_refl (proj1 (truthy_true s) Ht)) as (c0 & Hc0 & Hre).
      rewrite User_document_pekerjaan. by apply (regex_i_holds_intro s c0).
    + rewrite Hpend in Hk.
      destruct (SearchQuery.pendapatan_min q) as [n|]; simpl in Hk; [|done].
      injection Hk as <-. destruct (Hspend n eq_refl) as (p0 & Hp0 & Hle).
      rewrite User_document_pendapatan, Hp0. apply filter_holds_ops.
      intros op arg Hop. apply lookup_singleton_Some in Hop as [<- <-].
      rewrite op_holds_gte. simpl. by apply Z.leb_le.
    + rewrite Hdik in Hk.
      destruct (SearchQuery.pendidikan q) as [s|]; simpl in Hk; [|done].
      destruct (truthy s) eqn:Ht; [|done]. injection Hk as <-.
      destruct (Hsdik s eq_refl (proj1 (truthy_true s) Ht)) as (c0 & Hc0 & Hre).
      rewrite User_document_pendidikan. by apply (regex_i_holds_intro s c0).
Qed.


End SearchResults.

(** ** Conversation keys of printed identifiers *)

Lemma append_dash_inj (a c b d : string) :
  dash_free a = true → dash_free c = true →
  a +:+ "-" +:+ b = c +:+ "-" +:+ d → a = c ∧ b = d.
Proof.
  revert c. induction a as [|x a IH]; intros [|y c] Ha Hc Heq.
  - rewrite !append_empty, !append_cons, !append_empty in Heq.
    injection Heq as Heq. by subst.
  - rewrite append_empty, !append_cons in Heq. injection Heq as Hy _.
    subst y. simpl in Hc. done.
  - rewrite append_empty, !append_cons in Heq. injection Heq as Hx _.
    subst x. simpl in Ha. done.
  - rewrite !append_cons in Heq. injection Heq as Hxy Heq. subst y.
    simpl in Ha, Hc. apply andb_true_iff in Ha as [_ Ha].
    apply andb_true_iff in Hc as [_ Hc].
    destruct (IH c Ha Hc Heq) as [Hac Hbd]. by subst.
Qed.

Lemma match_id_sorted (a b : string) :
  match_id a b = (if String.ltb b a then b else a) +:+ "-" +:+
                 (if String.ltb b a then a else b).
Proof. unfold match_id. rewrite sorted_pair. by destruct (String.ltb b a). Qed.

(** X19. Conversations do not mix: for identifiers without ["-"], as
    printed [ObjectId]s are, two pairs have the same conversation key
    only when they are the same pair, in either order. *)
Theorem match_id_determines_pair (a b c d : string) :
  dash_free a = true → dash_free b = true →
  dash_free c = true → dash_free d = true →
  match_id a b = match_id c d →
  (a = c ∧ b = d) ∨ (a = d ∧ b = c).
Proof.
  intros Ha Hb Hc Hd. rewrite !match_id_sorted.
  destruct (String.ltb b a), (String.ltb d c); intros Heq;
    apply append_dash_inj in Heq as [-> ->]; auto.
Qed.

(** ** From a match to a chat *)

Section MatchToChat.

Context `{Countable ObjectId}.
Variable ObjectId_new : string → option ObjectId.
Variable ObjectId_str : ObjectId → string.

(** X20. A like that is returned opens the chat on both sides: after a
    like that answers [mutual = true], the chat list of the one who was
    liked has the profile of the one who liked, and the other way round,
    as long as the matches they held before are [ObjectId]s. *)
Theorem mutual_like_opens_chats (db db' : DB ObjectId) (p : Like.t)
    (id_from id_to : ObjectId) (u_from u_to : User.t) :
  like_user ObjectId_new db p = Return (db', true) →
  ObjectId_new (Like.from_user_id p) = Some id_from →
  ObjectId_new (Like.to_user_id p) = Some id_to →
  user db !! id_from = Some u_from →
  user db !! id_to = Some u_to →
  Forall (λ s, is_Some (ObjectId_new s)) (User.matches u_from) →
  Forall (λ s, is_Some (ObjectId_new s)) (User.matches u_to) →
  (∃ chats u' last,
      get_user_chats ObjectId_new ObjectId_str db' (Like.to_user_id p)
        = Return chats ∧
      user db' !! id_from = Some u' ∧
      ((ObjectId_str id_from, u'), last) ∈ chats) ∧
  (∃ chats u' last,
      get_user_chats ObjectId_new ObjectId_str db' (Like.from_user_id p)
        = Return chats ∧
      user db' !! id_to = Some u' ∧
      ((ObjectId_str id_to, u'), last) ∈ chats).
Proof.
  intros Hret Hf Ht Huf Hut Hwf_from Hwf_to.
  destruct (like_user_effect _ _ _ _ _ Hret)
    as (id_from' & id_to' & u_from' & u_to' & Hne & Hf' & Ht' & _ & _ & _ & _ & Heff).
  rewrite Hf in Hf'. injection Hf' as <-. rewrite Ht in Ht'. injection Ht' as <-.
  pose proof (Heff id_from) as Hef. rewrite Huf in Hef.
  destruct Hef as (uf' & Huf' & _ & Hmf & _).
  pose proof (Heff id_to) as Het. rewrite Hut in Het.
  destruct Het as (ut' & Hut' & _ & Hmt & _).
  assert (Hwf : ∀ u u', Forall (λ s, is_Some (ObjectId_new s)) (User.matches u) →
            (∀ s, s ∈ User.matches u' →
                  s ∈ User.matches u ∨ s = Like.to_user_id p ∨ s = Like.from_user_id p) →
            Forall (λ s, is_Some (ObjectId_new s)) (User.matches u')).
  { intros u u' Hu Hsub. apply Forall_forall. intros s Hs.
    destruct (Hsub s Hs) as [Hold|[->| ->]]; [|by eexists..].
    by apply (proj1 (Forall_forall _ _) Hu). }
  split.
  - destruct (get_user_chats_listing ObjectId_new ObjectId_str db' (Like.to_user_id p)
                id_to ut' Ht Hut') as (chats & Hchats & Hentries).
    { apply (Hwf u_to); [done|]. intros s Hs. apply Hmt in Hs. naive_solver. }
    exists chats, uf'. eexists. split; [done|]. split; [done|].
    apply Hentries. exists id_from, (Like.from_user_id p).
    split; [|done]. apply Hmt. right. right. done.
  - destruct (get_user_chats_listing ObjectId_new ObjectId_str db' (Like.from_user_id p)
                id_from uf' Hf Huf') as (chats & Hchats & Hentries).
    { apply (Hwf u_from); [done|]. intros s Hs. apply Hmf in Hs. naive_solver. }
    exists chats, ut'. eexists. split; [done|]. split; [done|].
    apply Hentries. exists id_to, (Like.to_user_id p).
    split; [|done]. apply Hmf. right. left. done.
Qed.

End MatchToChat.

(** * The further properties at sample data *)

Lemma like_user_frame_witness :
  message (update_one Sample.id_a (User.addToSet_liked_user_ids Sample.id_b) Sample.db0)
    = message Sample.db0.
Proof.
  apply (like_user_frame Hex.ObjectId_new Sample.db0 _
           (Like.mk Sample.id_a Sample.id_b) false).
  reflexivity.
Defined.

Lemma like_user_keeps_matches_liked_witness :
  ∃ db' u,
    like_user Hex.ObjectId_new Cases.db_liked (Like.mk Sample.id_a Sample.id_b)
      = Return (db', true) ∧
    matches_are_liked db' ∧
    user db' !! Sample.id_a = Some u ∧
    Sample.id_b ∈ User.matches u ∧
    Sample.id_b ∈ User.liked_user_ids u.
Proof.
  eexists. eexists.
  assert (Hlike : like_user Hex.ObjectId_new Cases.db_liked
                    (Like.mk Sample.id_a Sample.id_b)
                  = Return (_, true)) by reflexivity.
  assert (Hinv : matches_are_liked
            (update_one Sample.id_b (User.addToSet_matches Sample.id_a)
               (update_one Sample.id_a (User.addToSet_matches Sample.id_b)
                  (update_one Sample.id_a
                     (User.addToSet_liked_user_ids Sample.id_b) Cases.db_liked)))).
  { apply (like_user_keeps_matches_liked Hex.ObjectId_new Cases.db_liked _
             (Like.mk Sample.id_a Sample.id_b) true Hlike).
    intros o u Hu s Hs. unfold Cases.db_liked in Hu. cbn [user] in Hu.
    apply lookup_insert_Some in Hu as [[_ <-]|[_ Hu]];
      [by apply elem_of_nil in Hs|].
    apply lookup_insert_Some in Hu as [[_ <-]|[_ Hu]];
      [by apply elem_of_nil in Hs|].
    by rewrite lookup_empty in Hu. }
  split; [exact Hlike|]. split; [exact Hinv|].
  split; [reflexivity|]. split; [apply list_elem_of_here|].
  apply (Hinv Sample.id_a _ eq_refl). apply list_elem_of_here.
Defined.

Lemma like_user_keeps_matches_symmetric_witness :
  ∃ db', like_user Hex.ObjectId_new Cases.db_liked (Like.mk Sample.id_a Sample.id_b)
           = Return (db', true) ∧
         matches_symmetric Hex.ObjectId_new db'.
Proof.
  eexists. split; [reflexivity|].
  eapply (like_user_keeps_matches_symmetric Hex.ObjectId_new Cases.db_liked _
            (Like.mk Sample.id_a Sample.id_b) true).
  - reflexivity.
  - intros o u s Hu Hs. unfold Cases.db_liked in Hu. cbn [user] in Hu.
    apply lookup_insert_Some in Hu as [[_ <-]|[_ Hu]];
      [by apply elem_of_nil in Hs|].
    apply lookup_insert_Some in Hu as [[_ <-]|[_ Hu]];
      [by apply elem_of_nil in Hs|].
    by rewrite lookup_empty in Hu.
Defined.

Lemma like_user_keeps_NoDup_witness :
  arrays_NoDup
    (update_one Sample.id_a (User.addToSet_liked_user_ids Sample.id_b) Sample.db0).
Proof.
  apply (like_user_keeps_NoDup Hex.ObjectId_new Sample.db0 _
           (Like.mk Sample.id_a Sample.id_b) false).
  - reflexivity.
  - intros o u Hu. unfold Sample.db0 in Hu. cbn [user] in Hu.
    apply lookup_insert_Some in Hu as [[_ <-]|[_ Hu]];
      [split; apply NoDup_nil_2|].
    apply lookup_insert_Some in Hu as [[_ <-]|[_ Hu]];
      [split; apply NoDup_nil_2|].
    by rewrite lookup_empty in Hu.
Defined.

Lemma like_user_self_by_other_spelling_witness :
  Sample.id_a ≠ Cases.id_a_upper ∧
  ∃ db' u',
    like_user Hex.ObjectId_new Sample.db0 (Like.mk Sample.id_a Cases.id_a_upper)
      = Return (db', false) ∧
    user db' !! Sample.id_a = Some u' ∧
    Cases.id_a_upper ∈ User.liked_user_ids u'.
Proof.
  split; [discriminate|].
  destruct (like_user_self_by_other_spelling Hex.ObjectId_new Sample.db0
              Sample.id_a Cases.id_a_upper Sample.id_a Sample.ani)
    as (db' & u' & H1 & H2 & H3 & _).
  - discriminate.
  - reflexivity.
  - reflexivity.
  - reflexivity.
  - exists db', u'. split; [exact H1|]. split; [exact H2|exact H3].
Defined.

Lemma get_user_chats_edges_witness :
  get_user_chats Hex.ObjectId_new Hex.ObjectId_str Sample.db0 Sample.id_c
    = Raise (HTTPException 404 "User not found") ∧
  get_user_chats Hex.ObjectId_new Hex.ObjectId_str Sample.db0 Sample.id_a = Return [].
Proof.
  pose proof (get_user_chats_edges Hex.ObjectId_new Hex.ObjectId_str Sample.db0) as He.
  split.
  - apply (proj1 (proj2 (He Sample.id_c)) Sample.id_c); reflexivity.
  - apply (proj1 (proj2 (proj2 (He Sample.id_a))) Sample.id_a Sample.ani); reflexivity.
Defined.

Lemma get_user_chats_entries_witness :
  ∃ chats,
    get_user_chats Hex.ObjectId_new Hex.ObjectId_str Cases.db_talking Sample.id_a
      = Return chats ∧
    ∃ u' last, ((Sample.id_b, u'), last) ∈ chats.
Proof.
  destruct (get_user_chats_entries Hex.ObjectId_new Hex.ObjectId_str Cases.db_talking
              Sample.id_a Sample.id_a
              (User.addToSet_matches Sample.id_b
                 (User.addToSet_liked_user_ids Sample.id_b Sample.ani)))
    as (chats & Hchats & Hall & _).
  - reflexivity.
  - reflexivity.
  - apply Forall_cons. split; [by eexists|]. apply Forall_nil_2.
  - exists chats. split; [exact Hchats|]. eexists.
    apply (Hall Sample.id_b Sample.id_b).
    + apply list_elem_of_here.
    + reflexivity.
    + reflexivity.
Defined.

Lemma send_then_chats_sender_witness :
  ∃ db' chats,
    send_message Hex.ObjectId_new 7 Cases.db_talking
        (SendMessage.mk Sample.id_a Sample.id_b "halo")
      = Return (db', true) ∧
    get_user_chats Hex.ObjectId_new Hex.ObjectId_str db' Sample.id_a = Return chats ∧
    ∃ u', ((Sample.id_b, u'), Some "halo") ∈ chats.
Proof.
  destruct (send_then_chats_sender Hex.ObjectId_new Hex.ObjectId_str 7 Cases.db_talking
              (SendMessage.mk Sample.id_a Sample.id_b "halo")
              Sample.id_a Sample.id_b
              (User.addToSet_matches Sample.id_b
                 (User.addToSet_liked_user_ids Sample.id_b Sample.ani))
              (User.addToSet_matches Sample.id_a
                 (User.addToSet_liked_user_ids Sample.id_a Sample.budi)))
    as (db' & chats & H1 & H2 & H3).
  - reflexivity.
  - reflexivity.
  - apply list_elem_of_here.
  - apply Forall_cons. split; [by eexists|]. apply Forall_nil_2.
  - reflexivity.
  - reflexivity.
  - reflexivity.
  - intros m Hm _. apply list_elem_of_singleton in Hm. subst m. simpl. lia.
  - exists db', chats. split; [exact H1|]. split; [exact H2|]. eexists. exact H3.
Defined.


Lemma get_profile_after_admin_action_witness :
  ∃ db',
    admin_action Hex.ObjectId_new Sample.db0 (AdminAction.mk Sample.id_a AdminAction.reject)
      = Return (db', true) ∧
    get_profile Hex.ObjectId_new Hex.ObjectId_str db' Sample.id_a
      = Raise (HTTPException 404 "User not found").
Proof.
  apply (get_profile_after_admin_action Hex.ObjectId_new Hex.ObjectId_str Sample.db0
           Sample.id_a Sample.id_a Sample.ani); reflexivity.
Defined.

Lemma admin_action_repeated_witness :
  ∃ db',
    admin_action Hex.ObjectId_new Sample.db0 (AdminAction.mk Sample.id_a AdminAction.approve)
      = Return (db', true) ∧
    admin_action Hex.ObjectId_new db' (AdminAction.mk Sample.id_a AdminAction.approve)
      = Return (db', true).
Proof.
  eexists. split; [reflexivity|].
  apply (admin_action_repeated Hex.ObjectId_new Sample.db0 _
           (AdminAction.mk Sample.id_a AdminAction.approve) true).
  reflexivity.
Defined.

Lemma admin_reject_leaves_match_witness :
  ∃ db',
    admin_action Hex.ObjectId_new Sample.db_matched (AdminAction.mk Sample.id_b AdminAction.reject)
      = Return (db', true) ∧
    user db' !! Sample.id_b = None ∧
    ¬ matches_symmetric Hex.ObjectId_new db'.
Proof.
  destruct (admin_reject_leaves_match Hex.ObjectId_new Sample.db_matched Sample.id_b
              Sample.id_a Sample.id_b
              (User.addToSet_matches Sample.id_b
                 (User.addToSet_liked_user_ids Sample.id_b Sample.ani)))
    as (db' & H1 & _ & H2 & H3).
  - reflexivity.
  - apply list_elem_of_here.
  - reflexivity.
  - discriminate.
  - eexists. reflexivity.
  - exists db'. split; [exact H1|]. split; [exact H2|exact H3].
Defined.

Lemma admin_stats_after_action_witness :
  ∃ db',
    admin_action Hex.ObjectId_new Sample.db0 (AdminAction.mk Sample.id_a AdminAction.approve)
      = Return (db', true) ∧
    approved_users (admin_stats db') = S (approved_users (admin_stats Sample.db0)).
Proof.
  destruct (proj1 (admin_stats_after_action Hex.ObjectId_new Sample.db0
                     Sample.id_a Sample.id_a Sample.ani eq_refl eq_refl) eq_refl)
    as (db' & H1 & H2 & _).
  exists db'. split; [exact H1|exact H2].
Defined.

Lemma search_filters_failure_witness :
  date_valid (mkdate 2023 3 1) = true ∧
  search_filters (mkdate 2023 3 1) (Sample.ages (Some 2023) None)
    = Raise ValueError ∧
  search_filters (mkdate 2023 3 1) (Sample.ages None (Some 3000000000))
    = Raise OverflowError.
Proof.
  split; [reflexivity|]. split.
  - apply (proj2 (proj1 (proj2
      (search_filters_failure (mkdate 2023 3 1) (Sample.ages (Some 2023) None)
         eq_refl)))).
    left. exists 2023. split; [reflexivity|]. split; reflexivity.
  - apply (proj2 (proj1
      (search_filters_failure (mkdate 2023 3 1) (Sample.ages None (Some 3000000000))
         eq_refl))).
    right. exists 3000000000. split; [reflexivity|]. split; [reflexivity|].
    intros a Ha. discriminate Ha.
Defined.

Lemma search_single_age_on_leap_day_witness :
  search_filters (mkdate 2028 2 29) (Sample.ages (Some 30) (Some 30))
    = Raise ValueError ∧
  search_filters (mkdate 2028 2 29) (Sample.ages (Some 3000000000) (Some 3000000000))
    = Raise OverflowError.
Proof.
  split.
  - exact (search_single_age_on_leap_day (mkdate 2028 2 29) 30 eq_refl eq_refl).
  - exact (search_single_age_on_leap_day (mkdate 2028 2 29) 3000000000
             eq_refl eq_refl).
Defined.

Lemma search_results_sound_witness :
  ∃ results,
    search_profiles Hex.ObjectId_str Hex.re_search (mkdate 2024 3 1) Cases.db_city
        Cases.in_jakarta
      = Return results ∧
    (Sample.id_a, Cases.dewi) ∈ results ∧
    (Sample.id_b, User.set_approved true Sample.budi) ∉ results.
Proof.
  destruct (search_profiles_total Hex.ObjectId_str Hex.re_search (mkdate 2024 3 1)
              Cases.db_city Cases.in_jakarta) as (results & Hsearch).
  - intros a Ha. discriminate Ha.
  - intros b Hb. discriminate Hb.
  - destruct (search_results_sound Hex.ObjectId_str Hex.re_search (mkdate 2024 3 1)
                Cases.db_city Cases.in_jakarta results Hsearch)
      as (Hsound & Hcomplete).
    exists results. split; [exact Hsearch|]. split.
    + apply (Hcomplete eq_refl eq_refl eq_refl Sample.id_a Cases.dewi eq_refl).
      split; [reflexivity|]. split; [by intros r [= <-]|].
      split; [intros r Hr; discriminate Hr|]. split.
      { intros n [= <-]. exists 8000000. split; [reflexivity|]. lia. }
      split.
      { intros s [= <-] _. exists "Jakarta Selatan". split; reflexivity. }
      split; intros s Hs; discriminate Hs.
    + intros Hin. apply Hsound in Hin as (_ & _ & _ & _ & Hincome & _).
      destruct (Hincome 5000000 eq_refl) as (p & Hp & _). discriminate Hp.
Defined.


Lemma match_id_determines_pair_witness :
  (Sample.id_a = Sample.id_b ∧ Sample.id_b = Sample.id_a) ∨
  (Sample.id_a = Sample.id_a ∧ Sample.id_b = Sample.id_b).
Proof.
  apply (match_id_determines_pair Sample.id_a Sample.id_b Sample.id_b Sample.id_a);
    reflexivity.
Defined.

Lemma mutual_like_opens_chats_witness :
  ∃ db' chats u' last,
    like_user Hex.ObjectId_new Cases.db_liked (Like.mk Sample.id_a Sample.id_b)
      = Return (db', true) ∧
    get_user_chats Hex.ObjectId_new Hex.ObjectId_str db' Sample.id_b = Return chats ∧
    ((Sample.id_a, u'), last) ∈ chats.
Proof.
  destruct (proj1 (mutual_like_opens_chats Hex.ObjectId_new Hex.ObjectId_str
              Cases.db_liked
              (update_one Sample.id_b (User.addToSet_matches Sample.id_a)
                 (update_one Sample.id_a (User.addToSet_matches Sample.id_b)
                    (update_one Sample.id_a
                       (User.addToSet_liked_user_ids Sample.id_b) Cases.db_liked)))
              (Like.mk Sample.id_a Sample.id_b) Sample.id_a Sample.id_b
              Sample.ani (User.addToSet_liked_user_ids Sample.id_a Sample.budi)
              eq_refl eq_refl eq_refl eq_refl eq_refl
              (Forall_nil_2 _) (Forall_nil_2 _)))
    as (chats & u' & last & H1 & _ & H2).
  eexists _, chats, u', last. split; [reflexivity|]. split; [exact H1|exact H2].
Defined.
